(** * PRN Manager: the placeholder engine and the artifact registry of app.py

    A shallow embedding of the business logic of [src/app.py] and the
    properties its specification states about it.

    Text.  Python [str] values are modelled as [string], a sequence of
    characters with code points below 256.  The character classes used by
    the program ([str.strip], [str.lower], the regular expression classes)
    are written out on that range.

    Store.  The SQLite database is three tables, each a list of rows in
    rowid order; the upload tree is a finite map from path to file content. *)

From Stdlib Require Import ZArith NArith Ascii String List Bool Lia.
From Stdlib Require Import Sorting.Sorted Sorting.Permutation DecimalString.
From stdpp Require Import base option list gmap strings sorting.

Open Scope string_scope.
Open Scope list_scope.

(** ** Characters and basic string operations *)

Module Char.

Definition code (c : ascii) : N := N_of_ascii c.

Definition between (lo hi : N) (c : ascii) : bool :=
  ((lo <=? code c) && (code c <=? hi))%N.

(** [str.isspace] on code points below 256. *)
Definition isspace (c : ascii) : bool :=
  between 9 13 c || between 28 32 c
  || (code c =? 133)%N || (code c =? 160)%N.

(** Characters that [str.lower] changes below 256: the ASCII capitals and
    the Latin-1 capitals (all but the multiplication sign 215). *)
Definition isupper (c : ascii) : bool :=
  between 65 90 c || between 192 214 c || between 216 222 c.

Definition lower (c : ascii) : ascii :=
  if isupper c then ascii_of_N (code c + 32) else c.

(** The regular expression class [[A-Za-z0-9_]]. *)
Definition is_field_char (c : ascii) : bool :=
  between 65 90 c || between 97 122 c || between 48 57 c
  || (code c =? 95)%N.

Definition is_digit (c : ascii) : bool := between 48 57 c.
Definition is_octdigit (c : ascii) : bool := between 48 55 c.
Definition is_ascii_letter (c : ascii) : bool :=
  between 65 90 c || between 97 122 c.

End Char.

Module Str.

Definition is_empty (s : string) : bool :=
  match s with EmptyString => true | _ => false end.

Fixpoint map (f : ascii -> ascii) (s : string) : string :=
  match s with
  | EmptyString => EmptyString
  | String c r => String (f c) (map f r)
  end.

(** [s.lower()] *)
Definition lower (s : string) : string := map Char.lower s.

(** [s.lstrip(chars)], [s.rstrip(chars)], [s.strip(chars)] with the set of
    stripped characters given as a predicate. *)
Fixpoint lstrip_by (p : ascii -> bool) (s : string) : string :=
  match s with
  | EmptyString => EmptyString
  | String c r => if p c then lstrip_by p r else s
  end.

Fixpoint rstrip_by (p : ascii -> bool) (s : string) : string :=
  match s with
  | EmptyString => EmptyString
  | String c r =>
      let r' := rstrip_by p r in
      if p c && is_empty r' then EmptyString else String c r'
  end.

Definition strip_by (p : ascii -> bool) (s : string) : string :=
  rstrip_by p (lstrip_by p s).

(** [s.strip()] *)
Definition strip (s : string) : string := strip_by Char.isspace s.

Fixpoint mem_char (c : ascii) (chars : string) : bool :=
  match chars with
  | EmptyString => false
  | String d r => Ascii.eqb c d || mem_char c r
  end.

(** [s.strip(chars)] *)
Definition strip_chars (chars : string) (s : string) : string :=
  strip_by (fun c => mem_char c chars) s.

Fixpoint all (p : ascii -> bool) (s : string) : bool :=
  match s with
  | EmptyString => true
  | String c r => p c && all p r
  end.

(** [x in (a, b, ...)] for a tuple of strings. *)
Definition mem (x : string) (l : list string) : bool :=
  existsb (String.eqb x) l.

End Str.

(** ** Stage normalizer: [stage_folder_name] *)

Definition ALLOWED_STAGES : list string := ["Raw"; "SFG"; "FG"].

Definition raw_aliases : list string :=
  ["raw"; "rawmaterial"; "raw_material"; "raw material"].

Definition sfg_aliases : list string :=
  ["sfg"; "semi"; "semi_finished"; "semi_finished_good"; "semi finished";
   "semi-finished"; "semifinished"].

Definition fg_aliases : list string :=
  ["fg"; "finished"; "finished_good"; "finished good"; "finished-good"].

Definition stage_folder_name (stage_raw : string) : option string :=
  if Str.is_empty stage_raw then None
  else
    let s := Str.lower (Str.strip stage_raw) in
    if Str.mem s raw_aliases then Some "Raw"
    else if Str.mem s sfg_aliases then Some "SFG"
    else if Str.mem s fg_aliases then Some "FG"
    else if Str.mem stage_raw ALLOWED_STAGES then Some stage_raw
    else None.


(** ** Placeholder extractor: [extract_prn_columns] *)

Module Re.

(** [span p s]: the longest prefix of [s] whose characters satisfy [p],
    and what follows it (a greedy [[...]*]). *)
Fixpoint span (p : ascii -> bool) (s : string) : string * string :=
  match s with
  | EmptyString => (EmptyString, EmptyString)
  | String c r =>
      if p c then let '(a, b) := span p r in (String c a, b)
      else (EmptyString, s)
  end.

(** One attempt to match [\{[A-Za-z0-9_]+\}] at the start of [s]; the
    matched text when it succeeds.  The class excludes the closing brace,
    so backtracking on the greedy [+] can never find another match. *)
Definition match_placeholder (s : string) : option string :=
  match s with
  | EmptyString => None
  | String c r =>
      if Ascii.eqb c "{" then
        match span Char.is_field_char r with
        | (EmptyString, _) => None
        | (_, EmptyString) => None
        | (name, String d _) =>
            if Ascii.eqb d "}" then Some ("{" +:+ name +:+ "}") else None
        end
      else None
  end.

(** [re.findall(r"\{[A-Za-z0-9_]+\}", text)]: leftmost matches, the scan
    resuming after each match ([skip] characters are still covered by the
    last match). *)
Fixpoint findall_from (skip : nat) (text : string) : list string :=
  match text with
  | EmptyString => []
  | String _ r =>
      match skip with
      | S k => findall_from k r
      | O =>
          match match_placeholder text with
          | Some m => m :: findall_from (String.length m - 1) r
          | None => findall_from 0 r
          end
      end
  end.

Definition findall_placeholders (text : string) : list string :=
  findall_from 0 text.

End Re.

(** Python's [sorted]: a stable sort; [le x y] says that [x] may stay before
    [y].  Insertion from the right keeps equal elements in their order. *)
Fixpoint sorted_insert {A} (le : A -> A -> bool) (x : A) (l : list A) : list A :=
  match l with
  | [] => [x]
  | y :: l' => if le x y then x :: l else y :: sorted_insert le x l'
  end.

Fixpoint sorted {A} (le : A -> A -> bool) (l : list A) : list A :=
  match l with
  | [] => []
  | x :: l' => sorted_insert le x (sorted le l')
  end.

(** [set(...)] of strings, as the list of its distinct elements. *)
Definition set_of (l : list string) : list string := remove_dups l.

(** The body of [extract_prn_columns] after the file has been read. *)
Definition extract_fields (text : string) : list string :=
  let matches := Re.findall_placeholders text in
  sorted String.leb (set_of (List.map (Str.strip_chars "{}") matches)).

(** ** Template substitution engine: [_fill_prn_content] *)

(** A JSON value bound to a field: [null], a string or an integer of any
    size (other JSON values are outside the model).  What the database
    keeps of such a value is [Sql.as_text]; whether it can be bound to a
    statement at all is [Sql.bindable]. *)
Inductive value :=
| VNone
| VStr (s : string)
| VInt (n : Z).

Definition string_of_Z (n : Z) : string :=
  DecimalString.NilZero.string_of_int (Z.to_int n).

(** [str(v) if v is not None else ""] *)
Definition value_text (v : value) : string :=
  match v with
  | VNone => ""
  | VStr s => s
  | VInt n => string_of_Z n
  end.

(** A Python [dict] with string keys: the items in insertion order.  A
    well-formed dict holds each key once ([dict_wf]). *)
Definition dict (V : Type) : Type := list (string * V).

Definition dict_keys {V} (d : dict V) : list string := List.map fst d.

Definition dict_wf {V} (d : dict V) : Prop := NoDup (dict_keys d).

Fixpoint dict_get {V} (d : dict V) (k : string) : option V :=
  match d with
  | [] => None
  | (k', v) :: d' => if String.eqb k k' then Some v else dict_get d' k
  end.

Module Sub.

Definition backslash : ascii := ascii_of_N 92.

Definition is_backslash (c : ascii) : bool := (Char.code c =? 92)%N.

Definition has_backslash (s : string) : bool :=
  negb (Str.all (fun c => negb (is_backslash c)) s).

Definition octal_digit (c : ascii) : N := (Char.code c - 48)%N.

(** The simple escapes of a replacement template: [\a \b \f \n \r \t \v]
    and the escaped backslash. *)
Definition simple_escape (c : ascii) : option ascii :=
  if (Char.code c =? 97)%N then Some (ascii_of_N 7)
  else if (Char.code c =? 98)%N then Some (ascii_of_N 8)
  else if (Char.code c =? 102)%N then Some (ascii_of_N 12)
  else if (Char.code c =? 110)%N then Some (ascii_of_N 10)
  else if (Char.code c =? 114)%N then Some (ascii_of_N 13)
  else if (Char.code c =? 116)%N then Some (ascii_of_N 9)
  else if (Char.code c =? 118)%N then Some (ascii_of_N 11)
  else if (Char.code c =? 92)%N then Some backslash
  else None.

(** The replacement text that [re.sub] builds from the template [repl]
    for a pattern without groups whose match is the text [whole]
    (CPython's [parse_template] and [expand_template]); [None] when the
    template is rejected ([re.error], or [IndexError] for a group name).
    - a backslash at the end of the template is an error;
    - [\g<0...0>] is the whole match, every other [\g] form an error
      (the pattern has no groups, named or numbered; group numbers are
      read as CPython 3.12 reads them, ASCII digits only);
    - [\0], [\0o], [\0oo] are octal escapes (taken modulo 256);
    - [\ooo] with three octal digits is an octal escape, an error above
      octal 377; every other [\d...] is a reference to a group that does
      not exist, an error;
    - the simple escapes stand for their character; any other ASCII
      letter after a backslash is an error;
    - a backslash before any other character stays, with that
      character. *)
Fixpoint expand (whole : string) (repl : string) : option string :=
  match repl with
  | EmptyString => Some EmptyString
  | String c r =>
      if negb (is_backslash c) then String c <$> expand whole r
      else
        match r with
        | EmptyString => None
        | String d r1 =>
            if (Char.code d =? 103)%N then          (* \g *)
              match r1 with
              | String "<" r2 =>
                  (fix group_name (zeros : bool) (seen : bool) (t : string)
                     : option string :=
                     match t with
                     | EmptyString => None
                     | String e t' =>
                         if (Char.code e =? 62)%N then       (* > *)
                           if zeros && seen
                           then String.append whole <$> expand whole t'
                           else None
                         else
                           group_name (zeros && (Char.code e =? 48)%N)
                                      true t'
                     end) true false r2
              | _ => None
              end
            else if (Char.code d =? 48)%N then      (* \0, \0o, \0oo *)
              match r1 with
              | String o1 r2 =>
                  if Char.is_octdigit o1 then
                    match r2 with
                    | String o2 r3 =>
                        if Char.is_octdigit o2 then
                          String (ascii_of_N
                                    ((8 * octal_digit o1 + octal_digit o2)
                                     mod 256)) <$> expand whole r3
                        else
                          String (ascii_of_N (octal_digit o1))
                            <$> expand whole r2
                    | EmptyString =>
                        String (ascii_of_N (octal_digit o1))
                          <$> expand whole r2
                    end
                  else String (ascii_of_N 0) <$> expand whole r1
              | EmptyString => String (ascii_of_N 0) <$> expand whole r1
              end
            else if Char.is_digit d then            (* \1 .. \9 *)
              match r1 with
              | String d2 (String d3 r3) =>
                  if Char.is_octdigit d && Char.is_octdigit d2
                     && Char.is_octdigit d3 then
                    let n := (64 * octal_digit d + 8 * octal_digit d2
                              + octal_digit d3)%N in
                    if (n <=? 255)%N
                    then String (ascii_of_N n) <$> expand whole r3
                    else None
                  else None
              | _ => None
              end
            else
              match simple_escape d with
              | Some x => String x <$> expand whole r1
              | None =>
                  if Char.is_ascii_letter d then None
                  else (fun t => String c (String d t)) <$> expand whole r1
              end
        end
  end.

(** Is [p] a prefix of [s]? *)
Fixpoint starts_with (p s : string) : bool :=
  match p, s with
  | EmptyString, _ => true
  | String a p', String b s' => Ascii.eqb a b && starts_with p' s'
  | String _ _, EmptyString => false
  end.

(** Replace every occurrence of the non-empty literal [tok] in [text] by
    [rep], leftmost first, the scan resuming after each occurrence. *)
Fixpoint replace_from (skip : nat) (tok rep text : string) : string :=
  match text with
  | EmptyString => EmptyString
  | String c r =>
      match skip with
      | S k => replace_from k tok rep r
      | O =>
          if starts_with tok text
          then rep +:+ replace_from (String.length tok - 1) tok rep r
          else String c (replace_from 0 tok rep r)
      end
  end.

Definition replace_all (tok rep text : string) : string :=
  replace_from 0 tok rep text.

(** The placeholder token of a field: what the pattern
    [r"\{" + re.escape(k) + r"\}"] matches, the literal text [{k}]. *)
Definition token (k : string) : string := "{" +:+ k +:+ "}".

(** [re.sub(r"\{" + re.escape(k) + r"\}", v, text)].  A replacement
    without a backslash is used as it is; one with a backslash is a
    template, compiled before the text is searched. *)
Definition re_sub (k v text : string) : option string :=
  if has_backslash v
  then rep ← expand (token k) v; Some (replace_all (token k) rep text)
  else Some (replace_all (token k) v text).

End Sub.

(** The order in which [_fill_prn_content] visits the fields:
    [sorted(variables.keys(), key=lambda x: -len(x))]. *)
Definition longer_or_equal (x y : string) : bool :=
  (- Z.of_nat (String.length x) <=? - Z.of_nat (String.length y))%Z.

Definition fill_order {V} (variables : dict V) : list string :=
  sorted longer_or_equal (dict_keys variables).

(** One iteration of the loop of [_fill_prn_content]. *)
Definition fill_step (variables : dict value) (prn_content : string)
    (k : string) : option string :=
  let v := match dict_get variables k with
           | Some x => value_text x
           | None => ""          (* unreachable: [k] is a key *)
           end in
  Sub.re_sub k v prn_content.

(** [_fill_prn_content]; [None] when [re.sub] raises. *)
Definition _fill_prn_content (prn_content : string) (variables : dict value)
    : option string :=
  foldl (fun acc k => content ← acc; fill_step variables content k)
        (Some prn_content) (fill_order variables).

(** ** Paths: the functions of [os.path] that the program calls *)

Module Path.

Fixpoint rfind (c : ascii) (s : string) : option nat :=
  match s with
  | EmptyString => None
  | String d r =>
      match rfind c r with
      | Some i => Some (S i)
      | None => if Ascii.eqb d c then Some 0 else None
      end
  end.

Fixpoint take (n : nat) (s : string) : string :=
  match n, s with
  | S k, String c r => String c (take k r)
  | _, _ => EmptyString
  end.

Fixpoint drop (n : nat) (s : string) : string :=
  match n, s with
  | S k, String _ r => drop k r
  | _, _ => s
  end.

Fixpoint ends_with_slash (s : string) : bool :=
  match s with
  | EmptyString => false
  | String c EmptyString => Ascii.eqb c "/"
  | String _ r => ends_with_slash r
  end.

(** [os.path.splitext]: the extension starts at the last dot of the last
    component, unless only dots come before it in that component. *)
Definition splitext (p : string) : string * string :=
  match rfind "." p with
  | None => (p, "")
  | Some di =>
      let start := match rfind "/" p with Some si => S si | None => 0 end in
      if (start <=? di)%nat then
        if Str.all (fun c => Ascii.eqb c ".") (take (di - start) (drop start p))
        then (p, "")
        else (take di p, drop di p)
      else (p, "")
  end.

(** [os.path.join] on POSIX paths. *)
Definition join (a b : string) : string :=
  if Sub.starts_with "/" b then b
  else if Str.is_empty a || ends_with_slash a then a +:+ b
  else a +:+ "/" +:+ b.

Definition join3 (a b c : string) : string := join (join a b) c.

End Path.

Definition UPLOAD_FOLDER : string := "uploads".
Definition ALLOWED_EXTENSIONS : list string := ["prn"].

(** [allowed_file] *)
Definition allowed_file (filename : string) : bool :=
  match Path.rfind "." filename with
  | None => false
  | Some i => Str.mem (Str.lower (Path.drop (S i) filename)) ALLOWED_EXTENSIONS
  end.

(** ** The database *)

Record product_row := mk_product {
  product_id : Z;
  product_name : string
}.

Record variable_row := mk_variable {
  variable_id : Z;
  variable_product : Z;
  variable_stage : string;
  field_name : string;
  field_value : value
}.

Record prn_row := mk_prn {
  prn_id : Z;
  prn_product : Z;
  prn_stage : string;
  prn_filename : string;
  prn_path : string;
  preview_path : option string;
  uploaded_at : Z
}.

(** The three tables, rows in rowid order, and the AUTOINCREMENT counters
    (the rows of [sqlite_sequence]). *)
Record database := mk_database {
  products : list product_row;
  products_seq : Z;
  variables : list variable_row;
  variables_seq : Z;
  product_prns : list prn_row;
  product_prns_seq : Z
}.

Definition empty_database : database := mk_database [] 0 [] 0 [] 0.

Module Sql.

Definition product_named (name : string) (r : product_row) : bool :=
  String.eqb (product_name r) name.

(** [SELECT id FROM products WHERE product_name = ?], [fetchone] *)
Definition select_product_id (name : string) (d : database) : option Z :=
  product_id <$> List.find (product_named name) (products d).

(** [INSERT OR IGNORE INTO products (product_name) VALUES (?)]; the next
    id is drawn before the UNIQUE constraint is met, so the counter
    advances also when the insert is ignored. *)
Definition insert_or_ignore_product (name : string) (d : database) : database :=
  let id := (products_seq d + 1)%Z in
  if existsb (product_named name) (products d) then
    mk_database (products d) id
                (variables d) (variables_seq d)
                (product_prns d) (product_prns_seq d)
  else
    mk_database (products d ++ [mk_product id name]) id
                (variables d) (variables_seq d)
                (product_prns d) (product_prns_seq d).

Definition variable_keyed (pid : Z) (stage name : string) (r : variable_row)
    : bool :=
  (variable_product r =? pid)%Z && String.eqb (variable_stage r) stage
  && String.eqb (field_name r) name.

Definition set_variables (vs : list variable_row) (seq : Z) (d : database)
    : database :=
  mk_database (products d) (products_seq d) vs seq
              (product_prns d) (product_prns_seq d).

(** Binding a value to a parameter of a statement: a Python [int] that
    does not fit 64 bits raises [OverflowError] at [execute], before the
    statement runs. *)
Definition bindable (v : value) : bool :=
  match v with
  | VInt n => ((-9223372036854775808 <=? n) && (n <=? 9223372036854775807))%Z
  | _ => true
  end.

(** What the TEXT column [field_value] keeps of a value bound to it, and
    gives back when read: a number becomes its decimal text. *)
Definition as_text (v : value) : value :=
  match v with
  | VInt n => VStr (string_of_Z n)
  | _ => v
  end.

Definition with_field_value (v : value) (r : variable_row) : variable_row :=
  mk_variable (variable_id r) (variable_product r) (variable_stage r)
              (field_name r) v.

Definition with_field_name (n : string) (r : variable_row) : variable_row :=
  mk_variable (variable_id r) (variable_product r) (variable_stage r)
              n (field_value r).

(** [INSERT INTO variables ... ON CONFLICT(product_id, stage, field_name)
    DO UPDATE SET field_value = excluded.field_value], for a value that
    can be bound.  The next id is drawn before the conflict is met, so the
    counter advances also when the row is updated in place. *)
Definition upsert_variable (pid : Z) (stage name : string) (v : value)
    (d : database) : database :=
  let id := (variables_seq d + 1)%Z in
  if existsb (variable_keyed pid stage name) (variables d) then
    set_variables
      (List.map (fun r => if variable_keyed pid stage name r
                          then with_field_value (as_text v) r else r)
                (variables d))
      id d
  else
    set_variables (variables d ++ [mk_variable id pid stage name (as_text v)])
                  id d.

(** [SELECT id FROM variables WHERE product_id = ? AND stage = ? AND
    field_name = ?], [fetchone] *)
Definition select_variable_id (pid : Z) (stage name : string) (d : database)
    : option Z :=
  variable_id <$> List.find (variable_keyed pid stage name) (variables d).

(** [UPDATE variables SET field_name = ? WHERE id = ?] *)
Definition update_field_name (id : Z) (n : string) (d : database) : database :=
  set_variables
    (List.map (fun r => if (variable_id r =? id)%Z
                        then with_field_name n r else r) (variables d))
    (variables_seq d) d.

(** [UPDATE variables SET field_value = ? WHERE id = ?], for a value that
    can be bound. *)
Definition update_field_value (id : Z) (v : value) (d : database) : database :=
  set_variables
    (List.map (fun r => if (variable_id r =? id)%Z
                        then with_field_value (as_text v) r else r)
              (variables d))
    (variables_seq d) d.

(** [SELECT field_name, field_value FROM variables WHERE product_id = ?
    AND stage = ?] *)
Definition select_variables (pid : Z) (stage : string) (d : database)
    : list variable_row :=
  List.filter (fun r => (variable_product r =? pid)%Z
                        && String.eqb (variable_stage r) stage)
              (variables d).

Definition prn_keyed (pid : Z) (stage filename : string) (r : prn_row) : bool :=
  (prn_product r =? pid)%Z && String.eqb (prn_stage r) stage
  && String.eqb (prn_filename r) filename.

Definition set_product_prns (ps : list prn_row) (seq : Z) (d : database)
    : database :=
  mk_database (products d) (products_seq d) (variables d) (variables_seq d)
              ps seq.

(** [INSERT INTO product_prns (product_id, stage, prn_filename, prn_path)
    VALUES (?, ?, ?, ?)]; [None] is [sqlite3.IntegrityError], raised by
    UNIQUE(product_id, stage, prn_filename) or by the CHECK on stage. *)
Definition insert_prn (pid : Z) (stage filename path : string) (now : Z)
    (d : database) : option database :=
  if existsb (prn_keyed pid stage filename) (product_prns d) then None
  else if negb (Str.mem stage ALLOWED_STAGES) then None
  else
    let id := (product_prns_seq d + 1)%Z in
    Some (set_product_prns
            (product_prns d ++ [mk_prn id pid stage filename path None now])
            id d).

Definition with_preview_path (p : option string) (r : prn_row) : prn_row :=
  mk_prn (prn_id r) (prn_product r) (prn_stage r) (prn_filename r)
         (prn_path r) p (uploaded_at r).

(** [UPDATE product_prns SET preview_path = ? WHERE product_id = ? AND
    stage = ? AND prn_filename = ?] *)
Definition update_preview_path (preview : string) (pid : Z)
    (stage filename : string) (d : database) : database :=
  set_product_prns
    (List.map (fun r => if prn_keyed pid stage filename r
                        then with_preview_path (Some preview) r else r)
              (product_prns d))
    (product_prns_seq d) d.

(** [SELECT ... FROM product_prns WHERE product_id = ? AND stage = ? AND
    prn_filename = ?], [fetchone] *)
Definition select_prn (pid : Z) (stage filename : string) (d : database)
    : option prn_row :=
  List.find (prn_keyed pid stage filename) (product_prns d).

(** [DELETE FROM product_prns WHERE id = ?] *)
Definition delete_prn_by_id (id : Z) (d : database) : database :=
  set_product_prns
    (List.filter (fun r => negb (prn_id r =? id)%Z) (product_prns d))
    (product_prns_seq d) d.

(** [SELECT prn_filename, prn_path FROM product_prns WHERE product_id = ?
    AND stage = ? ORDER BY uploaded_at DESC LIMIT 1]; among rows of the
    same second the one first in rowid order. *)
Definition select_latest_prn (pid : Z) (stage : string) (d : database)
    : option prn_row :=
  head (sorted (fun a b => (uploaded_at b <=? uploaded_at a)%Z)
          (List.filter (fun r => (prn_product r =? pid)%Z
                                 && String.eqb (prn_stage r) stage)
                       (product_prns d))).

End Sql.

(** ** The world outside: files, clock, the Labelary service, the log *)

Inductive io_op := IoMkdir | IoWrite | IoRead | IoRemove.

(** What [requests.post] does: a response, or an exception (connection
    failure, timeout). *)
Inductive http_outcome :=
| HttpResponse (status : Z) (body : string)
| HttpException.

(** One reading of [datetime.utcnow().timestamp()]: the value of
    [int(ts)] and of [int(ts * 1000)]. *)
Record clock_reading := mk_clock {
  unix_seconds : Z;
  unix_millis : Z
}.

(** The environment of one request.
    - [io_fails op path]: the file operation raises [OSError];
    - [labelary n]: the outcome of the [n]-th request sent to Labelary;
    - [utcnow n]: the [n]-th clock reading of the request (0 for a file
      name, 1 and 2 for the fallback name, 3 for [created_at]);
    - [current_timestamp]: SQLite's CURRENT_TIMESTAMP. *)
Record env := mk_env {
  io_fails : io_op -> string -> bool;
  labelary : nat -> http_outcome;
  utcnow : nat -> clock_reading;
  current_timestamp : Z
}.

Inductive log_level := LogInfo | LogWarning | LogException.

(** The effects of a request, in the order in which they happen. *)
Inductive event :=
| EvDbWrite (table : string)
| EvCommit
| EvFileWrite (path : string)
| EvFileRemove (path : string) (removed : bool)
| EvPreviewRequest (prn_path : string)
| EvLog (level : log_level) (message : string).

Record state := mk_state {
  db : database;
  files : gmap string string;
  trace : list event
}.

Definition initial_state : state := mk_state empty_database ∅ [].

(** The HTTP response of a handler: [jsonify_error(msg, code)] or
    [jsonify(payload)]. *)
Inductive json :=
| JNull
| JStr (s : string)
| JStrs (l : list string)
| JTime (t : clock_reading).          (* [datetime.utcnow().isoformat()] *)

Inductive response :=
| Error (code : Z) (msg : string)
| Ok (payload : list (string * json)).

Definition status_code (r : response) : Z :=
  match r with
  | Error code _ => code
  | Ok _ => 200
  end.

(** ** Handlers as state transformers with early return *)

Inductive outcome (A : Type) :=
| Done (r : response)
| Next (a : A).
Arguments Done {A} r.
Arguments Next {A} a.

Definition M (A : Type) : Type := state -> state * outcome A.

Definition ret {A} (a : A) : M A := fun st => (st, Next a).

Definition bind {A B} (m : M A) (k : A -> M B) : M B :=
  fun st =>
    match m st with
    | (st', Done r) => (st', Done r)
    | (st', Next a) => k a st'
    end.

#[global] Instance M_ret : MRet M := @ret.
#[global] Instance M_bind : MBind M := fun A B k m => bind m k.

(** [return r] in a handler. *)
Definition reply {A} (r : response) : M A := fun st => (st, Done r).

Definition get_db : M database := fun st => (st, Next (db st)).
Definition get_files : M (gmap string string) := fun st => (st, Next (files st)).
Definition get_trace : M (list event) := fun st => (st, Next (trace st)).

Definition emit (e : event) : M unit :=
  fun st => (mk_state (db st) (files st) (trace st ++ [e]), Next tt).

Definition log (level : log_level) (message : string) : M unit :=
  emit (EvLog level message).

(** A modifying statement on [table]. *)
Definition execute (table : string) (f : database -> database) : M unit :=
  fun st =>
    (mk_state (f (db st)) (files st) (trace st ++ [EvDbWrite table]), Next tt).

(** A modifying statement that may raise [sqlite3.IntegrityError]: [false]
    when it does, and the table is as before. *)
Definition try_execute (table : string) (f : database -> option database)
    : M bool :=
  fun st =>
    match f (db st) with
    | Some d' =>
        (mk_state d' (files st) (trace st ++ [EvDbWrite table]), Next true)
    | None => (st, Next false)
    end.

Definition commit : M unit := emit EvCommit.

(** The statements run since the last commit are lost: a request that
    ends on an exception never commits them, and closing the connection
    rolls them back.  [committed] is the database of the last commit. *)
Definition rollback (committed : database) : M unit :=
  fun st => (mk_state committed (files st) (trace st), Next tt).

(** A file is written in full: [file.save], [open(path, "w")] and
    [write]. *)
Definition write_file (path content : string) : M unit :=
  fun st =>
    (mk_state (db st) (<[path := content]> (files st))
              (trace st ++ [EvFileWrite path]), Next tt).

(** A successful [os.remove(path)]. *)
Definition remove_file (path : string) : M unit :=
  fun st =>
    (mk_state (db st) (delete path (files st))
              (trace st ++ [EvFileRemove path true]), Next tt).

Definition when (b : bool) (m : M unit) : M unit :=
  if b then m else ret tt.

(** The response of a handler run from state [st], and the state it leaves. *)
Definition run (h : M response) (st : state) : state * response :=
  match h st with
  | (st', Done r) => (st', r)
  | (st', Next r) => (st', r)
  end.

(** [a or b] on optional strings: [None] and the empty string are falsy. *)
Definition py_or (a b : option string) : option string :=
  match a with
  | Some s => if Str.is_empty s then b else a
  | None => b
  end.

Definition or_empty (a : option string) : string := default "" a.

(** ** The request handlers *)

Fixpoint for_each {A} (l : list A) (f : A -> M unit) : M unit :=
  match l with
  | [] => ret tt
  | x :: l' => f x;; for_each l' f
  end.

Definition count_preview_requests (t : list event) : nat :=
  length (List.filter (fun ev => match ev with
                                 | EvPreviewRequest _ => true
                                 | _ => false
                                 end) t).

(** [os.path.exists] on the upload tree (files only). *)
Definition path_exists (fs : gmap string string) (path : string) : bool :=
  bool_decide (is_Some (fs !! path)).

(** [generate_preview]: posts the PRN file to Labelary and stores the PNG;
    never raises, answers [False] on every failure. *)
Definition generate_preview (e : env) (prn_path out_path : string) : M bool :=
  fs ← get_files;
  if negb (path_exists fs prn_path) || io_fails e IoRead prn_path then
    log LogException "Exception while generating label preview";; ret false
  else
    t ← get_trace;
    emit (EvPreviewRequest prn_path);;
    match labelary e (count_preview_requests t) with
    | HttpException =>
        log LogException "Exception while generating label preview";;
        ret false
    | HttpResponse status body =>
        if (status =? 200)%Z then
          if io_fails e IoWrite out_path then
            log LogException "Exception while generating label preview";;
            ret false
          else
            write_file out_path body;;
            ret true
        else
          log LogWarning "Labelary preview failed";; ret false
    end.

(** [extract_prn_columns]: [None] when reading the file raises. *)
Definition extract_prn_columns (e : env) (fs : gmap string string)
    (file_path : string) : option (list string) :=
  if io_fails e IoRead file_path then None
  else extract_fields <$> fs !! file_path.

(** [require_stage_from_request]: the stage of the JSON body, else of the
    query string, else of the form. *)
Definition require_stage_from_request (body_stage args_stage form_stage
    : option string) : option string :=
  stage_folder_name (or_empty (py_or body_stage (py_or args_stage form_stage))).

(** [d[k] = v] *)
Fixpoint dict_set {V} (d : dict V) (k : string) (v : V) : dict V :=
  match d with
  | [] => [(k, v)]
  | (k', v') :: d' =>
      if String.eqb k k' then (k, v) :: d' else (k', v') :: dict_set d' k v
  end.

Record upload_request := mk_upload {
  up_file : option (string * string);     (* filename and content *)
  up_form_product_name : option string;
  up_args_product_name : option string;
  up_form_product : option string;
  up_args_product : option string;
  up_form_stage : option string;
  up_args_stage : option string
}.

Inductive variables_arg :=
| VarsAbsent
| VarsNotObject
| VarsObject (d : dict value).

Record save_fields_request := mk_save_fields {
  sf_product_name : option string;
  sf_stage : option string;
  sf_args_stage : option string;
  sf_form_stage : option string;
  sf_variables : variables_arg;
  sf_generate_filled : bool;
  sf_source_prn_filename : option string
}.

Record update_variable_request := mk_update_variable {
  uv_product_name : option string;
  uv_stage : option string;
  uv_args_stage : option string;
  uv_form_stage : option string;
  uv_old_field_name : option string;
  uv_new_field_name : option string;
  uv_new_field_value : option value;      (* [Some VNone] is a JSON null *)
  uv_generate_filled : bool;
  uv_source_prn_filename : option string
}.

Record delete_prn_request := mk_delete_prn {
  dp_product_name : option string;
  dp_stage : option string;
  dp_prn_filename : option string
}.

Section Handlers.

(** [werkzeug.utils.secure_filename], a function of the web framework. *)
Variable secure_filename : string -> string.

(** The word characters of [\w] below 256. *)
Definition is_word_char (c : ascii) : bool :=
  Char.between 48 57 c || Char.between 65 90 c || (Char.code c =? 95)%N
  || Char.between 97 122 c || (Char.code c =? 170)%N
  || Char.between 178 179 c || (Char.code c =? 181)%N
  || Char.between 185 186 c || Char.between 188 190 c
  || Char.between 192 214 c || Char.between 216 246 c
  || Char.between 248 255 c.

(** [normalize_product_folder_name] *)
Definition normalize_product_folder_name (product_name : string) : string :=
  if Str.is_empty product_name then ""
  else
    let safe := secure_filename product_name in
    if negb (Str.is_empty safe) then safe
    else
      Str.strip
        (Str.map (fun c => if is_word_char c || Str.mem_char c "-_. "
                           then c else "_"%char) product_name).

(** [upload_file]: POST /upload *)
Definition upload_file (e : env) (rq : upload_request) : M response :=
  match up_file rq with
  | None => reply (Error 400 "no file part")
  | Some (file_filename, content) =>
      let product_name :=
        Str.strip (or_empty (py_or (up_form_product_name rq)
                            (py_or (up_args_product_name rq)
                            (py_or (up_form_product rq)
                                   (up_args_product rq))))) in
      let stage_raw :=
        Str.strip (or_empty (py_or (up_form_stage rq) (up_args_stage rq))) in
      if Str.is_empty product_name then
        reply (Error 400 "product_name required")
      else
      match stage_folder_name stage_raw with
      | None => reply (Error 400 "invalid or missing stage; allowed: Raw, SFG, FG")
      | Some stage =>
      if Str.is_empty file_filename then reply (Error 400 "no selected file")
      else if negb (allowed_file file_filename) then
        reply (Error 400 "only .prn files allowed")
      else
      let filename := secure_filename file_filename in
      let safe_product := normalize_product_folder_name product_name in
      let product_dir := Path.join3 UPLOAD_FOLDER safe_product stage in
      if io_fails e IoMkdir product_dir then
        log LogException "Failed to create folder for product uploads";;
        reply (Error 500 "failed to create product upload folder")
      else
      fs ← get_files;
      let filename :=
        if path_exists fs (Path.join product_dir filename) then
          let '(base, ext) := Path.splitext filename in
          base +:+ "_" +:+ string_of_Z (unix_seconds (utcnow e 0)) +:+ ext
        else filename in
      let save_path := Path.join product_dir filename in
      if io_fails e IoWrite save_path then
        log LogException "Error saving uploaded file";;
        reply (Error 500 "failed to save file")
      else
      write_file save_path content;;
      fs ← get_files;
      match extract_prn_columns e fs save_path with
      | None =>
          log LogException "Error parsing PRN file";;
          reply (Error 500 "failed to parse file")
      | Some fields =>
      execute "products" (Sql.insert_or_ignore_product product_name);;
      commit;;
      d ← get_db;
      match Sql.select_product_id product_name d with
      | None => reply (Error 500 "failed to create or fetch product")
      | Some pid =>
      inserted ← try_execute "product_prns"
                   (Sql.insert_prn pid stage filename save_path
                      (current_timestamp e));
      if negb inserted then
        log LogWarning "PRN registration duplicate";;
        reply (Error 409 "PRN registration failed (possible duplicate)")
      else
      commit;;
      let preview_fname := fst (Path.splitext filename) +:+ ".png" in
      let preview_full := Path.join product_dir preview_fname in
      preview_ok ← generate_preview e save_path preview_full;
      when preview_ok
        (execute "product_prns"
           (Sql.update_preview_path preview_full pid stage filename);;
         commit);;
      fs ← get_files;
      let preview_url :=
        if path_exists fs
             (Path.join product_dir
                (fst (Path.splitext filename) +:+ ".png"))
        then JStr ("/preview/" +:+ product_name +:+ "/" +:+ stage +:+ "/"
                   +:+ filename)
        else JNull in
      ret (Ok [("message", JStr "uploaded"); ("filename", JStr filename);
               ("stage", JStr stage); ("saved_path", JStr save_path);
               ("fields", JStrs fields); ("preview_url", preview_url)])
      end end end
  end.

(** The block that [save_fields] and [update_variable] both carry: fill
    the source PRN, store the result under a fresh name, register it and
    ask for its preview.  Every exception inside is logged under
    [failure] and ends the block; the result is the name of the filled
    PRN and whether its preview file exists. *)
Definition generate_filled_prn (e : env) (failure : string)
    (product_dir src_fname : string) (pid : Z) (stage : string)
    (variables : dict value) : M (option (string * bool)) :=
  let failed : M (option (string * bool)) :=
    log LogException failure;; ret None in
  let src_path := Path.join product_dir src_fname in
  fs ← get_files;
  match (if io_fails e IoRead src_path then None else fs !! src_path) with
  | None => failed
  | Some src_content =>
  match _fill_prn_content src_content variables with
  | None => failed
  | Some filled_content =>
  let '(base, ext) := Path.splitext src_fname in
  let filled_fname :=
    base +:+ "_filled_" +:+ string_of_Z (unix_seconds (utcnow e 0)) +:+ ext in
  let filled_path := Path.join product_dir filled_fname in
  if io_fails e IoWrite filled_path then failed
  else
  write_file filled_path filled_content;;
  inserted ← try_execute "product_prns"
               (Sql.insert_prn pid stage filled_fname filled_path
                  (current_timestamp e));
  registered ←
    (if inserted : bool then
       commit;; ret (Some (filled_fname, filled_path))
     else
       (* fallback: a name with a second, finer time stamp *)
       let filled_fname :=
         base +:+ "_filled_" +:+ string_of_Z (unix_seconds (utcnow e 1))
              +:+ "_" +:+ string_of_Z (unix_millis (utcnow e 2)) +:+ ext in
       let filled_path := Path.join product_dir filled_fname in
       if io_fails e IoWrite filled_path then ret None
       else
         write_file filled_path filled_content;;
         inserted ← try_execute "product_prns"
                      (Sql.insert_prn pid stage filled_fname filled_path
                         (current_timestamp e));
         if inserted : bool then
           commit;; ret (Some (filled_fname, filled_path))
         else ret None);
  match registered with
  | None => failed
  | Some (filled_fname, filled_path) =>
      let preview_fname := fst (Path.splitext filled_fname) +:+ ".png" in
      let preview_full := Path.join product_dir preview_fname in
      preview_ok ← generate_preview e filled_path preview_full;
      when preview_ok
        (execute "product_prns"
           (Sql.update_preview_path preview_full pid stage filled_fname);;
         commit);;
      fs ← get_files;
      ret (Some (filled_fname, path_exists fs preview_full))
  end
  end end.

Definition filled_info (product_name stage : string)
    (r : string * bool) : list (string * json) :=
  let '(filled_fname, has_preview) := r in
  [("filled_prn_filename", JStr filled_fname);
   ("preview_url",
    if has_preview
    then JStr ("/preview/" +:+ product_name +:+ "/" +:+ stage +:+ "/"
               +:+ filled_fname)
    else JNull)].

(** [save_fields]: POST /save-fields *)
Definition save_fields (e : env) (data : option save_fields_request)
    : M response :=
  match data with
  | None => reply (Error 400 "provide product_name and variables")
  | Some data =>
  match sf_product_name data, sf_variables data with
  | None, _ | _, VarsAbsent =>
      reply (Error 400 "provide product_name and variables")
  | Some raw_name, vars =>
  match require_stage_from_request (sf_stage data) (sf_args_stage data)
          (sf_form_stage data) with
  | None => reply (Error 400 "stage required and must be one of: Raw, SFG, FG")
  | Some stage =>
  let product_name := Str.strip raw_name in
  if Str.is_empty product_name then
    reply (Error 400 "product_name cannot be empty")
  else
  match vars with
  | VarsAbsent | VarsNotObject =>
      reply (Error 400 "variables must be a JSON object mapping field_name -> value")
  | VarsObject variables =>
  execute "products" (Sql.insert_or_ignore_product product_name);;
  commit;;
  d ← get_db;
  match Sql.select_product_id product_name d with
  | None => reply (Error 500 "failed to create or fetch product")
  | Some product_id =>
  for_each variables
    (fun '(field_name, field_value) =>
       if Sql.bindable field_value then
         execute "variables"
           (Sql.upsert_variable product_id stage field_name field_value)
       else
         (* the outer [except Exception]; the upserts of this request
            were not committed *)
         rollback d;;
         log LogException "Failed to save fields";;
         reply (Error 500 "failed to save variable(s)"));;
  commit;;
  filled ←
    match sf_generate_filled data, sf_source_prn_filename data with
    | true, Some source =>
        if Str.is_empty source then ret None
        else
          let safe_product := normalize_product_folder_name product_name in
          let product_dir := Path.join3 UPLOAD_FOLDER safe_product stage in
          let src_fname := secure_filename source in
          fs ← get_files;
          if path_exists fs (Path.join product_dir src_fname) then
            generate_filled_prn e "Failed to generate filled PRN"
              product_dir src_fname product_id stage variables
          else ret None
    | _, _ => ret None
    end;
  ret (Ok ([("message", JStr "saved/merged");
            ("product_name", JStr product_name); ("stage", JStr stage)]
           ++ match filled with
              | Some r => filled_info product_name stage r
              | None => []
              end))
  end end end end
  end.

(** [update_variable]: PUT /update-variable *)
Definition update_variable (e : env) (data : option update_variable_request)
    : M response :=
  let missing : M response :=
    reply (Error 400 "product_name, old_field_name and (new_field_name or new_field_value) required") in
  match data with
  | None => missing
  | Some data =>
  match uv_product_name data, uv_old_field_name data with
  | Some raw_name, Some raw_old =>
  if negb (bool_decide (is_Some (uv_new_field_name data))
           || bool_decide (is_Some (uv_new_field_value data)))
  then missing
  else
  match require_stage_from_request (uv_stage data) (uv_args_stage data)
          (uv_form_stage data) with
  | None => reply (Error 400 "stage required and must be one of: Raw, SFG, FG")
  | Some stage =>
  let product_name := Str.strip raw_name in
  let old := Str.strip raw_old in
  let new_name := Str.strip (default old (uv_new_field_name data)) in
  let new_value := default VNone (uv_new_field_value data) in
  d ← get_db;
  match Sql.select_product_id product_name d with
  | None => reply (Error 404 "product not found")
  | Some product_id =>
  match Sql.select_variable_id product_id stage old d with
  | None => reply (Error 404 "variable not found")
  | Some var_id =>
  if negb (String.eqb new_name old)
     && bool_decide (is_Some (Sql.select_variable_id product_id stage
                                new_name d))
  then reply (Error 409 "target variable name already exists for this product+stage")
  else
  when (negb (String.eqb new_name old))
    (execute "variables" (Sql.update_field_name var_id new_name));;
  match new_value with
  | VNone => ret tt
  | _ =>
      if Sql.bindable new_value then
        execute "variables" (Sql.update_field_value var_id new_value)
      else
        (* [except Exception]; the rename above was not committed *)
        rollback d;;
        log LogException "Error updating variable";;
        reply (Error 500 "failed to update variable")
  end;;
  commit;;
  let response :=
    [("message", JStr "variable updated"); ("field_name", JStr new_name);
     ("product_name", JStr product_name); ("stage", JStr stage)] in
  if negb (uv_generate_filled data) then ret (Ok response)
  else
  d ← get_db;
  let variables :=
    foldl (fun acc r => dict_set acc (field_name r) (field_value r)) []
          (Sql.select_variables product_id stage d) in
  let variables :=
    dict_set variables new_name
      (match new_value with
       | VNone => default (VStr "") (dict_get variables new_name)
       | _ => new_value
       end) in
  let src_fname :=
    match uv_source_prn_filename data with
    | Some source =>
        if Str.is_empty source
        then prn_filename <$> Sql.select_latest_prn product_id stage d
        else Some (secure_filename source)
    | None => prn_filename <$> Sql.select_latest_prn product_id stage d
    end in
  match src_fname with
  | None =>
      log LogInfo "No source PRN found to generate filled PRN after variable update";;
      ret (Ok response)
  | Some src_fname =>
  if Str.is_empty src_fname then
    log LogInfo "No source PRN found to generate filled PRN after variable update";;
    ret (Ok response)
  else
  let safe_product := normalize_product_folder_name product_name in
  let product_dir := Path.join3 UPLOAD_FOLDER safe_product stage in
  fs ← get_files;
  if path_exists fs (Path.join product_dir src_fname) then
    filled ← generate_filled_prn e
               "Failed to create filled PRN after variable update"
               product_dir src_fname product_id stage variables;
    ret (Ok (response ++ match filled with
                         | Some r =>
                             filled_info product_name stage r
                             ++ (if snd r
                                 then [("created_at", JTime (utcnow e 3))]
                                 else [])
                         | None => []
                         end))
  else
    log LogWarning "Requested source_prn_filename does not exist for generation";;
    ret (Ok response)
  end end end end
  | _, _ => missing
  end
  end.

(** [os.remove(path)] guarded by [if path and os.path.exists(path)];
    [false] when it raises. *)
Definition remove_if_exists (e : env) (path : option string) : M bool :=
  match path with
  | None => ret true
  | Some p =>
      fs ← get_files;
      if Str.is_empty p || negb (path_exists fs p) then ret true
      else if io_fails e IoRemove p then
        emit (EvFileRemove p false);; ret false
      else
        remove_file p;; ret true
  end.

(** [delete_prn]: DELETE /delete-prn *)
Definition delete_prn (e : env) (data : option delete_prn_request)
    : M response :=
  match data with
  | None => reply (Error 400 "invalid json body")
  | Some data =>
  match dp_product_name data with
  | None => reply (Error 400 "product_name required")
  | Some raw_name =>
  match dp_stage data with
  | None => reply (Error 400 "stage required")
  | Some raw_stage =>
  match dp_prn_filename data with
  | None => reply (Error 400 "prn_filename required")
  | Some raw_filename =>
  match stage_folder_name raw_stage with
  | None => reply (Error 400 "invalid stage")
  | Some st =>
  let pname := Str.strip raw_name in
  let fname := secure_filename raw_filename in
  d ← get_db;
  match Sql.select_product_id pname d with
  | None => reply (Error 404 "product not found")
  | Some pid =>
  match Sql.select_prn pid st fname d with
  | None => reply (Error 404 "prn not found")
  | Some r =>
  execute "product_prns" (Sql.delete_prn_by_id (prn_id r));;
  commit;;
  (* best-effort file removal *)
  removed ← remove_if_exists e (Some (prn_path r));
  removed ←
    (if removed : bool then remove_if_exists e (preview_path r)
     else (ret false : M bool));
  when (negb removed)
    (log LogWarning "Error removing files during delete-prn");;
  ret (Ok [("message", JStr "deleted"); ("prn_filename", JStr fname)])
  end end end end end end
  end.

End Handlers.

(** [werkzeug.utils.secure_filename] on ASCII names, where its Unicode
    normalisation is the identity: path separators become spaces, runs of
    whitespace become one underscore, every character outside
    [[A-Za-z0-9_.-]] is dropped, and dots and underscores are stripped from
    both ends.  Characters above 127 are dropped.  The handlers are run
    with it on concrete requests. *)
Module Werkzeug.

Fixpoint join_words (s : string) : string :=
  match s with
  | EmptyString => EmptyString
  | String c r =>
      if Char.isspace c then
        match r with
        | EmptyString => EmptyString
        | String d _ =>
            if Char.isspace d then join_words r
            else String "_" (join_words r)
        end
      else String c (join_words r)
  end.

Fixpoint keep (p : ascii -> bool) (s : string) : string :=
  match s with
  | EmptyString => EmptyString
  | String c r => if p c then String c (keep p r) else keep p r
  end.

Definition secure_filename (filename : string) : string :=
  let ascii_only := keep (fun c => (Char.code c <? 128)%N) filename in
  let spaced := Str.map (fun c => if Ascii.eqb c "/" then " "%char else c)
                        ascii_only in
  let joined := join_words (Str.lstrip_by Char.isspace spaced) in
  Str.strip_chars "._"
    (keep (fun c => Char.is_field_char c || Str.mem_char c ".-") joined).

End Werkzeug.

(** ** The other handlers *)

(** The handlers below are modelled with typed answers: a handler of type
    [M A] ends with an error response ([Done]) or yields the payload of its
    200 answer ([Next]). *)

Module Query.

(** [INSERT INTO products (product_name) VALUES (?)]; the caller has
    checked that the name is new. *)
Definition insert_product (name : string) (d : database) : database :=
  let id := (products_seq d + 1)%Z in
  mk_database (products d ++ [mk_product id name]) id
              (variables d) (variables_seq d)
              (product_prns d) (product_prns_seq d).

(** [INSERT INTO variables (product_id, stage, field_name, field_value)
    VALUES (?, ?, ?, ?)], for a value that can be bound; [None] is
    [sqlite3.IntegrityError], raised by UNIQUE(product_id, stage,
    field_name), which leaves the counter as it was. *)
Definition insert_variable (pid : Z) (stage name : string) (v : value)
    (d : database) : option database :=
  if existsb (Sql.variable_keyed pid stage name) (variables d) then None
  else
    let id := (variables_seq d + 1)%Z in
    Some (Sql.set_variables
            (variables d ++ [mk_variable id pid stage name (Sql.as_text v)])
            id d).

(** [DELETE FROM variables WHERE product_id = ? AND stage = ? AND
    field_name = ?] *)
Definition delete_variable (pid : Z) (stage name : string) (d : database)
    : database :=
  Sql.set_variables
    (List.filter (fun r => negb (Sql.variable_keyed pid stage name r))
                 (variables d))
    (variables_seq d) d.

(** The [rowcount] of that DELETE. *)
Definition delete_variable_rowcount (pid : Z) (stage name : string)
    (d : database) : nat :=
  length (List.filter (Sql.variable_keyed pid stage name) (variables d)).

(** The NOCASE collation: the ASCII capitals are folded, then code points
    are compared. *)
Definition nocase_fold (c : ascii) : ascii :=
  if Char.between 65 90 c then ascii_of_N (Char.code c + 32) else c.

Definition nocase_leb (a b : string) : bool :=
  String.leb (Str.map nocase_fold a) (Str.map nocase_fold b).

(** [SELECT id, product_name FROM products ORDER BY product_name COLLATE
    NOCASE]; names that differ in case only stay in rowid order. *)
Definition select_products (d : database) : list product_row :=
  sorted (fun a b => nocase_leb (product_name a) (product_name b))
         (products d).

(** [SELECT ... FROM product_prns WHERE product_id = ? AND stage = ? ORDER
    BY uploaded_at DESC]; rows of the same second stay in rowid order. *)
Definition select_prns (pid : Z) (stage : string) (d : database)
    : list prn_row :=
  sorted (fun a b => (uploaded_at b <=? uploaded_at a)%Z)
         (List.filter (fun r => (prn_product r =? pid)%Z
                                && String.eqb (prn_stage r) stage)
                      (product_prns d)).

(** [SELECT COUNT(1) FROM product_prns WHERE product_id = ? AND stage = ?] *)
Definition count_prns (pid : Z) (stage : string) (d : database) : nat :=
  length (List.filter (fun r => (prn_product r =? pid)%Z
                                && String.eqb (prn_stage r) stage)
                      (product_prns d)).

End Query.

(** [re.search(r"\{" + re.escape(var) + r"\}", text)] as a truth value:
    does the token of [var] occur in [text]? *)
Fixpoint contains (tok text : string) : bool :=
  Sub.starts_with tok text
  || match text with
     | EmptyString => false
     | String _ r => contains tok r
     end.

Record create_product_request := mk_create_product {
  cp_product_name : option string
}.

Record add_variable_request := mk_add_variable {
  av_product_name : option string;
  av_stage : option string;
  av_args_stage : option string;
  av_form_stage : option string;
  av_field_name : option string;
  av_field_value : option value          (* [None]: the key is absent *)
}.

Record delete_variable_request := mk_delete_variable {
  dv_product_name : option string;
  dv_stage : option string;
  dv_args_stage : option string;
  dv_form_stage : option string;
  dv_field_name : option string
}.

Record match_request := mk_match {
  mr_product_name : option string;
  mr_stage : option string;
  mr_args_stage : option string;
  mr_form_stage : option string;
  mr_prn_content : option string
}.

(** One entry of "prns_for_stage" in the answer of [get_product]. *)
Record prn_view := mk_prn_view {
  view_id : Z;
  view_filename : string;
  view_uploaded_at : Z;
  view_preview_url : option string
}.

(** The answer of [get_product]. *)
Record product_view := mk_product_view {
  pv_product_name : string;
  pv_stage : string;
  pv_variables : list variable_row;
  pv_prn_counts : list (string * nat);
  pv_prns_for_stage : list prn_view
}.

(** [create_product]: POST /create-product; the answer carries the name
    and the id of the product. *)
Definition create_product (data : option create_product_request)
    : M (string * Z) :=
  match data with
  | None => reply (Error 400 "product_name required")
  | Some data =>
  match cp_product_name data with
  | None => reply (Error 400 "product_name required")
  | Some raw_name =>
  let pname := Str.strip raw_name in
  if Str.is_empty pname then reply (Error 400 "product_name cannot be empty")
  else
  execute "products" (Sql.insert_or_ignore_product pname);;
  commit;;
  d ← get_db;
  match Sql.select_product_id pname d with
  | None =>
      log LogException "Error creating product";;
      reply (Error 500 "failed to create product")
  | Some product_id => ret (pname, product_id)
  end
  end
  end.

(** [list_products]: GET /list-products *)
Definition list_products : M (list product_row) :=
  d ← get_db; ret (Query.select_products d).

(** [get_product]: GET /get-product/<product_name>?stage=... *)
Definition get_product (product_name : string) (args_stage : option string)
    : M product_view :=
  match stage_folder_name (or_empty args_stage) with
  | None =>
      reply (Error 400 "stage query param required and must be one of: Raw, SFG, FG")
  | Some stage =>
  d ← get_db;
  when (negb (bool_decide (is_Some (Sql.select_product_id product_name d))))
    (execute "products" (Query.insert_product product_name);; commit);;
  d ← get_db;
  match Sql.select_product_id product_name d with
  | None => reply (Error 500 "Internal Server Error")
  | Some product_id =>
  fs ← get_files;
  ret (mk_product_view product_name stage
         (Sql.select_variables product_id stage d)
         (List.map (fun st => (st, Query.count_prns product_id st d))
                   ALLOWED_STAGES)
         (List.map
            (fun r =>
               mk_prn_view (prn_id r) (prn_filename r) (uploaded_at r)
                 (match preview_path r with
                  | Some p =>
                      if negb (Str.is_empty p) && path_exists fs p
                      then Some ("/preview/" +:+ product_name +:+ "/"
                                 +:+ stage +:+ "/" +:+ prn_filename r)
                      else None
                  | None => None
                  end))
            (Query.select_prns product_id stage d)))
  end
  end.

(** [add_variable]: POST /add-variable *)
Definition add_variable (data : option add_variable_request)
    : M (string * string * string) :=
  match data with
  | None => reply (Error 400 "product_name and field_name required")
  | Some data =>
  match av_product_name data, av_field_name data with
  | Some raw_name, Some raw_field =>
  match require_stage_from_request (av_stage data) (av_args_stage data)
          (av_form_stage data) with
  | None => reply (Error 400 "stage required and must be one of: Raw, SFG, FG")
  | Some stage =>
  let product_name := Str.strip raw_name in
  let field_name := Str.strip raw_field in
  let field_value := default (VStr "") (av_field_value data) in
  if Str.is_empty product_name || Str.is_empty field_name then
    reply (Error 400 "product_name and field_name cannot be empty")
  else
  d ← get_db;
  match Sql.select_product_id product_name d with
  | None => reply (Error 404 "product not found")
  | Some product_id =>
  if negb (Sql.bindable field_value) then
    (* [OverflowError], caught by [except Exception] *)
    log LogException "Error inserting variable";;
    reply (Error 500 "failed to add variable")
  else
  inserted ← try_execute "variables"
               (Query.insert_variable product_id stage field_name field_value);
  if negb inserted then
    reply (Error 409 "variable already exists for this product+stage")
  else
  commit;;
  ret (field_name, product_name, stage)
  end
  end
  | _, _ => reply (Error 400 "product_name and field_name required")
  end
  end.

(** [match_variable_from_db_with_prn]: POST /add_variable; for each
    variable of the product and stage, whether its token is in the PRN
    content. *)
Definition match_variable_from_db_with_prn (data : option match_request)
    : M (dict bool) :=
  match data with
  | None => reply (Error 400 "product_name and prn_content required")
  | Some data =>
  match mr_product_name data, mr_prn_content data with
  | Some raw_name, Some prn_content =>
  match require_stage_from_request (mr_stage data) (mr_args_stage data)
          (mr_form_stage data) with
  | None => reply (Error 400 "stage required and must be one of: Raw, SFG, FG")
  | Some stage =>
  let product_name := Str.strip raw_name in
  if Str.is_empty product_name || Str.is_empty prn_content then
    reply (Error 400 "product_name and prn_content cannot be empty")
  else
  d ← get_db;
  match Sql.select_product_id product_name d with
  | None => reply (Error 404 "product not found")
  | Some product_id =>
  let variables :=
    List.map field_name (Sql.select_variables product_id stage d) in
  ret (foldl (fun matched var =>
                dict_set matched var (contains (Sub.token var) prn_content))
             [] variables)
  end
  end
  | _, _ => reply (Error 400 "product_name and prn_content required")
  end
  end.

(** [delete_variable]: DELETE /delete-variable *)
Definition delete_variable (data : option delete_variable_request)
    : M (string * string * string) :=
  match data with
  | None => reply (Error 400 "product_name and field_name required")
  | Some data =>
  match dv_product_name data, dv_field_name data with
  | Some raw_name, Some raw_field =>
  match require_stage_from_request (dv_stage data) (dv_args_stage data)
          (dv_form_stage data) with
  | None => reply (Error 400 "stage required and must be one of: Raw, SFG, FG")
  | Some stage =>
  let product_name := Str.strip raw_name in
  let field_name := Str.strip raw_field in
  d ← get_db;
  match Sql.select_product_id product_name d with
  | None => reply (Error 404 "product not found")
  | Some product_id =>
  execute "variables" (Query.delete_variable product_id stage field_name);;
  if (Query.delete_variable_rowcount product_id stage field_name d =? 0)%nat
  then reply (Error 404 "variable not found for this product+stage")
  else
  commit;;
  ret (field_name, product_name, stage)
  end
  end
  | _, _ => reply (Error 400 "product_name and field_name required")
  end
  end.

(** [list_prns]: GET /list-prns/<product_name>/<stage> *)
Definition list_prns (product_name stage : string) : M (list prn_row) :=
  match stage_folder_name stage with
  | None => reply (Error 400 "invalid stage")
  | Some st =>
  d ← get_db;
  match Sql.select_product_id product_name d with
  | None => ret []
  | Some pid => ret (Query.select_prns pid st d)
  end
  end.

Section FileHandlers.

Variable secure_filename : string -> string.

(** [get_prn]: GET /get-prn/<product_name>/<stage>/<filename>; the answer
    is the content of the file that [send_file] sends. *)
Definition get_prn (e : env) (product_name stage filename : string)
    : M string :=
  match stage_folder_name stage with
  | None => reply (Error 400 "invalid stage")
  | Some st =>
  d ← get_db;
  match Sql.select_product_id product_name d with
  | None => reply (Error 404 "product not found")
  | Some pid =>
  let fname := secure_filename filename in
  match Sql.select_prn pid st fname d with
  | None => reply (Error 404 "prn not found")
  | Some r =>
  fs ← get_files;
  match fs !! prn_path r with
  | None => reply (Error 404 "file missing on disk")
  | Some content =>
      if io_fails e IoRead (prn_path r)
      then reply (Error 500 "Internal Server Error")
      else ret content
  end
  end
  end
  end.

(** [serve_preview]: GET /preview/<product_name>/<stage>/<filename>; the
    answer is the PNG and whether it is sent as an attachment. *)
Definition serve_preview (e : env) (product_name stage filename : string)
    (args_download : option string) : M (string * bool) :=
  match stage_folder_name stage with
  | None => reply (Error 400 "invalid stage")
  | Some st =>
  d ← get_db;
  match Sql.select_product_id product_name d with
  | None => reply (Error 404 "product not found")
  | Some pid =>
  let fname := secure_filename filename in
  match preview_path <$> Sql.select_prn pid st fname d with
  | None | Some None => reply (Error 404 "preview not available")
  | Some (Some preview) =>
  if Str.is_empty preview then reply (Error 404 "preview not available")
  else
  fs ← get_files;
  match fs !! preview with
  | None => reply (Error 404 "preview file missing")
  | Some png =>
      let download_flag :=
        Str.mem (Str.lower (or_empty args_download)) ["1"; "true"; "yes"] in
      if io_fails e IoRead preview then
        log LogException "Error sending preview file";;
        reply (Error 500 "failed to send preview")
      else ret (png, download_flag)
  end
  end
  end
  end.

End FileHandlers.

(** ** What the specification says, in its own words *)

(** The aliases of the stage normalizer as the specification lists them,
    each with its canonical stage. *)
Definition documented_aliases : list (string * string) :=
  [("raw", "Raw"); ("raw material", "Raw"); ("raw_material", "Raw");
   ("sfg", "SFG"); ("semi finished", "SFG"); ("semi-finished", "SFG");
   ("fg", "FG"); ("finished good", "FG"); ("finished-good", "FG")].

(** Comparison "trimmed, ignoring case and punctuation": the key of a
    string is what remains of its letters and digits, in lower case. *)
Definition alias_key (s : string) : string :=
  Werkzeug.keep (fun c => Char.is_ascii_letter c || Char.is_digit c)
                (Str.lower (Str.strip s)).

(** Is [s] one of the documented aliases or a canonical stage? *)
Definition documented_stage_input (s : string) : bool :=
  existsb (fun a => String.eqb (alias_key s) (alias_key (fst a)))
          documented_aliases
  || Str.mem s ALLOWED_STAGES.

(** A placeholder name: one or more ASCII letters, digits or underscores. *)
Definition placeholder_name (n : string) : Prop :=
  n <> "" /\ Str.all Char.is_field_char n = true.

(** The text [tok] occurs in [text]. *)
Definition occurs_in (tok text : string) : Prop :=
  exists pre post, text = pre +:+ tok +:+ post.

(** The key of a variable row, and the uniqueness the schema declares:
    UNIQUE(product_id, stage, field_name). *)
Definition variable_key (r : variable_row) : Z * string * string :=
  (variable_product r, variable_stage r, field_name r).

Definition variables_unique (d : database) : Prop :=
  NoDup (List.map variable_key (variables d)).

(** The states that requests to /save-fields lead to from the empty
    store: any request body, under any environment. *)
Inductive upsert_reachable (secure_filename : string -> string)
    : state -> Prop :=
| reachable_initial : upsert_reachable secure_filename initial_state
| reachable_save_fields (e : env) (data : option save_fields_request)
    (st : state) :
    upsert_reachable secure_filename st ->
    upsert_reachable secure_filename
      (fst (run (save_fields secure_filename e data) st)).

(** The body of the call [upsertMany(p, s, {"A": v})]. *)
Definition upsert_A (p s v : string) : option save_fields_request :=
  Some (mk_save_fields (Some p) (Some s) None None
          (VarsObject [("A", VStr v)]) false None).

(** An environment in which no file operation fails, Labelary cannot be
    reached, and the clock stands at second 5. *)
Definition offline_env : env :=
  mk_env (fun _ _ => false) (fun _ => HttpException)
         (fun _ => mk_clock 5 5000) 100.

(** A store with product P and, for its stage Raw, the variables A = 1 and
    B = 2. *)
Definition two_variables_state : state :=
  mk_state
    (mk_database [mk_product 1 "P"] 1
       [mk_variable 1 1 "Raw" "A" (VStr "1");
        mk_variable 2 1 "Raw" "B" (VStr "2")] 2
       [] 0)
    ∅ [].

(** The body of the call [rename(p, s, old, new)], with an optional new
    value. *)
Definition rename_request (p s old new : string) (v : option value)
    : option update_variable_request :=
  Some (mk_update_variable (Some p) (Some s) None None (Some old) (Some new)
          v false None).

(** The effects of the best-effort file removal of [delete_prn]: removal
    attempts and the warning that reports a failed one. *)
Definition cleanup_event (ev : event) : Prop :=
  match ev with
  | EvFileRemove _ _ => True
  | EvLog LogWarning _ => True
  | _ => False
  end.

(** The removal of [path] is due: the path is not empty and the file is
    there ([if path and os.path.exists(path)]). *)
Definition removal_due (fs : gmap string string) (path : string) : Prop :=
  path <> "" /\ is_Some (fs !! path).

(** The body of the call [delete(p, s, filename)]. *)
Definition delete_request (p s filename : string) : option delete_prn_request :=
  Some (mk_delete_prn (Some p) (Some s) (Some filename)).

(** A store with product P and one registered template a.prn for its stage
    Raw, with a preview. *)
Definition one_template_state : state :=
  mk_state
    (mk_database [mk_product 1 "P"] 1 [] 0
       [mk_prn 1 1 "Raw" "a.prn" "uploads/P/Raw/a.prn"
               (Some "uploads/P/Raw/a.png") 100] 1)
    (<["uploads/P/Raw/a.prn" := "^XA {X} ^XZ"]>
       (<["uploads/P/Raw/a.png" := "png"]> ∅))
    [].

(** An environment in which every [os.remove] raises. *)
Definition undeletable_env : env :=
  mk_env (fun op _ => match op with IoRemove => true | _ => false end)
         (fun _ => HttpException) (fun _ => mk_clock 5 5000) 100.

(** The preview pipeline fails: an exception (connection error, timeout)
    or a status other than 200. *)
Definition preview_failure (o : http_outcome) : Prop :=
  match o with
  | HttpException => True
  | HttpResponse status _ => status <> 200%Z
  end.


(** An upload of [content] under the name [filename] for product P, stage
    raw. *)
Definition upload_request_P (filename content : string) : upload_request :=
  mk_upload (Some (filename, content)) (Some "P") None None None
            (Some "raw") None.

(** Two uploads of a template named a.prn for product P, stage raw, with
    contents "one" and "two", Labelary being out of reach and the clock at
    second 5: the second one is stored as a_5.prn. *)
Definition two_uploads_state : state :=
  fst (run (upload_file Werkzeug.secure_filename offline_env
              (upload_request_P "a.prn" "two"))
         (fst (run (upload_file Werkzeug.secure_filename offline_env
                      (upload_request_P "a.prn" "one"))
                   initial_state))).

(** ** Invariants *)

(** The handler [m] keeps the invariant [I] of the state. *)
Definition maintains {A} (I : state -> Prop) (m : M A) : Prop :=
  forall st, I st -> I (fst (m st)).

Definition unique_inv (st : state) : Prop := variables_unique (db st).

(** ** Notions used by the further properties *)

(** The text holds no [c]. *)
Definition lacks (c : ascii) (s : string) : Prop :=
  Str.all (fun x => negb (Ascii.eqb x c)) s = true.

(** The key of a PRN row: UNIQUE(product_id, stage, prn_filename). *)
Definition prn_key (r : prn_row) : Z * string * string :=
  (prn_product r, prn_stage r, prn_filename r).

(** The constraints that the schema of [init_db] declares, with what
    AUTOINCREMENT adds: ids are unique and not above the counter of their
    table, product names are unique, a product and stage has each variable
    name once and each PRN file name once, the product of a variable or a
    PRN exists, and the stage of a PRN is one of Raw, SFG, FG. *)
Record schema (d : database) : Prop := mk_schema {
  products_pk : NoDup (List.map product_id (products d));
  products_unique : NoDup (List.map product_name (products d));
  products_autoincrement :
    Forall (fun r => (product_id r <= products_seq d)%Z) (products d);
  variables_pk : NoDup (List.map variable_id (variables d));
  variables_key : variables_unique d;
  variables_autoincrement :
    Forall (fun r => (variable_id r <= variables_seq d)%Z) (variables d);
  variables_fk :
    Forall (fun r => In (variable_product r)
                        (List.map product_id (products d))) (variables d);
  prns_pk : NoDup (List.map prn_id (product_prns d));
  prns_key : NoDup (List.map prn_key (product_prns d));
  prns_autoincrement :
    Forall (fun r => (prn_id r <= product_prns_seq d)%Z) (product_prns d);
  prns_fk :
    Forall (fun r => In (prn_product r)
                        (List.map product_id (products d))) (product_prns d);
  prns_check :
    Forall (fun r => In (prn_stage r) ALLOWED_STAGES) (product_prns d)
}.

(** The requests that the routes of the application serve; [/] and
    [/download] read files only and are left out. *)
Inductive request :=
| PostCreateProduct (data : option create_product_request)
| PostUpload (rq : upload_request)
| PostSaveFields (data : option save_fields_request)
| GetListProducts
| GetProduct (product_name : string) (args_stage : option string)
| PostAddVariable (data : option add_variable_request)
| PostMatchVariable (data : option match_request)
| PutUpdateVariable (data : option update_variable_request)
| DeleteVariable (data : option delete_variable_request)
| GetListPrns (product_name stage : string)
| GetPrn (product_name stage filename : string)
| GetPreview (product_name stage filename : string)
             (args_download : option string)
| DeletePrn (data : option delete_prn_request).

(** The state that serving a request leaves. *)
Definition serve (secure_filename : string -> string) (e : env)
    (r : request) (st : state) : state :=
  match r with
  | PostCreateProduct data => fst (create_product data st)
  | PostUpload rq => fst (upload_file secure_filename e rq st)
  | PostSaveFields data => fst (save_fields secure_filename e data st)
  | GetListProducts => fst (list_products st)
  | GetProduct product_name args_stage =>
      fst (get_product product_name args_stage st)
  | PostAddVariable data => fst (add_variable data st)
  | PostMatchVariable data => fst (match_variable_from_db_with_prn data st)
  | PutUpdateVariable data => fst (update_variable secure_filename e data st)
  | DeleteVariable data => fst (delete_variable data st)
  | GetListPrns product_name stage => fst (list_prns product_name stage st)
  | GetPrn product_name stage filename =>
      fst (get_prn secure_filename e product_name stage filename st)
  | GetPreview product_name stage filename args_download =>
      fst (serve_preview secure_filename e product_name stage filename
             args_download st)
  | DeletePrn data => fst (delete_prn secure_filename e data st)
  end.

(** The database of a state satisfies the schema; and it does so with a
    product of id [pid] in it. *)
Definition schema_inv (st : state) : Prop := schema (db st).

Definition schema_with (pid : Z) (st : state) : Prop :=
  schema (db st) /\ In pid (List.map product_id (products (db st))).

(** What [update_variable] makes of the row it updates, for the stripped
    old name and the new name and value of the request: id, product and
    stage stay; the name changes when a different new name is given; the
    value changes when a new value other than null is given, to what the
    TEXT column keeps of it. *)
Definition updated_row (old : string) (new_name : option string)
    (new_value : option value) (r : variable_row) : variable_row :=
  mk_variable (variable_id r) (variable_product r) (variable_stage r)
    (let n := Str.strip (default old new_name) in
     if String.eqb n old then field_name r else n)
    (match new_value with
     | Some VNone | None => field_value r
     | Some v => Sql.as_text v
     end).

(** In [rows], the variable [k] of the product and stage exists and has
    the value [v] (in every row that carries its key). *)
Definition variable_bound (pid : Z) (stage k : string) (v : value)
    (rows : list variable_row) : Prop :=
  existsb (Sql.variable_keyed pid stage k) rows = true
  /\ forall r, In r rows -> Sql.variable_keyed pid stage k r = true ->
               field_value r = v.

(** The product name and the stage that [upload_file] reads from a
    request: the form field before the query parameter, stripped. *)
Definition upload_product_name (rq : upload_request) : string :=
  Str.strip (or_empty (py_or (up_form_product_name rq)
                      (py_or (up_args_product_name rq)
                      (py_or (up_form_product rq) (up_args_product rq))))).

Definition upload_stage_raw (rq : upload_request) : string :=
  Str.strip (or_empty (py_or (up_form_stage rq) (up_args_stage rq))).

(** The routes that only read: all the GET routes but [get_product], and
    the variable matcher. *)
Definition read_only (r : request) : bool :=
  match r with
  | GetListProducts | PostMatchVariable _ | GetListPrns _ _
  | GetPrn _ _ _ | GetPreview _ _ _ _ => true
  | _ => false
  end.

(** * Properties *)

(** ** Strings *)

Lemma append_cons (x : ascii) (a b : string) :
  String x a +:+ b = String x (a +:+ b).
Proof. reflexivity. Qed.

Lemma append_nil_l (a : string) : "" +:+ a = a.
Proof. reflexivity. Qed.

Lemma append_assoc (a b c : string) : (a +:+ b) +:+ c = a +:+ (b +:+ c).
Proof.
  induction a as [|x a IH]; [reflexivity|].
  rewrite !append_cons. f_equal. exact IH.
Qed.

Lemma append_nil_r (a : string) : a +:+ "" = a.
Proof.
  induction a as [|x a IH]; [reflexivity|].
  rewrite append_cons. f_equal. exact IH.
Qed.

Lemma length_append (a b : string) :
  String.length (a +:+ b) = String.length a + String.length b.
Proof.
  induction a as [|x a IH]; [reflexivity|].
  rewrite append_cons. simpl. f_equal. exact IH.
Qed.

Lemma mem_In (x : string) (l : list string) : Str.mem x l = true <-> In x l.
Proof.
  unfold Str.mem. rewrite existsb_exists. split.
  - intros (y & Hy & E). apply String.eqb_eq in E. now subst.
  - intros H. exists x. split; [assumption | apply String.eqb_refl].
Qed.

Lemma mem_not_In (x : string) (l : list string) :
  Str.mem x l = false <-> ~ In x l.
Proof.
  rewrite <- mem_In. destruct (Str.mem x l); split; intros H;
    try reflexivity; try discriminate; try (intros E; discriminate).
  now contradiction H.
Qed.

(** ** C2: the stage normalizer *)

Lemma stage_folder_name_canonical_unreachable (s : string) :
  Str.mem s ALLOWED_STAGES = true ->
  Str.mem (Str.lower (Str.strip s)) (raw_aliases ++ sfg_aliases ++ fg_aliases)
  = true.
Proof.
  intros H. apply mem_In in H. simpl in H.
  destruct H as [<- | [<- | [<- | []]]]; reflexivity.
Qed.

(** C2 (as the code has it): [stage_folder_name] compares the trimmed,
    lower-cased input with a fixed list of sixteen aliases.  It answers
    Raw exactly on raw, rawmaterial, raw_material, raw material; SFG
    exactly on sfg, semi, semi_finished, semi_finished_good, semi finished,
    semi-finished, semifinished; FG exactly on fg, finished, finished_good,
    finished good, finished-good; and the invalid signal [None] on every
    other string, the empty one included.  It is total: it never raises. *)
Theorem stage_folder_name_aliases (s : string) :
  let k := Str.lower (Str.strip s) in
  (stage_folder_name s = Some "Raw" <->
     In k ["raw"; "rawmaterial"; "raw_material"; "raw material"])
  /\ (stage_folder_name s = Some "SFG" <->
        In k ["sfg"; "semi"; "semi_finished"; "semi_finished_good";
              "semi finished"; "semi-finished"; "semifinished"])
  /\ (stage_folder_name s = Some "FG" <->
        In k ["fg"; "finished"; "finished_good"; "finished good";
              "finished-good"])
  /\ (stage_folder_name s = None <->
        ~ In k ["raw"; "rawmaterial"; "raw_material"; "raw material";
                "sfg"; "semi"; "semi_finished"; "semi_finished_good";
                "semi finished"; "semi-finished"; "semifinished";
                "fg"; "finished"; "finished_good"; "finished good";
                "finished-good"])
  /\ (stage_folder_name s = None \/ stage_folder_name s = Some "Raw"
      \/ stage_folder_name s = Some "SFG" \/ stage_folder_name s = Some "FG").
Proof.
  intros k.
  change ["raw"; "rawmaterial"; "raw_material"; "raw material";
          "sfg"; "semi"; "semi_finished"; "semi_finished_good";
          "semi finished"; "semi-finished"; "semifinished";
          "fg"; "finished"; "finished_good"; "finished good";
          "finished-good"] with (raw_aliases ++ sfg_aliases ++ fg_aliases).
  change ["raw"; "rawmaterial"; "raw_material"; "raw material"]
    with raw_aliases.
  change ["sfg"; "semi"; "semi_finished"; "semi_finished_good";
          "semi finished"; "semi-finished"; "semifinished"] with sfg_aliases.
  change ["fg"; "finished"; "finished_good"; "finished good";
          "finished-good"] with fg_aliases.
  assert (Hdisj1 : forall x, In x raw_aliases -> ~ In x sfg_aliases).
  { intros x H1 H2. simpl in H1, H2.
    repeat (destruct H1 as [<- | H1]; [intuition discriminate|]).
    contradiction. }
  assert (Hdisj2 : forall x, In x raw_aliases -> ~ In x fg_aliases).
  { intros x H1 H2. simpl in H1, H2.
    repeat (destruct H1 as [<- | H1]; [intuition discriminate|]).
    contradiction. }
  assert (Hdisj3 : forall x, In x sfg_aliases -> ~ In x fg_aliases).
  { intros x H1 H2. simpl in H1, H2.
    repeat (destruct H1 as [<- | H1]; [intuition discriminate|]).
    contradiction. }
  unfold stage_folder_name. fold k.
  destruct s as [|c s'].
  { subst k. simpl. intuition (try discriminate; auto). }
  change (Str.is_empty (String c s')) with false. cbv iota.
  pose proof (stage_folder_name_canonical_unreachable (String c s')) as Hcan.
  fold k in Hcan.
  destruct (Str.mem k raw_aliases) eqn:E1;
    [apply mem_In in E1 | apply mem_not_In in E1];
  (destruct (Str.mem k sfg_aliases) eqn:E2;
    [apply mem_In in E2 | apply mem_not_In in E2]);
  (destruct (Str.mem k fg_aliases) eqn:E3;
    [apply mem_In in E3 | apply mem_not_In in E3]);
  try (exfalso; eapply Hdisj1; eassumption);
  try (exfalso; eapply Hdisj2; eassumption);
  try (exfalso; eapply Hdisj3; eassumption);
  try (destruct (Str.mem (String c s') ALLOWED_STAGES) eqn:E4;
       [ specialize (Hcan eq_refl); apply mem_In in Hcan;
         rewrite !in_app_iff in Hcan; tauto | ]);
  rewrite !in_app_iff;
  (repeat split; try discriminate; try tauto; try congruence;
   auto 6).
Qed.

(** C2, the claim as the specification words it, fails: "semi" is none of
    the documented aliases, even when case, blanks and punctuation are
    ignored, and is not a canonical form, yet it is accepted as SFG. *)
Lemma stage_folder_name_undocumented_alias :
  documented_stage_input "semi" = false
  /\ stage_folder_name "semi" = Some "SFG".
Proof. split; reflexivity. Qed.

(** ** Python's [sorted] *)

Section Sorting.

Context {A : Type} (le : A -> A -> bool).

Lemma sorted_insert_Permutation (x : A) (l : list A) :
  Permutation (sorted_insert le x l) (x :: l).
Proof.
  induction l as [|y l IH]; simpl; [reflexivity|].
  destruct (le x y); [reflexivity|].
  rewrite IH. apply perm_swap.
Qed.

Lemma sorted_Permutation (l : list A) : Permutation (sorted le l) l.
Proof.
  induction l as [|x l IH]; simpl; [reflexivity|].
  rewrite sorted_insert_Permutation. now constructor.
Qed.

Lemma sorted_In (x : A) (l : list A) : In x (sorted le l) <-> In x l.
Proof.
  split; apply Permutation_in;
    [apply sorted_Permutation | symmetry; apply sorted_Permutation].
Qed.

Hypothesis le_total : forall x y, le x y = true \/ le y x = true.
Hypothesis le_trans :
  forall x y z, le x y = true -> le y z = true -> le x z = true.

Lemma sorted_insert_StronglySorted (x : A) (l : list A) :
  StronglySorted (fun a b => le a b = true) l ->
  StronglySorted (fun a b => le a b = true) (sorted_insert le x l).
Proof.
  induction 1 as [|y l Hs IH Hy]; simpl.
  - repeat constructor.
  - destruct (le x y) eqn:E.
    + constructor; [now constructor|].
      constructor; [assumption|].
      eapply Forall_impl; [exact Hy|]. intros z Hz. simpl in Hz.
      now apply le_trans with y.
    + constructor; [assumption|].
      rewrite sorted_insert_Permutation. constructor; [|assumption].
      destruct (le_total x y) as [H|H]; [congruence | assumption].
Qed.

Lemma sorted_StronglySorted (l : list A) :
  StronglySorted (fun a b => le a b = true) (sorted le l).
Proof.
  induction l as [|x l IH]; simpl; [constructor|].
  now apply sorted_insert_StronglySorted.
Qed.

End Sorting.

Lemma leb_trans (x y z : string) :
  String.leb x y = true -> String.leb y z = true -> String.leb x z = true.
Proof.
  intros H1 H2. apply Is_true_true. apply Is_true_true in H1, H2.
  change (String.le x z). change (String.le x y) in H1.
  change (String.le y z) in H2. now transitivity y.
Qed.

Lemma leb_neq_ltb (x y : string) :
  String.leb x y = true -> x <> y -> String.ltb x y = true.
Proof.
  unfold String.leb, String.ltb. intros H Hne.
  destruct (String.compare x y) eqn:E; try reflexivity; try discriminate.
  apply String.compare_eq_iff in E. contradiction.
Qed.

Lemma StronglySorted_strict (l : list string) :
  StronglySorted (fun a b => String.leb a b = true) l -> NoDup l ->
  StronglySorted (fun a b => String.ltb a b = true) l.
Proof.
  induction 1 as [|x l Hs IH Hx]; intros Hnd; [constructor|].
  apply NoDup_cons in Hnd as [Hnotin Hnd].
  constructor; [now apply IH|].
  rewrite Forall_forall in Hx |- *. intros y Hy.
  apply leb_neq_ltb; [now apply Hx|].
  intros ->. apply Hnotin. now apply list_elem_of_In.
Qed.

(** ** C7: the placeholder extractor *)

Lemma token_cons (n : string) : Sub.token n = String "{" (n +:+ "}").
Proof. reflexivity. Qed.

Lemma span_spec (p : ascii -> bool) (s a b : string) :
  Re.span p s = (a, b) ->
  s = a +:+ b /\ Str.all p a = true
  /\ match b with EmptyString => True | String c _ => p c = false end.
Proof.
  revert a b. induction s as [|c s IH]; simpl; intros a b H.
  - injection H as <- <-. repeat split.
  - destruct (p c) eqn:Ec.
    + destruct (Re.span p s) as [a' b'] eqn:E. injection H as <- <-.
      destruct (IH _ _ eq_refl) as (-> & Ha & Hb).
      rewrite append_cons. simpl. rewrite Ec, Ha. repeat split. exact Hb.
    + injection H as <- <-. repeat split. exact Ec.
Qed.

Lemma span_append (p : ascii -> bool) (n : string) (c : ascii) (post : string) :
  Str.all p n = true -> p c = false ->
  Re.span p (n +:+ String c post) = (n, String c post).
Proof.
  intros Hn Hc. induction n as [|x n IH].
  - rewrite append_nil_l. simpl. now rewrite Hc.
  - simpl in Hn. apply andb_true_iff in Hn as [Hx Hn].
    rewrite append_cons. simpl. rewrite Hx, (IH Hn). reflexivity.
Qed.

Lemma close_brace_not_field : Char.is_field_char "}" = false.
Proof. reflexivity. Qed.

Lemma field_char_not_brace (c : ascii) :
  Char.is_field_char c = true -> Str.mem_char c "{}" = false.
Proof.
  destruct c as [[] [] [] [] [] [] [] []]; vm_compute; congruence.
Qed.

Lemma field_char_not_open (c : ascii) :
  Char.is_field_char c = true -> c <> "{"%char.
Proof. intros H ->. discriminate H. Qed.

Lemma match_placeholder_Some (s m : string) :
  Re.match_placeholder s = Some m ->
  exists n post, placeholder_name n /\ m = Sub.token n /\ s = m +:+ post.
Proof.
  destruct s as [|c r]; simpl; [discriminate|].
  destruct (Ascii.eqb_spec c "{") as [-> | _]; [|discriminate].
  destruct (Re.span Char.is_field_char r) as [n b] eqn:E.
  apply span_spec in E as (-> & Hn & Hb).
  destruct n as [|x n]; [discriminate|].
  destruct b as [|d post]; [discriminate|].
  destruct (Ascii.eqb_spec d "}") as [-> | _]; [|discriminate].
  intros [= <-]. exists (String x n), post. split; [split; [discriminate | exact Hn]|].
  split; [reflexivity|].
  rewrite !append_assoc. reflexivity.
Qed.

Lemma match_placeholder_token (n post : string) :
  placeholder_name n ->
  Re.match_placeholder (Sub.token n +:+ post) = Some (Sub.token n).
Proof.
  intros [Hne Hn]. rewrite token_cons, append_cons, append_assoc.
  rewrite append_cons, append_nil_l. simpl.
  rewrite (span_append _ _ _ _ Hn close_brace_not_field).
  destruct n as [|x n]; [contradiction|]. reflexivity.
Qed.

Lemma no_overlap (n post pre rest : string) :
  Str.all Char.is_field_char n = true ->
  n +:+ String "}" post = pre +:+ String "{" rest ->
  String.length n + 1 <= String.length pre.
Proof.
  revert pre. induction n as [|x n IH]; intros pre Hn E.
  - destruct pre as [|y pre]; [discriminate E | simpl; lia].
  - simpl in Hn. apply andb_true_iff in Hn as [Hx Hn].
    destruct pre as [|y pre].
    + rewrite append_cons, append_nil_l in E. injection E as -> _.
      discriminate Hx.
    + rewrite !append_cons in E. injection E as _ E.
      specialize (IH pre Hn E). simpl. lia.
Qed.

Lemma findall_sound (text : string) (k : nat) (m : string) :
  In m (Re.findall_from k text) ->
  exists n, placeholder_name n /\ m = Sub.token n /\ occurs_in m text.
Proof.
  revert k. induction text as [|c r IH]; intros k H; [contradiction|].
  assert (Hr : forall k', In m (Re.findall_from k' r) ->
            exists n, placeholder_name n /\ m = Sub.token n
                      /\ occurs_in m (String c r)).
  { intros k' H'. destruct (IH _ H') as (n & Hn & -> & pre & post & ->).
    exists n. repeat split; try apply Hn.
    exists (String c pre), post. reflexivity. }
  cbn [Re.findall_from] in H. destruct k as [|k]; [|eauto].
  destruct (Re.match_placeholder (String c r)) as [m0|] eqn:E; [|eauto].
  destruct H as [<- | H]; [|eauto].
  destruct (match_placeholder_Some _ _ E) as (n & post & Hn & -> & Hs).
  exists n. repeat split; try apply Hn. exists "", post. exact Hs.
Qed.

Lemma findall_complete (pre : string) (k : nat) (n post : string) :
  placeholder_name n -> k <= String.length pre ->
  In (Sub.token n) (Re.findall_from k (pre +:+ Sub.token n +:+ post)).
Proof.
  intros Hn. revert k. induction pre as [|c pre IH]; intros k Hk.
  - simpl in Hk. assert (k = 0) as -> by lia.
    rewrite append_nil_l.
    pose proof (match_placeholder_token n post Hn) as E.
    rewrite token_cons, append_cons in E |- *. cbn [Re.findall_from].
    rewrite E. now left.
  - rewrite append_cons. cbn [Re.findall_from].
    destruct k as [|k]; [|apply IH; simpl in Hk; lia].
    destruct (Re.match_placeholder (String c (pre +:+ Sub.token n +:+ post)))
      as [m0|] eqn:E; [|apply IH; lia].
    right. apply IH.
    destruct (match_placeholder_Some _ _ E) as (n0 & post0 & [_ Hn0] & -> & Hs).
    rewrite !token_cons, !append_cons in Hs. injection Hs as _ Hs.
    rewrite append_assoc, append_cons, append_nil_l in Hs.
    symmetry in Hs. rewrite !append_assoc in Hs.
    apply (no_overlap n0 post0 pre (n +:+ String "}" post)) in Hs;
      [|exact Hn0].
    rewrite token_cons. simpl. rewrite length_append. simpl. lia.
Qed.

Lemma rstrip_by_append (p : ascii -> bool) (n s : string) :
  Str.all (fun c => negb (p c)) n = true ->
  Str.rstrip_by p (n +:+ s) = n +:+ Str.rstrip_by p s.
Proof.
  induction n as [|x n IH]; intros H; [reflexivity|].
  simpl in H. apply andb_true_iff in H as [Hx Hn].
  rewrite !append_cons. simpl. rewrite (IH Hn).
  apply negb_true_iff in Hx. now rewrite Hx.
Qed.

Lemma all_impl (p q : ascii -> bool) (s : string) :
  (forall c, p c = true -> q c = true) ->
  Str.all p s = true -> Str.all q s = true.
Proof.
  intros Hpq. induction s as [|c s IH]; simpl; [reflexivity|].
  intros H. apply andb_true_iff in H as [Hc Hs].
  now rewrite (Hpq _ Hc), (IH Hs).
Qed.

Lemma strip_token (n : string) :
  placeholder_name n -> Str.strip_chars "{}" (Sub.token n) = n.
Proof.
  intros [Hne Hn]. unfold Str.strip_chars, Str.strip_by.
  rewrite token_cons.
  destruct n as [|x n]; [contradiction|].
  assert (Hx : Str.mem_char x "{}" = false).
  { simpl in Hn. apply andb_true_iff in Hn as [Hx _].
    now apply field_char_not_brace. }
  change (Str.lstrip_by (fun c => Str.mem_char c "{}")
            (String "{" (String x n +:+ "}")))
    with (Str.lstrip_by (fun c => Str.mem_char c "{}")
            (String x (n +:+ "}"))).
  cbn [Str.lstrip_by]. rewrite Hx.
  change (String x (n +:+ "}")) with (String x n +:+ "}").
  rewrite rstrip_by_append.
  - change (Str.rstrip_by (fun c => Str.mem_char c "{}") "}") with "".
    apply append_nil_r.
  - eapply all_impl; [|exact Hn]. intros c Hc. cbv beta.
    now rewrite (field_char_not_brace _ Hc).
Qed.

(** C7: for every text, [extract_fields] holds exactly the names [n], one
    or more ASCII letters, digits or underscores, whose token [{n}] occurs
    in the text; it is strictly ascending in the lexicographic order, so
    sorted and without duplicates; on "A {X} B {Y} {X}" it is ["X"; "Y"];
    and a text without such a token gives the empty list. *)
Theorem extract_fields_spec (text : string) :
  (forall n, In n (extract_fields text) <->
             placeholder_name n /\ occurs_in ("{" +:+ n +:+ "}") text)
  /\ StronglySorted (fun a b => String.ltb a b = true) (extract_fields text)
  /\ extract_fields "A {X} B {Y} {X}" = ["X"; "Y"]
  /\ ((forall n, placeholder_name n ->
                 ~ occurs_in ("{" +:+ n +:+ "}") text) ->
      extract_fields text = []).
Proof.
  assert (Hiff : forall n, In n (extract_fields text) <->
             placeholder_name n /\ occurs_in ("{" +:+ n +:+ "}") text).
  { intros n. unfold extract_fields, set_of.
    rewrite sorted_In.
    rewrite <- list_elem_of_In, elem_of_remove_dups, list_elem_of_In.
    rewrite in_map_iff. split.
    - intros (m & Hm & Hin).
      destruct (findall_sound _ _ _ Hin) as (n' & Hn' & -> & Hocc).
      rewrite (strip_token _ Hn') in Hm. subst n'. now split.
    - intros [Hn (pre & post & ->)]. exists (Sub.token n).
      split; [now apply strip_token|].
      apply findall_complete; [assumption | lia]. }
  split; [exact Hiff|]. split; [|split].
  - apply StronglySorted_strict.
    + apply sorted_StronglySorted; [apply String.leb_total | apply leb_trans].
    + unfold extract_fields, set_of.
      rewrite sorted_Permutation. apply NoDup_remove_dups.
  - vm_compute. reflexivity.
  - intros Hnone. destruct (extract_fields text) as [|n l] eqn:E;
      [reflexivity|].
    exfalso. destruct (proj1 (Hiff n) (or_introl eq_refl)) as [Hn Hocc].
    exact (Hnone n Hn Hocc).
Qed.

(** ** The substitution engine *)

Lemma StronglySorted_weaken {A} (R R' : A -> A -> Prop) (l : list A) :
  (forall a b, R a b -> R' a b) -> StronglySorted R l -> StronglySorted R' l.
Proof.
  intros HR. induction 1 as [|x l Hs IH Hx]; constructor; [assumption|].
  eapply Forall_impl; [exact Hx | auto].
Qed.

Lemma longer_or_equal_spec (x y : string) :
  longer_or_equal x y = true <-> String.length y <= String.length x.
Proof. unfold longer_or_equal. rewrite Z.leb_le. lia. Qed.

Lemma fill_order_two (V : Type) (k1 k2 : string) (v1 v2 : V) :
  String.length k2 < String.length k1 ->
  fill_order [(k1, v1); (k2, v2)] = [k1; k2]
  /\ fill_order [(k2, v2); (k1, v1)] = [k1; k2].
Proof.
  intros Hlen. unfold fill_order. simpl.
  destruct (longer_or_equal k1 k2) eqn:E1.
  2:{ exfalso. apply not_true_iff_false in E1. apply E1.
      apply longer_or_equal_spec. lia. }
  destruct (longer_or_equal k2 k1) eqn:E2.
  { apply longer_or_equal_spec in E2. lia. }
  split; reflexivity.
Qed.

Lemma replace_from_short (k : nat) (tok rep s : string) :
  String.length s <= k -> Sub.replace_from k tok rep s = "".
Proof.
  revert k. induction s as [|c s IH]; intros k Hk; [reflexivity|].
  simpl in Hk. destruct k as [|k]; [lia|]. simpl. apply IH. lia.
Qed.

Lemma replace_from_skip (a b tok rep : string) :
  Sub.replace_from (String.length a) tok rep (a +:+ b)
  = Sub.replace_from 0 tok rep b.
Proof.
  induction a as [|c a IH]; [reflexivity|].
  rewrite append_cons. simpl. exact IH.
Qed.

Lemma starts_with_append (tok s : string) :
  Sub.starts_with tok (tok +:+ s) = true.
Proof.
  induction tok as [|c tok IH]; [reflexivity|].
  rewrite append_cons. simpl. rewrite IH.
  now destruct (Ascii.eqb_spec c c).
Qed.

Lemma starts_with_spec (tok s : string) :
  Sub.starts_with tok s = true <-> exists post, s = tok +:+ post.
Proof.
  split.
  - revert s. induction tok as [|c tok IH]; intros s H.
    + exists s. reflexivity.
    + destruct s as [|d s]; [discriminate|]. simpl in H.
      apply andb_true_iff in H as [Hc H].
      apply Ascii.eqb_eq in Hc as ->.
      destruct (IH _ H) as [post ->]. exists post. reflexivity.
  - intros [post ->]. apply starts_with_append.
Qed.

(** The three equations that determine [replace_all]: nothing to replace in
    the empty text; an occurrence at the front is replaced and the scan
    resumes behind it; a character that starts no occurrence is kept. *)
Lemma replace_all_nil (tok rep : string) : Sub.replace_all tok rep "" = "".
Proof. reflexivity. Qed.

Lemma replace_all_here (tok rep s : string) :
  tok <> "" ->
  Sub.replace_all tok rep (tok +:+ s) = rep +:+ Sub.replace_all tok rep s.
Proof.
  intros Hne. destruct tok as [|c tok]; [contradiction|].
  unfold Sub.replace_all. rewrite append_cons.
  cbn [Sub.replace_from].
  change (String c (tok +:+ s)) with (String c tok +:+ s).
  rewrite starts_with_append. f_equal.
  change (String.length (String c tok) - 1) with (String.length tok - 0).
  rewrite Nat.sub_0_r. apply replace_from_skip.
Qed.

Lemma replace_all_next (tok rep : string) (c : ascii) (s : string) :
  Sub.starts_with tok (String c s) = false ->
  Sub.replace_all tok rep (String c s)
  = String c (Sub.replace_all tok rep s).
Proof. intros H. unfold Sub.replace_all. cbn [Sub.replace_from]. now rewrite H. Qed.

Lemma replace_all_absent (tok rep t : string) :
  ~ occurs_in tok t -> Sub.replace_all tok rep t = t.
Proof.
  induction t as [|c t IH]; intros Hno; [reflexivity|].
  rewrite replace_all_next.
  - f_equal. apply IH. intros (pre & post & ->). apply Hno.
    exists (String c pre), post. reflexivity.
  - apply not_true_iff_false. intros H. apply starts_with_spec in H as [post E].
    apply Hno. exists "", post. exact E.
Qed.

Lemma replace_all_self (tok rep : string) :
  tok <> "" -> Sub.replace_all tok rep tok = rep.
Proof.
  intros Hne. rewrite <- (append_nil_r tok) at 2.
  rewrite replace_all_here by assumption.
  rewrite replace_all_nil. apply append_nil_r.
Qed.

Lemma token_nonempty (k : string) : Sub.token k <> "".
Proof. rewrite token_cons. discriminate. Qed.

Lemma re_sub_plain (k v t : string) :
  Sub.has_backslash v = false ->
  Sub.re_sub k v t = Some (Sub.replace_all (Sub.token k) v t).
Proof. intros H. unfold Sub.re_sub. now rewrite H. Qed.

Lemma dict_get_In {V} (d : dict V) (k : string) (v : V) :
  dict_get d k = Some v -> In (k, v) d.
Proof.
  induction d as [|[k' v'] d IH]; simpl; [discriminate|].
  destruct (String.eqb_spec k k') as [-> | _].
  - intros [= ->]. now left.
  - intros H. right. now apply IH.
Qed.

Lemma dict_get_key {V} (d : dict V) (k : string) :
  In k (dict_keys d) -> exists v, dict_get d k = Some v.
Proof.
  induction d as [|[k' v'] d IH]; simpl; [contradiction|].
  intros [-> | H].
  - rewrite String.eqb_refl. eauto.
  - destruct (String.eqb k k'); eauto.
Qed.

(** With no field bound, the template is returned as it is. *)
Lemma fill_empty (t : string) : _fill_prn_content t [] = Some t.
Proof. reflexivity. Qed.

(** One bound field whose value holds no backslash: every occurrence of its
    token is replaced by the text of the value. *)
Lemma fill_single (t k : string) (v : value) :
  Sub.has_backslash (value_text v) = false ->
  _fill_prn_content t [(k, v)]
  = Some (Sub.replace_all (Sub.token k) (value_text v) t).
Proof.
  intros H. unfold _fill_prn_content, fill_order, fill_step. simpl.
  rewrite String.eqb_refl. now apply re_sub_plain.
Qed.

(** Bound fields whose token does not occur in the template are ignored,
    when no value holds a backslash. *)
Lemma fill_absent (t : string) (variables : dict value) :
  (forall k v, In (k, v) variables ->
     Sub.has_backslash (value_text v) = false
     /\ ~ occurs_in (Sub.token k) t) ->
  _fill_prn_content t variables = Some t.
Proof.
  intros H. unfold _fill_prn_content.
  assert (Hk : forall k, In k (fill_order variables) ->
                         fill_step variables t k = Some t).
  { intros k Hin. unfold fill_order in Hin. apply sorted_In in Hin.
    destruct (dict_get_key _ _ Hin) as [v Hv].
    unfold fill_step. rewrite Hv.
    destruct (H _ _ (dict_get_In _ _ _ Hv)) as [Hb Hno].
    rewrite re_sub_plain by assumption. now rewrite replace_all_absent. }
  induction (fill_order variables) as [|k ks IH]; [reflexivity|].
  simpl. rewrite Hk by now left. apply IH. intros k' Hk'. apply Hk. now right.
Qed.

(** C3 (the defect): [_fill_prn_content] hands the value to [re.sub] as a
    replacement template, so a value with a backslash is not inserted as
    it is.  For the value [C:\temp] the token is replaced by "C:", a TAB
    and "emp"; for [C:\dir] the call raises, also when the template holds
    no placeholder at all. *)
Theorem fill_backslash_value :
  _fill_prn_content "{PATH}" [("PATH", VStr "C:\temp")]
  = Some ("C:" +:+ String (ascii_of_N 9) "emp")
  /\ _fill_prn_content "{PATH}" [("PATH", VStr "C:\temp")] <> Some "C:\temp"
  /\ _fill_prn_content "{PATH}" [("PATH", VStr "C:\dir")] = None
  /\ _fill_prn_content "no placeholder" [("PATH", VStr "C:\dir")] = None.
Proof. repeat split; try (vm_compute; reflexivity). vm_compute. discriminate. Qed.

(** The two examples of C3 hold on the code. *)
Lemma fill_examples :
  _fill_prn_content "Hello {NAME}, qty {QTY}"
    [("NAME", VStr "Box"); ("QTY", VStr "5")] = Some "Hello Box, qty 5"
  /\ _fill_prn_content "{NAME}" [] = Some "{NAME}"
  /\ _fill_prn_content "{N}" [("N", VNone)] = Some ""
  /\ _fill_prn_content "{N}" [("N", VInt 42)] = Some "42".
Proof. repeat split; vm_compute; reflexivity. Qed.

(** C4: the fields are visited in order of decreasing name length: the
    order is a rearrangement of the keys in which no name is followed by a
    longer one, and the result is the fold of the substitution steps in
    that order.  For the fields A = 1 and AB = 2 and the template
    "{AB}-{A}" the result is "2-1" in both orders of the map. *)
Theorem fill_longest_first (variables : dict value) :
  Permutation (fill_order variables) (dict_keys variables)
  /\ StronglySorted (fun a b => String.length b <= String.length a)
                    (fill_order variables)
  /\ (forall t,
        _fill_prn_content t variables
        = foldl (fun acc k => content ← acc; fill_step variables content k)
                (Some t) (fill_order variables))
  /\ _fill_prn_content "{AB}-{A}" [("A", VStr "1"); ("AB", VStr "2")]
     = Some "2-1"
  /\ _fill_prn_content "{AB}-{A}" [("AB", VStr "2"); ("A", VStr "1")]
     = Some "2-1".
Proof.
  split; [apply sorted_Permutation|]. split.
  - eapply StronglySorted_weaken;
      [|apply (sorted_StronglySorted longer_or_equal)].
    + intros a b. apply longer_or_equal_spec.
    + intros x y. rewrite !longer_or_equal_spec. lia.
    + intros x y z. rewrite !longer_or_equal_spec. lia.
  - split; [reflexivity|]. split; vm_compute; reflexivity.
Qed.

(** C10: substitution is sequential.  With two bound fields, the one with
    the longer name first, the second substitution runs over the text that
    the first one produced, in whichever order the map holds them; so a
    token of the second field inside the value of the first is replaced
    too: a template that is the token of the first field, whose value is
    the token of the second, renders as the value of the second.  In
    particular render("{AB}", {"AB": "{A}", "A": "1"}) is "1". *)
Theorem fill_sequential (t k1 k2 : string) (v1 v2 : value) :
  String.length k2 < String.length k1 ->
  _fill_prn_content t [(k1, v1); (k2, v2)]
  = (Sub.re_sub k1 (value_text v1) t ≫= Sub.re_sub k2 (value_text v2))
  /\ _fill_prn_content t [(k2, v2); (k1, v1)]
     = (Sub.re_sub k1 (value_text v1) t ≫= Sub.re_sub k2 (value_text v2))
  /\ (Sub.has_backslash k2 = false ->
      Sub.has_backslash (value_text v2) = false ->
      _fill_prn_content ("{" +:+ k1 +:+ "}")
        [(k1, VStr ("{" +:+ k2 +:+ "}")); (k2, v2)]
      = Some (value_text v2))
  /\ _fill_prn_content "{AB}" [("AB", VStr "{A}"); ("A", VStr "1")]
     = Some "1".
Proof.
  intros Hlen.
  assert (Hne : k1 <> k2) by (intros ->; lia).
  assert (E12 : String.eqb k1 k2 = false) by now apply String.eqb_neq.
  assert (E21 : String.eqb k2 k1 = false)
    by (apply String.eqb_neq; congruence).
  destruct (fill_order_two value k1 k2 v1 v2 Hlen) as [O1 O2].
  assert (H1 : forall w,
             _fill_prn_content t [(k1, w); (k2, v2)]
             = (Sub.re_sub k1 (value_text w) t
                  ≫= Sub.re_sub k2 (value_text v2))).
  { intros w. unfold _fill_prn_content.
    rewrite (proj1 (fill_order_two value k1 k2 w v2 Hlen)).
    unfold fill_step. simpl. rewrite !String.eqb_refl, E21. reflexivity. }
  split; [apply H1|]. split.
  - unfold _fill_prn_content. rewrite O2. unfold fill_step. simpl.
    rewrite !String.eqb_refl, E12. reflexivity.
  - split; [|vm_compute; reflexivity].
    intros Hk2 Hv2.
    assert (H1' : forall w,
             _fill_prn_content (Sub.token k1) [(k1, w); (k2, v2)]
             = (Sub.re_sub k1 (value_text w) (Sub.token k1)
                  ≫= Sub.re_sub k2 (value_text v2))).
    { intros w. unfold _fill_prn_content.
      rewrite (proj1 (fill_order_two value k1 k2 w v2 Hlen)).
      unfold fill_step. simpl. rewrite !String.eqb_refl, E21. reflexivity. }
    change ("{" +:+ k1 +:+ "}") with (Sub.token k1).
    change ("{" +:+ k2 +:+ "}") with (Sub.token k2).
    rewrite H1'. cbn [value_text].
    rewrite re_sub_plain.
    + rewrite replace_all_self by apply token_nonempty.
      cbn [mbind option_bind]. rewrite re_sub_plain by assumption.
      now rewrite replace_all_self by apply token_nonempty.
    + rewrite token_cons. unfold Sub.has_backslash in *. cbn [Str.all].
      apply negb_false_iff. apply negb_false_iff in Hk2.
      change (negb (Sub.is_backslash "{")) with true. cbn [andb].
      clear - Hk2. induction k2 as [|c k IH]; [reflexivity|].
      rewrite append_cons. cbn [Str.all] in *.
      apply andb_true_iff in Hk2 as [Hc Hk]. now rewrite Hc, (IH Hk).
Qed.

Lemma fill_sequential_witness :
  String.length "A" < String.length "AB"
  /\ _fill_prn_content "{AB}" [("AB", VStr "{A}"); ("A", VStr "1")]
     = (Sub.re_sub "AB" "{A}" "{AB}" ≫= Sub.re_sub "A" "1").
Proof.
  assert (H : String.length "A" < String.length "AB") by (simpl; lia).
  split; [exact H|].
  exact (proj1 (fill_sequential "{AB}" "AB" "A" (VStr "{A}") (VStr "1") H)).
Defined.

(** ** Running handlers *)

Ltac unfold_M :=
  unfold mbind, M_bind, bind, mret, M_ret, ret, reply, get_db, get_files,
    get_trace, log, commit, emit, execute, try_execute, write_file,
    remove_file, rollback, when in *.

(** Symbolic execution of a handler: unfold the monad and split on the
    next test. *)
Ltac run_cases :=
  repeat (unfold_M; cbn [fst snd db files trace negb];
          match goal with
          | |- context [match ?x with _ => _ end] =>
              match x with
              | context [match _ with _ => _ end] => fail 1
              | _ => destruct x eqn:?
              end
          | |- context [if ?x then _ else _] =>
              match x with
              | context [if _ then _ else _] => fail 1
              | _ => destruct x eqn:?
              end
          end);
  unfold_M; cbn [fst snd db files trace negb].

Lemma insert_prn_variables (pid : Z) (stage filename path : string) (now : Z)
    (d d' : database) :
  Sql.insert_prn pid stage filename path now d = Some d' ->
  variables d' = variables d /\ products d' = products d.
Proof.
  unfold Sql.insert_prn. repeat case_match; try discriminate.
  intros [= <-]. split; reflexivity.
Qed.

Lemma generate_preview_frame (e : env) (prn_path out_path : string)
    (st : state) :
  db (fst (generate_preview e prn_path out_path st)) = db st.
Proof.
  unfold generate_preview. run_cases; reflexivity.
Qed.

(** ** Invariants of handlers *)

Section Maintains.

Context (I : state -> Prop).

Lemma maintains_ret {A} (a : A) : maintains I (mret a).
Proof. intros st H. exact H. Qed.

Lemma maintains_reply {A} (r : response) : maintains I (@reply A r).
Proof. intros st H. exact H. Qed.

Lemma maintains_bind {A B} (m : M A) (k : A -> M B) :
  maintains I m -> (forall a, maintains I (k a)) -> maintains I (m ≫= k).
Proof.
  intros Hm Hk st H. unfold mbind, M_bind, bind.
  specialize (Hm st H). destruct (m st) as [st' [r|a]]; simpl in *.
  - exact Hm.
  - now apply Hk.
Qed.

Lemma maintains_get_db : maintains I get_db.
Proof. intros st H. exact H. Qed.

Lemma maintains_get_files : maintains I get_files.
Proof. intros st H. exact H. Qed.

Lemma maintains_get_trace : maintains I get_trace.
Proof. intros st H. exact H. Qed.

Lemma maintains_when (b : bool) (m : M unit) :
  maintains I m -> maintains I (when b m).
Proof. intros Hm. destruct b; [exact Hm | apply maintains_ret]. Qed.

Lemma maintains_for_each {A} (l : list A) (f : A -> M unit) :
  (forall x, maintains I (f x)) -> maintains I (for_each l f).
Proof.
  intros Hf. induction l as [|x l IH]; simpl.
  - apply maintains_ret.
  - apply maintains_bind; [apply Hf | intros _; exact IH].
Qed.

(** Reading the database in a handler: what follows may use that the
    value read is the database of the state. *)
Lemma maintains_get_db_bind {A} (k : database -> M A) :
  (forall st, I st -> I (fst (k (db st) st))) -> maintains I (get_db ≫= k).
Proof. intros H st HI. exact (H st HI). Qed.

Lemma maintains_from {A} (J : state -> Prop) (m : M A) (st : state) :
  maintains J m -> J st -> (forall st', J st' -> I st') -> I (fst (m st)).
Proof. intros Hm HJ HI. apply HI, Hm, HJ. Qed.

Lemma maintains_from_bind {A B} (J : state -> Prop) (m : M A)
    (k : A -> M B) (st : state) :
  J (fst (m st)) -> (forall a, maintains J (k a)) ->
  (forall st', J st' -> I st') -> I (fst ((m ≫= k) st)).
Proof.
  intros Hm Hk HI. unfold mbind, M_bind, bind.
  destruct (m st) as [st' [r|a]]; simpl in *; [now apply HI|].
  apply HI, Hk, Hm.
Qed.

(** An invariant together with a fact that does not depend on the
    state. *)
Lemma maintains_const {A} (P : Prop) (m : M A) :
  maintains I m -> maintains (fun st => I st /\ P) m.
Proof. intros Hm st [H HP]. split; [now apply Hm | exact HP]. Qed.

(** The invariant looks at the database only. *)
Hypothesis I_db : forall st st', db st = db st' -> I st -> I st'.

Lemma maintains_rollback (d : database) :
  (forall st, I st -> I (mk_state d (files st) (trace st))) ->
  maintains I (rollback d).
Proof. intros Hd st H. exact (Hd st H). Qed.

Lemma maintains_emit (ev : event) : maintains I (emit ev).
Proof. intros st H. eapply I_db; [|exact H]. reflexivity. Qed.

Lemma maintains_log (l : log_level) (msg : string) : maintains I (log l msg).
Proof. apply maintains_emit. Qed.

Lemma maintains_commit : maintains I commit.
Proof. apply maintains_emit. Qed.

Lemma maintains_write_file (p c : string) : maintains I (write_file p c).
Proof. intros st H. eapply I_db; [|exact H]. reflexivity. Qed.

Lemma maintains_remove_file (p : string) : maintains I (remove_file p).
Proof. intros st H. eapply I_db; [|exact H]. reflexivity. Qed.

Lemma maintains_execute (table : string) (f : database -> database) :
  (forall st, I st -> I (mk_state (f (db st)) (files st) (trace st))) ->
  maintains I (execute table f).
Proof.
  intros Hf st H. eapply I_db; [|exact (Hf st H)]. reflexivity.
Qed.

Lemma maintains_try_execute (table : string)
    (f : database -> option database) :
  (forall st d', I st -> f (db st) = Some d' ->
                 I (mk_state d' (files st) (trace st))) ->
  maintains I (try_execute table f).
Proof.
  intros Hf st H. unfold try_execute.
  destruct (f (db st)) as [d'|] eqn:E; simpl; [|exact H].
  eapply I_db; [|exact (Hf st d' H E)]. reflexivity.
Qed.

End Maintains.

(** Goals [maintains I m] by the structure of [m]. *)
Ltac maintains_step I_db :=
  match goal with
  | |- maintains _ (mbind _ _) => apply maintains_bind; [|intros ?]
  | |- maintains _ (mret _) => apply maintains_ret
  | |- maintains _ (ret _) => apply (maintains_ret _)
  | |- maintains _ (reply _) => apply maintains_reply
  | |- maintains _ get_db => apply maintains_get_db
  | |- maintains _ get_files => apply maintains_get_files
  | |- maintains _ get_trace => apply maintains_get_trace
  | |- maintains _ (when _ _) => apply maintains_when
  | |- maintains _ (emit _) => apply (maintains_emit _ I_db)
  | |- maintains _ (log _ _) => apply (maintains_log _ I_db)
  | |- maintains _ commit => apply (maintains_commit _ I_db)
  | |- maintains _ (write_file _ _) => apply (maintains_write_file _ I_db)
  | |- maintains _ (remove_file _) => apply (maintains_remove_file _ I_db)
  | |- maintains _ (match ?x with _ => _ end) => destruct x
  | |- maintains _ (if ?x then _ else _) => destruct x
  | |- maintains _ (let _ := _ in _) => cbv zeta
  end.

(** ** C5: upserts keep one row per (product, stage, field) *)

Lemma unique_inv_db (st st' : state) :
  db st = db st' -> unique_inv st -> unique_inv st'.
Proof. unfold unique_inv. now intros ->. Qed.

Lemma variable_keyed_spec (pid : Z) (stage name : string) (r : variable_row) :
  Sql.variable_keyed pid stage name r = true
  <-> variable_key r = (pid, stage, name).
Proof.
  unfold Sql.variable_keyed, variable_key.
  rewrite !andb_true_iff, Z.eqb_eq, !String.eqb_eq.
  split; [intros [[-> ->] ->]; reflexivity | intros [= -> -> ->]; auto].
Qed.

Lemma upsert_variable_keys_update (pid : Z) (stage name : string) (v : value)
    (rows : list variable_row) :
  List.map variable_key
    (List.map (fun r => if Sql.variable_keyed pid stage name r
                        then Sql.with_field_value v r else r) rows)
  = List.map variable_key rows.
Proof.
  rewrite List.map_map. apply List.map_ext. intros r.
  now destruct (Sql.variable_keyed pid stage name r).
Qed.

Lemma upsert_variable_unique (pid : Z) (stage name : string) (v : value)
    (d : database) :
  variables_unique d ->
  variables_unique (Sql.upsert_variable pid stage name v d).
Proof.
  unfold variables_unique, Sql.upsert_variable. cbv zeta. intros H.
  destruct (existsb _ (variables d)) eqn:E; simpl.
  - now rewrite upsert_variable_keys_update.
  - rewrite List.map_app. apply NoDup_app. split; [exact H|]. split.
    + intros k Hk. simpl. rewrite list_elem_of_singleton. intros ->.
      apply list_elem_of_In, in_map_iff in Hk as (r & Hr & Hin).
      apply not_true_iff_false in E. apply E. apply existsb_exists.
      exists r. split; [exact Hin | now apply variable_keyed_spec].
    + simpl. apply NoDup_singleton.
Qed.

Lemma insert_or_ignore_product_variables (name : string) (d : database) :
  variables (Sql.insert_or_ignore_product name d) = variables d.
Proof. unfold Sql.insert_or_ignore_product. now case_match. Qed.

Lemma insert_or_ignore_product_unique (name : string) (st : state) :
  unique_inv st ->
  unique_inv (mk_state (Sql.insert_or_ignore_product name (db st))
                       (files st) (trace st)).
Proof.
  unfold unique_inv, variables_unique. simpl.
  now rewrite insert_or_ignore_product_variables.
Qed.

Lemma generate_preview_maintains (I : state -> Prop)
    (I_db : forall st st', db st = db st' -> I st -> I st')
    (e : env) (a b : string) :
  maintains I (generate_preview e a b).
Proof. unfold generate_preview. repeat maintains_step I_db. Qed.

Section SaveFieldsInvariant.

Variable secure_filename : string -> string.

Lemma insert_prn_unique (pid : Z) (stage f p : string) (now : Z)
    (st : state) (d' : database) :
  unique_inv st ->
  Sql.insert_prn pid stage f p now (db st) = Some d' ->
  unique_inv (mk_state d' (files st) (trace st)).
Proof.
  unfold unique_inv, variables_unique. intros H E. simpl.
  now rewrite (proj1 (insert_prn_variables _ _ _ _ _ _ _ E)).
Qed.

Lemma generate_filled_prn_unique (e : env) (failure dir src : string)
    (pid : Z) (stage : string) (vars : dict value) :
  maintains unique_inv
    (generate_filled_prn e failure dir src pid stage vars).
Proof.
  unfold generate_filled_prn.
  repeat first
    [ maintains_step unique_inv_db
    | apply generate_preview_maintains; exact unique_inv_db
    | apply (maintains_try_execute _ unique_inv_db); intros;
      eapply insert_prn_unique; eassumption
    | apply (maintains_execute _ unique_inv_db); intros; assumption ].
Qed.

Lemma save_fields_unique (e : env) (data : option save_fields_request) :
  maintains unique_inv (save_fields secure_filename e data).
Proof.
  unfold save_fields.
  repeat first
    [ match goal with
      | |- maintains _ (mbind _ get_db) =>
          apply maintains_get_db_bind; intros st Hst
      end
    | maintains_step unique_inv_db
    | apply (maintains_execute _ unique_inv_db); intros ? ?;
      apply insert_or_ignore_product_unique; assumption ].
  all: destruct (Sql.select_product_id _ (db st)) as [pid|]; [|exact Hst].
  (* from here on, with the database of the last commit at hand *)
  all: assert (J_db : forall st1 st2 : state,
                 db st1 = db st2 ->
                 unique_inv st1 /\ variables_unique (db st) ->
                 unique_inv st2 /\ variables_unique (db st))
         by (intros st1 st2 E [H1 H2]; split;
             [exact (unique_inv_db _ _ E H1) | exact H2]).
  all: apply (maintains_from unique_inv
                (fun st' => unique_inv st' /\ variables_unique (db st)));
         [| split; exact Hst | tauto].
  all: repeat first
    [ apply maintains_const; apply generate_filled_prn_unique
    | apply maintains_for_each; intros [? ?]
    | apply (maintains_execute _ J_db); intros ? [? ?]; split;
      [apply upsert_variable_unique; assumption | assumption]
    | apply maintains_rollback; intros ? [_ H2]; split; exact H2
    | maintains_step J_db ].
Qed.

End SaveFieldsInvariant.

Lemma require_stage_body (s stage : string) (a f : option string) :
  stage_folder_name s = Some stage ->
  require_stage_from_request (Some s) a f = Some stage.
Proof.
  intros H. unfold require_stage_from_request.
  destruct s as [|c s]; [discriminate H|]. exact H.
Qed.

Lemma is_empty_false (s : string) : s <> "" -> Str.is_empty s = false.
Proof. destruct s; [contradiction | reflexivity]. Qed.

Lemma select_after_insert (name : string) (d : database) :
  exists pid,
    Sql.select_product_id name (Sql.insert_or_ignore_product name d) = Some pid.
Proof.
  unfold Sql.select_product_id, Sql.insert_or_ignore_product. cbv zeta.
  destruct (existsb (Sql.product_named name) (products d)) eqn:E.
  - apply existsb_exists in E as (r & Hin & Hr). cbn [products].
    destruct (List.find (Sql.product_named name) (products d)) eqn:F.
    + eexists. reflexivity.
    + exfalso. eapply find_none in F; [|exact Hin]. congruence.
  - simpl. destruct (List.find _ (products d ++ _)) eqn:F.
    + eexists. reflexivity.
    + exfalso.
      assert (Hin : In (mk_product (products_seq d + 1) name)
                      (products d ++ [mk_product (products_seq d + 1) name]))
        by (apply in_or_app; right; now left).
      pose proof (find_none _ _ F _ Hin) as Hn.
      unfold Sql.product_named in Hn. simpl in Hn.
      now rewrite String.eqb_refl in Hn.
Qed.

(** The insert of a product that exists is ignored: only the counter
    moves. *)
Lemma insert_or_ignore_existing (name : string) (d : database) (pid : Z) :
  Sql.select_product_id name d = Some pid ->
  Sql.insert_or_ignore_product name d
  = mk_database (products d) (products_seq d + 1)
                (variables d) (variables_seq d)
                (product_prns d) (product_prns_seq d).
Proof.
  unfold Sql.select_product_id, Sql.insert_or_ignore_product. intros H.
  destruct (List.find (Sql.product_named name) (products d)) as [r|] eqn:F;
    [|discriminate].
  apply find_some in F as [Hin Hr].
  assert (E : existsb (Sql.product_named name) (products d) = true)
    by (apply existsb_exists; eauto).
  now rewrite E.
Qed.

Lemma select_product_upsert (name : string) (pid : Z) (stage k : string)
    (v : value) (d : database) :
  Sql.select_product_id name (Sql.upsert_variable pid stage k v d)
  = Sql.select_product_id name d.
Proof.
  unfold Sql.select_product_id, Sql.upsert_variable. now case_match.
Qed.

Lemma keyed_with_field_value (pid : Z) (stage name : string) (v : value)
    (r : variable_row) :
  Sql.variable_keyed pid stage name (Sql.with_field_value v r)
  = Sql.variable_keyed pid stage name r.
Proof. reflexivity. Qed.

Lemma filter_keyed_update (pid : Z) (stage name : string) (v : value)
    (rows : list variable_row) :
  List.filter (Sql.variable_keyed pid stage name)
    (List.map (fun r => if Sql.variable_keyed pid stage name r
                        then Sql.with_field_value v r else r) rows)
  = List.map (Sql.with_field_value v)
      (List.filter (Sql.variable_keyed pid stage name) rows).
Proof.
  induction rows as [|r rows IH]; [reflexivity|]. simpl.
  destruct (Sql.variable_keyed pid stage name r) eqn:E.
  - rewrite keyed_with_field_value, E. simpl. now rewrite IH.
  - now rewrite E.
Qed.

Lemma filter_keyed_none (pid : Z) (stage name : string)
    (rows : list variable_row) :
  existsb (Sql.variable_keyed pid stage name) rows = false ->
  List.filter (Sql.variable_keyed pid stage name) rows = [].
Proof.
  induction rows as [|r rows IH]; [reflexivity|]. simpl.
  intros H. apply orb_false_iff in H as [-> H]. now apply IH.
Qed.

Lemma filter_keyed_unique (pid : Z) (stage name : string)
    (rows : list variable_row) :
  NoDup (List.map variable_key rows) ->
  length (List.filter (Sql.variable_keyed pid stage name) rows) <= 1.
Proof.
  induction rows as [|r rows IH]; simpl; [lia|].
  intros H. apply NoDup_cons in H as [Hnotin Hnd].
  destruct (Sql.variable_keyed pid stage name r) eqn:E; [|now apply IH].
  rewrite filter_keyed_none; [simpl; lia|].
  apply not_true_iff_false. intros Hex.
  apply existsb_exists in Hex as (r' & Hin & Hr').
  apply Hnotin. apply list_elem_of_In, in_map_iff. exists r'.
  split; [|exact Hin].
  apply variable_keyed_spec in E. apply variable_keyed_spec in Hr'.
  congruence.
Qed.

Lemma filter_keyed_exists (pid : Z) (stage name : string)
    (rows : list variable_row) :
  NoDup (List.map variable_key rows) ->
  existsb (Sql.variable_keyed pid stage name) rows = true ->
  exists id v,
    List.filter (Sql.variable_keyed pid stage name) rows
    = [mk_variable id pid stage name v].
Proof.
  intros Hnd Hex. pose proof (filter_keyed_unique pid stage name rows Hnd) as Hlen.
  apply existsb_exists in Hex as (r & Hin & Hr).
  assert (Hf : In r (List.filter (Sql.variable_keyed pid stage name) rows))
    by (apply filter_In; auto).
  destruct (List.filter (Sql.variable_keyed pid stage name) rows)
    as [|r0 [|r1 l]] eqn:F; simpl in Hlen; try lia; [contradiction|].
  destruct Hf as [-> | []].
  apply variable_keyed_spec in Hr. destruct r as [id p s n v].
  unfold variable_key in Hr. simpl in Hr. injection Hr as -> -> ->.
  now exists id, v.
Qed.

(** After an upsert exactly one row carries the key, with the new value. *)
Lemma upsert_variable_row (pid : Z) (stage name : string) (v : value)
    (d : database) :
  variables_unique d ->
  exists id,
    List.filter (Sql.variable_keyed pid stage name)
      (variables (Sql.upsert_variable pid stage name v d))
    = [mk_variable id pid stage name (Sql.as_text v)].
Proof.
  intros Hnd. unfold Sql.upsert_variable. cbv zeta.
  destruct (existsb _ (variables d)) eqn:E; simpl.
  - rewrite filter_keyed_update.
    destruct (filter_keyed_exists _ _ _ _ Hnd E) as (id & v0 & ->).
    now exists id.
  - rewrite List.filter_app, (filter_keyed_none _ _ _ _ E). simpl.
    unfold Sql.variable_keyed at 1. simpl.
    rewrite Z.eqb_refl, !String.eqb_refl. simpl. eexists. reflexivity.
Qed.

(** An upsert over a row that holds the key rewrites values in place. *)
Lemma upsert_variable_in_place (pid : Z) (stage name : string) (v w : value)
    (d : database) (id : Z) :
  List.filter (Sql.variable_keyed pid stage name) (variables d)
  = [mk_variable id pid stage name v] ->
  List.filter (Sql.variable_keyed pid stage name)
    (variables (Sql.upsert_variable pid stage name w d))
  = [mk_variable id pid stage name (Sql.as_text w)]
  /\ List.map variable_id (variables (Sql.upsert_variable pid stage name w d))
     = List.map variable_id (variables d)
  /\ (Sql.as_text w = v ->
      variables (Sql.upsert_variable pid stage name w d) = variables d).
Proof.
  intros F. unfold Sql.upsert_variable. cbv zeta.
  assert (E : existsb (Sql.variable_keyed pid stage name) (variables d) = true).
  { destruct (existsb _ (variables d)) eqn:E; [reflexivity|].
    rewrite (filter_keyed_none _ _ _ _ E) in F. discriminate. }
  rewrite E. simpl. split; [|split].
  - now rewrite filter_keyed_update, F.
  - rewrite List.map_map. apply List.map_ext. intros r.
    now destruct (Sql.variable_keyed pid stage name r).
  - intros ->.
    rewrite <- (List.map_id (variables d)) at 2.
    apply List.map_ext_in. intros r Hin.
    destruct (Sql.variable_keyed pid stage name r) eqn:Hr; [|reflexivity].
    assert (Hf : In r (List.filter (Sql.variable_keyed pid stage name)
                         (variables d))) by (apply filter_In; auto).
    rewrite F in Hf. destruct Hf as [<- | []]. reflexivity.
Qed.

Section SaveFields.

Variable secure_filename : string -> string.

Lemma upsert_reachable_unique (st : state) :
  upsert_reachable secure_filename st -> variables_unique (db st).
Proof.
  induction 1 as [|e data st Hst IH].
  - apply NoDup_nil_2.
  - unfold run.
    pose proof (save_fields_unique secure_filename e data st IH) as H.
    unfold unique_inv in H.
    now destruct (save_fields secure_filename e data st) as [st' [r|r]].
Qed.

Lemma save_fields_upsert_A (e : env) (p s stage v : string) (st : state)
    (pid : Z) :
  Str.strip p <> "" -> stage_folder_name s = Some stage ->
  Sql.select_product_id (Str.strip p)
    (Sql.insert_or_ignore_product (Str.strip p) (db st)) = Some pid ->
  db (fst (run (save_fields secure_filename e (upsert_A p s v)) st))
  = Sql.upsert_variable pid stage "A" (VStr v)
      (Sql.insert_or_ignore_product (Str.strip p) (db st)).
Proof.
  intros Hp Hs Hsel. unfold run, save_fields, upsert_A.
  cbn [sf_product_name sf_variables sf_stage sf_args_stage sf_form_stage
       sf_generate_filled sf_source_prn_filename].
  rewrite (require_stage_body _ _ _ _ Hs), (is_empty_false _ Hp).
  unfold_M. cbn [fst snd db files trace for_each]. rewrite Hsel.
  unfold_M. reflexivity.
Qed.

(** C5: in every state that upserts lead to, no two variable rows share
    a (product, stage, field name) triple.  From such a state, the
    upsert of A = 1 for (p, s) made twice leaves exactly one row for
    (p, s, A), with value 1, the second call changing no row of any
    table (it does consume an id of each counter it draws from); a
    further upsert of A = 2 leaves exactly one row, the same row (same
    id, same place), with value 2. *)
Theorem upsert_many_idempotent (st : state) :
  upsert_reachable secure_filename st ->
  variables_unique (db st)
  /\ (forall pid stage name,
        length (List.filter (Sql.variable_keyed pid stage name)
                  (variables (db st))) <= 1)
  /\ forall (e1 e2 e3 : env) (p s stage : string),
       Str.strip p <> "" -> stage_folder_name s = Some stage ->
       let st1 := fst (run (save_fields secure_filename e1
                              (upsert_A p s "1")) st) in
       let st2 := fst (run (save_fields secure_filename e2
                              (upsert_A p s "1")) st1) in
       let st3 := fst (run (save_fields secure_filename e3
                              (upsert_A p s "2")) st2) in
       exists pid id,
         Sql.select_product_id (Str.strip p) (db st1) = Some pid
         /\ List.filter (Sql.variable_keyed pid stage "A")
              (variables (db st2))
            = [mk_variable id pid stage "A" (VStr "1")]
         /\ products (db st2) = products (db st1)
         /\ variables (db st2) = variables (db st1)
         /\ product_prns (db st2) = product_prns (db st1)
         /\ products_seq (db st2) = (products_seq (db st1) + 1)%Z
         /\ variables_seq (db st2) = (variables_seq (db st1) + 1)%Z
         /\ List.filter (Sql.variable_keyed pid stage "A")
              (variables (db st3))
            = [mk_variable id pid stage "A" (VStr "2")]
         /\ List.map variable_id (variables (db st3))
            = List.map variable_id (variables (db st2)).
Proof.
  intros Hreach. pose proof (upsert_reachable_unique st Hreach) as Hu.
  split; [exact Hu|]. split.
  { intros. now apply filter_keyed_unique. }
  intros e1 e2 e3 p s stage Hp Hs st1 st2 st3.
  set (name := Str.strip p) in *.
  set (d0 := Sql.insert_or_ignore_product name (db st)).
  destruct (select_after_insert name (db st)) as [pid Hsel]. fold d0 in Hsel.
  assert (Hu0 : variables_unique d0).
  { unfold variables_unique, d0.
    now rewrite insert_or_ignore_product_variables. }
  assert (E1 : db st1 = Sql.upsert_variable pid stage "A" (VStr "1") d0)
    by (apply save_fields_upsert_A; assumption).
  assert (Hsel1 : Sql.select_product_id name (db st1) = Some pid)
    by (rewrite E1, select_product_upsert; exact Hsel).
  destruct (upsert_variable_row pid stage "A" (VStr "1") d0 Hu0)
    as [id Hrow].
  rewrite <- E1 in Hrow. cbn [Sql.as_text] in Hrow.
  (* the second call: the insert of the product is ignored *)
  set (d1 := Sql.insert_or_ignore_product name (db st1)).
  assert (Hd1 : d1 = mk_database (products (db st1))
                       (products_seq (db st1) + 1)
                       (variables (db st1)) (variables_seq (db st1))
                       (product_prns (db st1)) (product_prns_seq (db st1)))
    by (exact (insert_or_ignore_existing _ _ _ Hsel1)).
  assert (Hsel1' : Sql.select_product_id name d1 = Some pid)
    by (rewrite Hd1; exact Hsel1).
  assert (Hrow1 : List.filter (Sql.variable_keyed pid stage "A")
                    (variables d1)
                  = [mk_variable id pid stage "A" (VStr "1")])
    by (rewrite Hd1; exact Hrow).
  assert (E2 : db st2 = Sql.upsert_variable pid stage "A" (VStr "1") d1)
    by (apply save_fields_upsert_A; assumption).
  destruct (upsert_variable_in_place pid stage "A" (VStr "1") (VStr "1")
              d1 id Hrow1) as (H21 & _ & H23).
  specialize (H23 eq_refl). rewrite <- E2 in H21, H23.
  assert (Hv2 : variables (db st2) = variables (db st1))
    by (rewrite H23, Hd1; reflexivity).
  assert (Hsel2 : Sql.select_product_id name (db st2) = Some pid)
    by (rewrite E2, select_product_upsert; exact Hsel1').
  (* the third call *)
  set (d2 := Sql.insert_or_ignore_product name (db st2)).
  assert (Hd2 : d2 = mk_database (products (db st2))
                       (products_seq (db st2) + 1)
                       (variables (db st2)) (variables_seq (db st2))
                       (product_prns (db st2)) (product_prns_seq (db st2)))
    by (exact (insert_or_ignore_existing _ _ _ Hsel2)).
  assert (Hsel2' : Sql.select_product_id name d2 = Some pid)
    by (rewrite Hd2; exact Hsel2).
  assert (Hrow2 : List.filter (Sql.variable_keyed pid stage "A")
                    (variables d2)
                  = [mk_variable id pid stage "A" (VStr "1")])
    by (rewrite Hd2; exact H21).
  assert (E3 : db st3 = Sql.upsert_variable pid stage "A" (VStr "2") d2)
    by (apply save_fields_upsert_A; assumption).
  destruct (upsert_variable_in_place pid stage "A" (VStr "1") (VStr "2")
              d2 id Hrow2) as (H31 & H32 & _).
  rewrite <- E3 in H31, H32.
  exists pid, id. split; [exact Hsel1|]. split; [exact H21|].
  assert (Hex : existsb (Sql.variable_keyed pid stage "A") (variables d1)
                = true).
  { destruct (existsb _ (variables d1)) eqn:E; [reflexivity|].
    rewrite (filter_keyed_none _ _ _ _ E) in Hrow1. discriminate. }
  split; [rewrite E2, Hd1; unfold Sql.upsert_variable; now case_match|].
  split; [exact Hv2|].
  split; [rewrite E2, Hd1; unfold Sql.upsert_variable; now case_match|].
  split; [rewrite E2, Hd1; unfold Sql.upsert_variable; now case_match|].
  split; [rewrite E2; unfold Sql.upsert_variable; cbv zeta; rewrite Hex;
          rewrite Hd1; reflexivity|].
  split; [exact H31|].
  rewrite H32, Hd2. reflexivity.
Qed.

End SaveFields.

Lemma upsert_many_idempotent_witness :
  upsert_reachable Werkzeug.secure_filename initial_state
  /\ Str.strip "P" <> ""
  /\ stage_folder_name "raw" = Some "Raw"
  /\ exists pid id,
       let st1 := fst (run (save_fields Werkzeug.secure_filename offline_env
                              (upsert_A "P" "raw" "1")) initial_state) in
       let st2 := fst (run (save_fields Werkzeug.secure_filename offline_env
                              (upsert_A "P" "raw" "1")) st1) in
       let st3 := fst (run (save_fields Werkzeug.secure_filename offline_env
                              (upsert_A "P" "raw" "2")) st2) in
       List.filter (Sql.variable_keyed pid "Raw" "A") (variables (db st2))
       = [mk_variable id pid "Raw" "A" (VStr "1")]
       /\ variables (db st2) = variables (db st1)
       /\ products_seq (db st2) = 2%Z
       /\ variables_seq (db st2) = 2%Z
       /\ List.filter (Sql.variable_keyed pid "Raw" "A") (variables (db st3))
          = [mk_variable id pid "Raw" "A" (VStr "2")].
Proof.
  assert (H : upsert_reachable Werkzeug.secure_filename initial_state)
    by constructor.
  assert (Hp : Str.strip "P" <> "") by (vm_compute; discriminate).
  assert (Hs : stage_folder_name "raw" = Some "Raw") by reflexivity.
  split; [exact H|]. split; [exact Hp|]. split; [exact Hs|].
  destruct (proj2 (proj2 (upsert_many_idempotent Werkzeug.secure_filename
                            initial_state H))
              offline_env offline_env offline_env "P" "raw" "Raw" Hp Hs)
    as (pid & id & _ & H2 & _ & Hv & _ & Hp1 & Hv1 & H3 & _).
  exists pid, id. split; [exact H2|]. split; [exact Hv|].
  split; [exact Hp1|]. split; [exact Hv1 | exact H3].
Defined.

(** ** C6: a rename onto an existing name is refused before any write *)

Lemma select_variable_id_In (pid : Z) (stage name : string) (d : database)
    (r : variable_row) :
  In r (variables d) -> variable_key r = (pid, stage, name) ->
  exists id, Sql.select_variable_id pid stage name d = Some id.
Proof.
  intros Hin Hk. unfold Sql.select_variable_id.
  destruct (List.find _ (variables d)) eqn:F; [eexists; reflexivity|].
  exfalso. pose proof (find_none _ _ F _ Hin) as Hn.
  apply variable_keyed_spec in Hk. congruence.
Qed.

Section UpdateVariable.

Variable secure_filename : string -> string.

(** C6: when the variables [old] and [new] both exist for the product
    and stage of the request and differ, [update_variable] answers 409
    (conflict) and leaves the state as it was: the database (so both
    rows, names and values), the files, and the record of effects, to
    which no write and no commit was added.  This holds whatever new
    value and whatever generation options the request carries. *)
Theorem rename_conflict (e : env) (st : state)
    (rq : update_variable_request) (p old new stage : string) (pid : Z)
    (ra rb : variable_row) :
  uv_product_name rq = Some p ->
  uv_old_field_name rq = Some old ->
  uv_new_field_name rq = Some new ->
  require_stage_from_request (uv_stage rq) (uv_args_stage rq)
    (uv_form_stage rq) = Some stage ->
  Sql.select_product_id (Str.strip p) (db st) = Some pid ->
  In ra (variables (db st)) ->
  variable_key ra = (pid, stage, Str.strip old) ->
  In rb (variables (db st)) ->
  variable_key rb = (pid, stage, Str.strip new) ->
  Str.strip old <> Str.strip new ->
  run (update_variable secure_filename e (Some rq)) st
  = (st, Error 409 "target variable name already exists for this product+stage").
Proof.
  intros Hp Ho Hn Hs Hsel Ha Hka Hb Hkb Hne.
  destruct (select_variable_id_In _ _ _ _ _ Ha Hka) as [ida Hida].
  destruct (select_variable_id_In _ _ _ _ _ Hb Hkb) as [idb Hidb].
  unfold run, update_variable. rewrite Hp, Ho, Hn, Hs.
  cbn [bool_decide orb negb default]. unfold_M.
  change (bool_decide (is_Some (Some new))) with true. cbn [orb negb].
  cbn [fst snd db]. unfold id. rewrite Hsel, Hida, Hidb.
  assert (E : String.eqb (Str.strip new) (Str.strip old) = false)
    by (apply String.eqb_neq; congruence).
  rewrite E. reflexivity.
Qed.

End UpdateVariable.

Lemma rename_conflict_witness :
  run (update_variable Werkzeug.secure_filename offline_env
         (rename_request "P" "Raw" "A" "B" (Some (VStr "9"))))
      two_variables_state
  = (two_variables_state,
     Error 409 "target variable name already exists for this product+stage").
Proof.
  apply (rename_conflict Werkzeug.secure_filename offline_env
           two_variables_state _ "P" "A" "B" "Raw" 1
           (mk_variable 1 1 "Raw" "A" (VStr "1"))
           (mk_variable 2 1 "Raw" "B" (VStr "2")));
    try reflexivity.
  - left. reflexivity.
  - right. left. reflexivity.
  - vm_compute. discriminate.
Defined.

(** ** C9: deleting an artifact *)

Lemma removal_not_due (fs : gmap string string) (p : string) :
  Str.is_empty p || negb (path_exists fs p) = true ->
  ~ removal_due fs p /\ (p <> "" -> fs !! p = None).
Proof.
  unfold removal_due, path_exists. intros H.
  apply orb_true_iff in H as [H|H].
  - destruct p; [|discriminate]. split; [intros [Hp _]|intros Hp];
      now contradiction Hp.
  - apply negb_true_iff, bool_decide_eq_false in H.
    split; [intros [_ Hs]; contradiction|].
    intros _. now apply eq_None_not_Some.
Qed.

Lemma removal_is_due (fs : gmap string string) (p : string) :
  Str.is_empty p || negb (path_exists fs p) = false -> removal_due fs p.
Proof.
  unfold removal_due, path_exists. intros H.
  apply orb_false_iff in H as [H1 H2].
  apply negb_false_iff, bool_decide_eq_true in H2.
  split; [now destruct p | exact H2].
Qed.

Lemma removal_due_delete (fs : gmap string string) (p q : string) :
  p <> q -> removal_due fs p -> removal_due (delete q fs) p.
Proof.
  unfold removal_due. intros Hne [H1 H2]. split; [exact H1|].
  rewrite lookup_delete_ne by congruence. exact H2.
Qed.

Lemma skipn_past (l rest : list event) (a b : event) :
  List.skipn (length l + 2) (l ++ a :: b :: rest) = rest.
Proof. induction l; [reflexivity | assumption]. Qed.

Section DeletePrn.

Variable secure_filename : string -> string.

(** C9: for a request with a valid stage, [delete_prn]
    - answers 404 and leaves the state as it was when the product is
      unknown, and when the product has no artifact of that name;
    - otherwise answers 200 "deleted", whatever the file operations do.
      The row is deleted and committed first: the new effects are the
      DELETE, the commit, and only then removal attempts and at most a
      warning; a failed removal is followed by that warning.  The
      database afterwards is the old one without the row, and no file
      but the template and its preview is touched.
      The removals are attempted: the template file is removed when it
      is there, and then the preview file when it is there; each attempt
      is recorded, and an attempt that does not raise leaves no file at
      its path.  When the removal of the template raises, the preview
      is not attempted and every file stays. *)
Theorem delete_prn_spec (e : env) (st : state) (p s filename stage : string) :
  stage_folder_name s = Some stage ->
  let result := run (delete_prn secure_filename e
                       (delete_request p s filename)) st in
  match Sql.select_product_id (Str.strip p) (db st) with
  | None => result = (st, Error 404 "product not found")
  | Some pid =>
      match Sql.select_prn pid stage (secure_filename filename) (db st) with
      | None => result = (st, Error 404 "prn not found")
      | Some r =>
          snd result = Ok [("message", JStr "deleted");
                           ("prn_filename",
                            JStr (secure_filename filename))]
          /\ db (fst result) = Sql.delete_prn_by_id (prn_id r) (db st)
          /\ ~ In r (product_prns (db (fst result)))
          /\ (exists cleanup,
                trace (fst result)
                = trace st ++ [EvDbWrite "product_prns"; EvCommit]
                    ++ cleanup
                /\ Forall cleanup_event cleanup
                /\ (forall path, In (EvFileRemove path false) cleanup ->
                      In (EvLog LogWarning
                            "Error removing files during delete-prn")
                         cleanup))
          /\ (forall path, path <> prn_path r ->
                Some path <> preview_path r ->
                files (fst result) !! path = files st !! path)
          /\ (removal_due (files st) (prn_path r) ->
              In (EvFileRemove (prn_path r)
                    (negb (io_fails e IoRemove (prn_path r))))
                 (List.skipn (length (trace st) + 2) (trace (fst result))))
          /\ (prn_path r <> "" -> io_fails e IoRemove (prn_path r) = false ->
              files (fst result) !! prn_path r = None)
          /\ (removal_due (files st) (prn_path r) ->
              io_fails e IoRemove (prn_path r) = true ->
              files (fst result) = files st)
          /\ (forall p,
                preview_path r = Some p ->
                (removal_due (files st) (prn_path r) ->
                 io_fails e IoRemove (prn_path r) = false) ->
                (removal_due (files st) p -> p <> prn_path r ->
                 In (EvFileRemove p (negb (io_fails e IoRemove p)))
                    (List.skipn (length (trace st) + 2)
                       (trace (fst result))))
                /\ (p <> "" -> io_fails e IoRemove p = false ->
                    files (fst result) !! p = None))
      end
  end.
Proof.
  intros Hs result. subst result.
  unfold run, delete_prn, delete_request.
  cbn [dp_product_name dp_stage dp_prn_filename]. rewrite Hs.
  unfold_M. cbn [fst snd db].
  destruct (Sql.select_product_id (Str.strip p) (db st)) as [pid|];
    [|reflexivity].
  destruct (Sql.select_prn pid stage (secure_filename filename) (db st))
    as [r|] eqn:Hsel; [|reflexivity].
  assert (Hgone : ~ In r (product_prns
                            (Sql.delete_prn_by_id (prn_id r) (db st)))).
  { unfold Sql.delete_prn_by_id. simpl. rewrite filter_In.
    intros [_ H]. now rewrite Z.eqb_refl in H. }
  unfold remove_if_exists.
  run_cases; cbn [fst snd db files trace];
    (split; [reflexivity|]); (split; [reflexivity|]);
    (split; [exact Hgone|]);
    (split;
     [ rewrite <- ?app_assoc; cbn [app]; eexists;
       split; [reflexivity|];
       split; [repeat constructor|];
       intros path Hin; cbn [In] in Hin |- *;
       intuition (try discriminate; auto) |]);
    (split;
     [ intros path Hp1 Hp2;
       rewrite ?lookup_delete_ne by congruence; reflexivity |]).
  all: rewrite <- ?app_assoc; cbn [app]; rewrite ?skipn_past.
  all: repeat match goal with
       | H : Str.is_empty ?q || negb (path_exists ?fs ?q) = true |- _ =>
           apply removal_not_due in H; destruct H
       | H : Str.is_empty ?q || negb (path_exists ?fs ?q) = false |- _ =>
           apply removal_is_due in H
       end.
  all: repeat match goal with
       | |- _ /\ _ => split
       | |- forall _, _ => intro
       end.
  all: repeat match goal with
       | H : Some _ = Some _ |- _ => injection H as H; subst
       | H : preview_path ?r = Some ?a, H' : preview_path ?r = Some ?b |- _ =>
           rewrite H in H'; injection H' as H'; subst
       end.
  all: try discriminate.
  all: try reflexivity.
  all: try (exfalso; auto; fail).
  all: try (cbn [In]; rewrite ?negb_true_iff;
            repeat match goal with
            | H : io_fails _ _ _ = _ |- _ => rewrite H
            end; cbn [negb]; auto; fail).
  all: try (rewrite ?lookup_delete_None; auto; fail).
  all: try congruence.
  all: try (exfalso;
            match goal with
            | H : removal_due _ _ -> _ = false, H' : removal_due _ _ |- _ =>
                specialize (H H'); congruence
            end).
  all: try (exfalso;
            match goal with
            | H : ~ removal_due (delete _ _) _ |- _ =>
                apply H; apply removal_due_delete; [congruence | assumption]
            end).
  all: auto.
Qed.

End DeletePrn.

Lemma delete_prn_spec_witness :
  stage_folder_name "raw" = Some "Raw"
  /\ snd (run (delete_prn Werkzeug.secure_filename undeletable_env
                 (delete_request "P" "raw" "a.prn")) one_template_state)
     = Ok [("message", JStr "deleted"); ("prn_filename", JStr "a.prn")]
  /\ files (fst (run (delete_prn Werkzeug.secure_filename offline_env
                        (delete_request "P" "raw" "a.prn"))
                     one_template_state)) !! "uploads/P/Raw/a.prn" = None.
Proof.
  assert (H : stage_folder_name "raw" = Some "Raw") by reflexivity.
  split; [exact H|]. split.
  - exact (proj1 (delete_prn_spec Werkzeug.secure_filename undeletable_env
                    one_template_state "P" "raw" "a.prn" "Raw" H)).
  - assert (Hne : "uploads/P/Raw/a.prn" <> "") by discriminate.
    exact (proj1 (proj2 (proj2 (proj2 (proj2 (proj2 (proj2
             (delete_prn_spec Werkzeug.secure_filename offline_env
                one_template_state "P" "raw" "a.prn" "Raw" H)))))))
             Hne eq_refl).
Defined.

(** ** C8: a failing preview does not fail the registration *)



(** Under a failing pipeline [generate_preview] answers [False], changes
    neither the database nor the files, and sends at most one request:
    exactly one when the PRN file can be read. *)
Lemma generate_preview_failure (e : env) (a b : string) (st : state) :
  (forall n, preview_failure (labelary e n)) ->
  exists evs,
    generate_preview e a b st
    = (mk_state (db st) (files st) (trace st ++ evs), Next false)
    /\ count_preview_requests evs <= 1
    /\ (path_exists (files st) a = true -> io_fails e IoRead a = false ->
        count_preview_requests evs = 1).
Proof.
  intros Hfail. unfold generate_preview. unfold_M.
  destruct (negb (path_exists (files st) a) || io_fails e IoRead a) eqn:E.
  - exists [EvLog LogException "Exception while generating label preview"].
    split; [reflexivity|]. split; [unfold count_preview_requests; simpl; lia|].
    intros H1 H2. rewrite H1, H2 in E. discriminate.
  - cbn [fst snd db files trace].
    specialize (Hfail (count_preview_requests (trace st))).
    destruct (labelary e (count_preview_requests (trace st)))
      as [status body|].
    + simpl in Hfail. apply Z.eqb_neq in Hfail. rewrite Hfail.
      cbn [fst snd db files trace].
      exists [EvPreviewRequest a; EvLog LogWarning "Labelary preview failed"].
      rewrite <- app_assoc. split; [reflexivity|].
      split; [unfold count_preview_requests; simpl; lia | reflexivity].
    + cbn [fst snd db files trace].
      exists [EvPreviewRequest a;
              EvLog LogException "Exception while generating label preview"].
      rewrite <- app_assoc. split; [reflexivity|].
      split; [unfold count_preview_requests; simpl; lia | reflexivity].
Qed.

Lemma insert_prn_Some (pid : Z) (stage filename path : string) (now : Z)
    (d d' : database) :
  Sql.insert_prn pid stage filename path now d = Some d' ->
  d' = Sql.set_product_prns
         (product_prns d
          ++ [mk_prn (product_prns_seq d + 1) pid stage filename path None now])
         (product_prns_seq d + 1) d.
Proof.
  unfold Sql.insert_prn. repeat case_match; try discriminate.
  now intros [= <-].
Qed.

Lemma insert_or_ignore_product_prns (name : string) (d : database) :
  product_prns (Sql.insert_or_ignore_product name d) = product_prns d.
Proof. unfold Sql.insert_or_ignore_product. now case_match. Qed.



(** Symbolic execution up to the call of [generate_preview]. *)
Ltac run_prefix :=
  repeat (unfold_M; cbn [fst snd db files trace negb];
          match goal with
          | |- context [match ?x with _ => _ end] =>
              match x with
              | context [match _ with _ => _ end] => fail 1
              | context [generate_preview] => fail 1
              | _ => destruct x eqn:?
              end
          | |- context [if ?x then _ else _] =>
              match x with
              | context [if _ then _ else _] => fail 1
              | context [generate_preview] => fail 1
              | _ => destruct x eqn:?
              end
          end);
  unfold_M; cbn [fst snd db files trace negb].

Section UploadPreview.

Variable secure_filename : string -> string.





End UploadPreview.


(** ** What an upload does when it succeeds *)

(** The possible results of [generate_preview]: it never ends the request,
    leaves the database alone, and writes at most the preview file. *)
Lemma generate_preview_cases (e : env) (a b : string) (st : state) :
  exists st' ok,
    generate_preview e a b st = (st', Next ok)
    /\ db st' = db st
    /\ (if ok : bool
        then exists body, files st' = <[b := body]> (files st)
        else files st' = files st).
Proof.
  unfold generate_preview. run_cases; eexists _, _;
    (split; [reflexivity|]); (split; [reflexivity|]);
    try reflexivity.
  eexists. reflexivity.
Qed.

Lemma update_preview_path_fresh (preview : string) (pid : Z)
    (stage filename : string) (rows : list prn_row) :
  existsb (Sql.prn_keyed pid stage filename) rows = false ->
  List.map (fun r => if Sql.prn_keyed pid stage filename r
                     then Sql.with_preview_path (Some preview) r else r) rows
  = rows.
Proof.
  induction rows as [|r rows IH]; [reflexivity|]. simpl.
  intros H. apply orb_false_iff in H as [-> H]. now rewrite IH.
Qed.

Lemma insert_prn_fresh (pid : Z) (stage filename path : string) (now : Z)
    (d d' : database) :
  Sql.insert_prn pid stage filename path now d = Some d' ->
  existsb (Sql.prn_keyed pid stage filename) (product_prns d) = false.
Proof. unfold Sql.insert_prn. now repeat case_match. Qed.


Lemma take_drop (n : nat) (s : string) : Path.take n s +:+ Path.drop n s = s.
Proof.
  revert s. induction n as [|n IH]; intros s; [reflexivity|].
  destruct s as [|c s]; [reflexivity|]. simpl.
  rewrite append_cons. f_equal. apply IH.
Qed.

Lemma splitext_append (p base ext : string) :
  Path.splitext p = (base, ext) -> p = base +:+ ext.
Proof.
  unfold Path.splitext. repeat case_match; intros [= <- <-];
    rewrite ?append_nil_r, ?take_drop; reflexivity.
Qed.


Lemma prn_keyed_self (id pid : Z) (stage filename path : string)
    (preview : option string) (t : Z) :
  Sql.prn_keyed pid stage filename
    (mk_prn id pid stage filename path preview t) = true.
Proof.
  unfold Sql.prn_keyed. simpl. now rewrite Z.eqb_refl, !String.eqb_refl.
Qed.

Section UploadRegisters.

Variable secure_filename : string -> string.


End UploadRegisters.


(** ** C1: a collision on the renamed file *)

(** C1 (the defect): [upload_file] looks for a collision once, on the file
    name as uploaded, and does not look at the name it renames to.  After
    two uploads of a.prn the registry holds a.prn and a_5.prn with the
    contents "one" and "two".  A third upload of a.prn in the same second
    is renamed to a_5.prn again: the file of the existing artifact a_5.prn
    is overwritten with "three", the INSERT then fails, the answer is 409
    and the registry still holds the two rows. *)
Theorem upload_collision_overwrites :
  List.map prn_filename (product_prns (db two_uploads_state))
  = ["a.prn"; "a_5.prn"]
  /\ List.map prn_path (product_prns (db two_uploads_state))
     = ["uploads/P/Raw/a.prn"; "uploads/P/Raw/a_5.prn"]
  /\ files two_uploads_state !! "uploads/P/Raw/a.prn" = Some "one"
  /\ files two_uploads_state !! "uploads/P/Raw/a_5.prn" = Some "two"
  /\ let result :=
       run (upload_file Werkzeug.secure_filename offline_env
              (upload_request_P "a.prn" "three")) two_uploads_state in
     snd result = Error 409 "PRN registration failed (possible duplicate)"
     /\ product_prns (db (fst result)) = product_prns (db two_uploads_state)
     /\ files (fst result) !! "uploads/P/Raw/a.prn" = Some "one"
     /\ files (fst result) !! "uploads/P/Raw/a_5.prn" = Some "three".
Proof. repeat split; vm_compute; reflexivity. Qed.

(** * Further properties *)

(** ** File names *)

Lemma rfind_Some (c : ascii) (s : string) (i : nat) :
  Path.rfind c s = Some i ->
  s = Path.take i s +:+ String c (Path.drop (S i) s)
  /\ lacks c (Path.drop (S i) s).
Proof.
  revert i. induction s as [|d s IH]; intros i; simpl; [discriminate|].
  destruct (Path.rfind c s) as [j|] eqn:E.
  - intros [= <-]. destruct (IH j eq_refl) as [Hs Hl]. split.
    + simpl. rewrite append_cons. f_equal. exact Hs.
    + exact Hl.
  - destruct (Ascii.eqb_spec d c) as [-> | Hne]; [|discriminate].
    intros [= <-]. split; [reflexivity|]. simpl.
    clear IH. induction s as [|x s IHs]; [reflexivity|].
    simpl in E. destruct (Path.rfind c s) as [j|]; [discriminate|].
    destruct (Ascii.eqb_spec x c) as [-> | Hx]; [discriminate|].
    unfold lacks. simpl.
    destruct (Ascii.eqb_spec x c) as [-> | _]; [contradiction|].
    simpl. now apply IHs.
Qed.

Lemma rfind_None (c : ascii) (s : string) :
  Path.rfind c s = None <-> lacks c s.
Proof.
  unfold lacks. induction s as [|d s IH]; simpl; [tauto|].
  destruct (Path.rfind c s) as [j|].
  - split; [discriminate|]. intros H. apply andb_true_iff in H as [_ H].
    apply IH in H. discriminate.
  - destruct (Ascii.eqb_spec d c) as [-> | Hne]; simpl.
    + split; discriminate.
    + split; [intros _; now apply IH | reflexivity].
Qed.

Lemma rfind_append (c : ascii) (base ext : string) :
  lacks c ext ->
  Path.rfind c (base +:+ String c ext) = Some (String.length base).
Proof.
  intros Hl. induction base as [|d base IH].
  - rewrite append_nil_l. simpl. apply rfind_None in Hl. rewrite Hl.
    now rewrite Ascii.eqb_refl.
  - rewrite append_cons. simpl. now rewrite IH.
Qed.

Lemma drop_append (a b : string) : Path.drop (String.length a) (a +:+ b) = b.
Proof.
  induction a as [|c a IH]; [now destruct b|].
  rewrite append_cons. simpl. exact IH.
Qed.

Lemma drop_append_cons (a : string) (c : ascii) (b : string) :
  Path.drop (S (String.length a)) (a +:+ String c b) = b.
Proof.
  induction a as [|d a IH]; [now destruct b|].
  rewrite append_cons. simpl. exact IH.
Qed.

(** X1: [allowed_file] accepts exactly the names that end in a dot and an
    extension without a dot that reads "prn" when lower-cased; so a name
    without a dot, and a name whose last extension is not prn (as
    "a.prn.txt"), are refused. *)
Theorem allowed_file_spec (filename : string) :
  allowed_file filename = true <->
  exists base ext,
    filename = base +:+ "." +:+ ext /\ lacks "." ext
    /\ Str.lower ext = "prn".
Proof.
  unfold allowed_file. split.
  - destruct (Path.rfind "." filename) as [i|] eqn:E; [|discriminate].
    intros H. apply mem_In in H. destruct H as [H | []].
    destruct (rfind_Some _ _ _ E) as [Hs Hl].
    exists (Path.take i filename), (Path.drop (S i) filename).
    repeat split; [exact Hs | exact Hl | now symmetry].
  - intros (base & ext & -> & Hl & Hlow).
    change (base +:+ "." +:+ ext) with (base +:+ String "." ext).
    rewrite (rfind_append _ _ _ Hl), drop_append_cons, Hlow. reflexivity.
Qed.

(** ** The upload folder of a product *)

Lemma all_lstrip (q p : ascii -> bool) (s : string) :
  Str.all q s = true -> Str.all q (Str.lstrip_by p s) = true.
Proof.
  induction s as [|c s IH]; simpl; [reflexivity|].
  intros H. destruct (p c); [|exact H].
  apply andb_true_iff in H as [_ H]. now apply IH.
Qed.

Lemma all_rstrip (q p : ascii -> bool) (s : string) :
  Str.all q s = true -> Str.all q (Str.rstrip_by p s) = true.
Proof.
  induction s as [|c s IH]; simpl; [reflexivity|].
  intros H. apply andb_true_iff in H as [Hc H].
  destruct (p c && Str.is_empty (Str.rstrip_by p s)); [reflexivity|].
  simpl. now rewrite Hc, IH.
Qed.

Lemma all_strip (q p : ascii -> bool) (s : string) :
  Str.all q s = true -> Str.all q (Str.strip_by p s) = true.
Proof. intros H. unfold Str.strip_by. now apply all_rstrip, all_lstrip. Qed.

Lemma all_map (q : ascii -> bool) (f : ascii -> ascii) (s : string) :
  (forall c, q (f c) = true) -> Str.all q (Str.map f s) = true.
Proof.
  intros H. induction s as [|c s IH]; simpl; [reflexivity|].
  now rewrite H, IH.
Qed.

Lemma all_keep (q : ascii -> bool) (s : string) :
  Str.all q (Werkzeug.keep q s) = true.
Proof.
  induction s as [|c s IH]; simpl; [reflexivity|].
  destruct (q c) eqn:E; [simpl; now rewrite E, IH | exact IH].
Qed.

Lemma werkzeug_no_slash (s : string) : lacks "/" (Werkzeug.secure_filename s).
Proof.
  unfold lacks, Werkzeug.secure_filename, Str.strip_chars.
  apply all_strip.
  eapply all_impl; [|apply all_keep].
  intros c. destruct (Ascii.eqb_spec c "/") as [-> | _]; [|reflexivity].
  vm_compute. discriminate.
Qed.

Lemma strip_fixed_head (c : ascii) (r : string) :
  Str.strip (String c r) = String c r -> Char.isspace c = false.
Proof.
  assert (Hr : forall p s, String.length (Str.rstrip_by p s) <= String.length s).
  { intros p s. induction s as [|x s IH]; simpl; [lia|].
    destruct (p x && Str.is_empty (Str.rstrip_by p s)); simpl; lia. }
  assert (Hl : forall p s, String.length (Str.lstrip_by p s) <= String.length s).
  { intros p s. induction s as [|x s IH]; simpl; [lia|].
    destruct (p x); simpl; lia. }
  intros H. destruct (Char.isspace c) eqn:E; [|reflexivity].
  exfalso. apply (f_equal String.length) in H.
  unfold Str.strip, Str.strip_by in H. simpl in H. rewrite E in H.
  pose proof (Hr Char.isspace (Str.lstrip_by Char.isspace r)).
  pose proof (Hl Char.isspace r). lia.
Qed.

Lemma strip_nonempty_head (c : ascii) (r : string) :
  Char.isspace c = false -> Str.strip (String c r) <> "".
Proof.
  intros E. unfold Str.strip, Str.strip_by. simpl. rewrite E. simpl.
  rewrite E. discriminate.
Qed.

Lemma ends_with_slash_append (a s : string) :
  lacks "/" s -> s <> "" -> Path.ends_with_slash (a +:+ s) = false.
Proof.
  intros Hl Hne. induction a as [|x a IH].
  - rewrite append_nil_l. clear Hne.
    induction s as [|c s IHs]; [reflexivity|].
    unfold lacks in Hl. simpl in Hl. apply andb_true_iff in Hl as [Hc Hs].
    apply negb_true_iff in Hc. simpl. destruct s as [|d s]; [exact Hc|].
    now apply IHs.
  - rewrite append_cons. simpl.
    destruct (a +:+ s) eqn:E; [|exact IH].
    destruct a; [|discriminate E]. rewrite append_nil_l in E. contradiction.
Qed.

Lemma starts_with_slash_false (s : string) :
  lacks "/" s -> Sub.starts_with "/" s = false.
Proof.
  destruct s as [|c s]; [reflexivity|]. unfold lacks.
  cbn [Str.all Sub.starts_with].
  intros H. apply andb_true_iff in H as [Hc _]. apply negb_true_iff in Hc.
  destruct (Ascii.eqb_spec "/"%char c) as [<- | _]; [|reflexivity].
  now rewrite Ascii.eqb_refl in Hc.
Qed.

Section ProductFolder.

Variable secure_filename : string -> string.

(** X2: when [secure_filename] yields names without a slash, the folder
    name of a stripped, non-empty product name is non-empty and holds no
    slash, so the upload folder of the product and a canonical stage is
    exactly uploads/<folder>/<stage>, two levels below the upload root
    (the characters of the folder name are not restricted further: the
    fallback lets dots through). *)
Theorem product_folder_shape (product_name stage : string) :
  (forall s, lacks "/" (secure_filename s)) ->
  product_name <> "" -> Str.strip product_name = product_name ->
  In stage ALLOWED_STAGES ->
  let safe := normalize_product_folder_name secure_filename product_name in
  safe <> "" /\ lacks "/" safe
  /\ Path.join3 UPLOAD_FOLDER safe stage
     = "uploads/" +:+ safe +:+ "/" +:+ stage.
Proof.
  intros Hsf Hne Hstrip Hstage safe.
  assert (Hsafe : safe <> "" /\ lacks "/" safe).
  { subst safe. unfold normalize_product_folder_name.
    destruct product_name as [|c r]; [contradiction|].
    change (Str.is_empty (String c r)) with false. cbv iota.
    destruct (secure_filename (String c r)) as [|x s] eqn:E.
    - simpl negb. cbv iota. split.
      + change (Str.map ?f (String c r)) with (String (f c) (Str.map f r)).
        apply strip_nonempty_head. apply strip_fixed_head in Hstrip.
        destruct (is_word_char c || Str.mem_char c "-_. "); [exact Hstrip|].
        reflexivity.
      + apply all_strip. apply all_map. intros x.
        destruct (is_word_char x || Str.mem_char x "-_. ") eqn:Ex;
          [|reflexivity].
        destruct (Ascii.eqb_spec x "/") as [-> | _]; [|reflexivity].
        vm_compute in Ex. discriminate.
    - simpl negb. cbv iota. split; [discriminate|]. rewrite <- E. apply Hsf. }
  destruct Hsafe as [H1 H2]. repeat split; try assumption.
  unfold Path.join3, Path.join, UPLOAD_FOLDER.
  rewrite (starts_with_slash_false _ H2).
  change (Str.is_empty "uploads" || Path.ends_with_slash "uploads") with false.
  cbv iota.
  assert (Hst : Sub.starts_with "/" stage = false).
  { simpl in Hstage. destruct Hstage as [<- | [<- | [<- | []]]]; reflexivity. }
  rewrite Hst.
  assert (He : Str.is_empty ("uploads" +:+ "/" +:+ safe) = false)
    by reflexivity.
  rewrite He. cbn [orb].
  change ("uploads" +:+ "/" +:+ safe) with ("uploads/" +:+ safe).
  rewrite (ends_with_slash_append _ _ H2 H1).
  now rewrite append_assoc.
Qed.

End ProductFolder.

Lemma product_folder_shape_witness :
  (forall s, lacks "/" (Werkzeug.secure_filename s))
  /\ "Product A" <> "" /\ Str.strip "Product A" = "Product A"
  /\ In "Raw" ALLOWED_STAGES
  /\ Path.join3 UPLOAD_FOLDER
       (normalize_product_folder_name Werkzeug.secure_filename "Product A")
       "Raw"
     = "uploads/" +:+ normalize_product_folder_name Werkzeug.secure_filename
                        "Product A" +:+ "/" +:+ "Raw".
Proof.
  assert (H1 : "Product A" <> "") by discriminate.
  assert (H2 : Str.strip "Product A" = "Product A") by reflexivity.
  assert (H3 : In "Raw" ALLOWED_STAGES) by (left; reflexivity).
  split; [exact werkzeug_no_slash|]. split; [exact H1|].
  split; [exact H2|]. split; [exact H3|].
  exact (proj2 (proj2 (product_folder_shape Werkzeug.secure_filename
                         "Product A" "Raw" werkzeug_no_slash H1 H2 H3))).
Defined.

(** ** Substitution: independence of the order of the map *)

Lemma dict_get_Some_In {V} (d : dict V) (k : string) (v : V) :
  NoDup (dict_keys d) -> In (k, v) d -> dict_get d k = Some v.
Proof.
  induction d as [|[k' v'] d IH]; simpl; [contradiction|].
  intros Hnd Hin. apply NoDup_cons in Hnd as [Hnotin Hnd].
  destruct Hin as [[= -> ->] | Hin].
  - now rewrite String.eqb_refl.
  - destruct (String.eqb_spec k k') as [-> | _]; [|now apply IH].
    exfalso. apply Hnotin. apply list_elem_of_In, in_map_iff.
    now exists (k', v).
Qed.

Lemma dict_get_None {V} (d : dict V) (k : string) :
  dict_get d k = None <-> ~ In k (dict_keys d).
Proof.
  induction d as [|[k' v'] d IH]; simpl; [tauto|].
  destruct (String.eqb_spec k k') as [-> | Hne].
  - split; [discriminate | intros H; exfalso; apply H; now left].
  - rewrite IH. split; [intros H [E | E]; [congruence | tauto] | tauto].
Qed.

Lemma dict_get_Permutation {V} (d1 d2 : dict V) (k : string) :
  NoDup (dict_keys d1) -> Permutation d1 d2 ->
  dict_get d1 k = dict_get d2 k.
Proof.
  intros Hnd Hp.
  assert (Hnd2 : NoDup (dict_keys d2)).
  { unfold dict_keys. rewrite <- Hp. exact Hnd. }
  destruct (dict_get d1 k) as [v|] eqn:E.
  - symmetry. apply dict_get_Some_In; [exact Hnd2|].
    eapply Permutation_in; [exact Hp|]. now apply dict_get_In.
  - symmetry. apply dict_get_None. apply dict_get_None in E.
    intros H. apply E. unfold dict_keys in *.
    eapply Permutation_in; [|exact H]. now rewrite Hp.
Qed.

Lemma foldl_ext_in {A B} (f g : B -> A -> B) (l : list A) (b : B) :
  (forall b x, In x l -> f b x = g b x) -> foldl f b l = foldl g b l.
Proof.
  revert b. induction l as [|x l IH]; intros b H; [reflexivity|].
  simpl. rewrite H by now left. apply IH. intros b' y Hy. apply H. now right.
Qed.

(** X3: when the names of the bound fields have pairwise different
    lengths, the rendering does not depend on the order in which the map
    holds the fields: two maps with the same items give the same result
    (the same text, or the same failure). *)
Theorem fill_order_independent (t : string) (d1 d2 : dict value) :
  dict_wf d1 -> Permutation d1 d2 ->
  (forall k1 k2, In k1 (dict_keys d1) -> In k2 (dict_keys d1) ->
                 String.length k1 = String.length k2 -> k1 = k2) ->
  _fill_prn_content t d1 = _fill_prn_content t d2.
Proof.
  intros Hwf Hp Hlen. unfold _fill_prn_content.
  assert (Hk : Permutation (dict_keys d1) (dict_keys d2))
    by (unfold dict_keys; now rewrite Hp).
  assert (Ho : fill_order d1 = fill_order d2).
  { unfold fill_order.
    apply (StronglySorted_unique_strong
             (fun a b => String.length b <= String.length a)).
    - intros x1 x2 H1 H2 L1 L2. apply Hlen; [| |lia].
      + apply list_elem_of_In in H1.
        exact (proj1 (sorted_In _ _ _) H1).
      + apply list_elem_of_In in H2.
        eapply Permutation_in; [symmetry; exact Hk|].
        exact (proj1 (sorted_In _ _ _) H2).
    - eapply StronglySorted_weaken;
        [|apply (sorted_StronglySorted longer_or_equal)].
      + intros a b. apply longer_or_equal_spec.
      + intros x y. rewrite !longer_or_equal_spec. lia.
      + intros x y z. rewrite !longer_or_equal_spec. lia.
    - eapply StronglySorted_weaken;
        [|apply (sorted_StronglySorted longer_or_equal)].
      + intros a b. apply longer_or_equal_spec.
      + intros x y. rewrite !longer_or_equal_spec. lia.
      + intros x y z. rewrite !longer_or_equal_spec. lia.
    - now rewrite !sorted_Permutation. }
  rewrite <- Ho. apply foldl_ext_in. intros acc k _.
  destruct acc as [content|]; [|reflexivity]. simpl.
  unfold fill_step. now rewrite (dict_get_Permutation d1 d2 k Hwf Hp).
Qed.

Lemma fill_order_independent_witness :
  dict_wf [("QTY", VStr "5"); ("NAME", VStr "Box")]
  /\ _fill_prn_content "{NAME} x {QTY}" [("QTY", VStr "5"); ("NAME", VStr "Box")]
     = _fill_prn_content "{NAME} x {QTY}"
         [("NAME", VStr "Box"); ("QTY", VStr "5")].
Proof.
  assert (Hwf : dict_wf [("QTY", VStr "5"); ("NAME", VStr "Box")]).
  { unfold dict_wf. simpl. apply NoDup_cons. split.
    - rewrite list_elem_of_singleton. discriminate.
    - apply NoDup_singleton. }
  split; [exact Hwf|].
  apply (fill_order_independent "{NAME} x {QTY}" _ _ Hwf).
  - apply perm_swap.
  - simpl. intros k1 k2 [<- | [<- | []]] [<- | [<- | []]] H;
      try reflexivity; simpl in H; lia.
Defined.

(** X4: bound fields whose token does not occur in the template are
    ignored: when no value holds a backslash and no token of a bound field
    occurs in the template, the template is returned as it is. *)
Theorem fill_ignores_absent_fields (t : string) (variables : dict value) :
  (forall k v, In (k, v) variables ->
     Sub.has_backslash (value_text v) = false
     /\ ~ occurs_in ("{" +:+ k +:+ "}") t) ->
  _fill_prn_content t variables = Some t.
Proof. exact (fill_absent t variables). Qed.

Lemma contains_spec (tok text : string) :
  contains tok text = true <-> occurs_in tok text.
Proof.
  split.
  - induction text as [|c r IH]; simpl; intros H.
    + apply orb_true_iff in H as [H | H]; [|discriminate].
      apply starts_with_spec in H as [post E]. exists "", post. exact E.
    + apply orb_true_iff in H as [H | H].
      * apply starts_with_spec in H as [post E]. exists "", post. exact E.
      * destruct (IH H) as (pre & post & ->).
        exists (String c pre), post. reflexivity.
  - intros (pre & post & ->). induction pre as [|c pre IH].
    + rewrite append_nil_l.
      assert (Hc : forall s, Sub.starts_with tok s = true ->
                             contains tok s = true).
      { intros s Hs. destruct s; simpl; now rewrite Hs. }
      apply Hc, starts_with_append.
    + rewrite append_cons. simpl. rewrite IH. apply orb_true_r.
Qed.

Lemma contains_false (tok text : string) :
  contains tok text = false <-> ~ occurs_in tok text.
Proof.
  rewrite <- contains_spec. destruct (contains tok text).
  - split; [discriminate | intros H; now contradiction H].
  - split; [intros _; discriminate | reflexivity].
Qed.

Lemma fill_ignores_absent_fields_witness :
  (forall k v, In (k, v) [("QTY", VStr "5")] ->
     Sub.has_backslash (value_text v) = false
     /\ ~ occurs_in ("{" +:+ k +:+ "}") "^XA {NAME} ^XZ")
  /\ _fill_prn_content "^XA {NAME} ^XZ" [("QTY", VStr "5")]
     = Some "^XA {NAME} ^XZ".
Proof.
  assert (H : forall k v, In (k, v) [("QTY", VStr "5")] ->
     Sub.has_backslash (value_text v) = false
     /\ ~ occurs_in ("{" +:+ k +:+ "}") "^XA {NAME} ^XZ").
  { intros k v [[= <- <-] | []]. split; [reflexivity|].
    apply contains_false. reflexivity. }
  split; [exact H|].
  exact (fill_ignores_absent_fields "^XA {NAME} ^XZ" [("QTY", VStr "5")] H).
Defined.

(** ** Matching the stored variables against a PRN text *)

Lemma dict_get_set {V} (d : dict V) (x k : string) (v : V) :
  dict_get (dict_set d x v) k
  = if String.eqb k x then Some v else dict_get d k.
Proof.
  induction d as [|[k' v'] d IH]; simpl.
  - reflexivity.
  - destruct (String.eqb_spec x k') as [-> | Hne]; simpl.
    + now destruct (String.eqb k k').
    + rewrite IH. destruct (String.eqb_spec k k') as [-> | _];
        [|reflexivity].
      destruct (String.eqb_spec k' x) as [-> | _];
        [contradiction | reflexivity].
Qed.

Lemma dict_get_foldl_set {V} (g : string -> V) (l : list string)
    (m : dict V) (k : string) :
  dict_get (foldl (fun acc x => dict_set acc x (g x)) m l) k
  = if Str.mem k l then Some (g k) else dict_get m k.
Proof.
  revert m. induction l as [|x l IH]; intros m; [reflexivity|].
  simpl. rewrite IH, dict_get_set. unfold Str.mem. simpl.
  fold (Str.mem k l).
  destruct (String.eqb_spec k x) as [-> | _]; simpl;
    now destruct (Str.mem _ l).
Qed.

(** X5: when [match_variable_from_db_with_prn] answers, it has changed
    nothing, and its answer has one entry for each variable stored for the
    product and stage of the request and no other entry; the entry of a
    variable is true exactly when the token of the variable, its name in
    braces, occurs in the PRN content. *)
Theorem match_variables_spec (data : option match_request)
    (st st' : state) (matched : dict bool) :
  match_variable_from_db_with_prn data st = (st', Next matched) ->
  st' = st
  /\ exists rq name content stage pid,
       data = Some rq /\ mr_product_name rq = Some name
       /\ mr_prn_content rq = Some content
       /\ require_stage_from_request (mr_stage rq) (mr_args_stage rq)
            (mr_form_stage rq) = Some stage
       /\ Sql.select_product_id (Str.strip name) (db st) = Some pid
       /\ forall var,
            match dict_get matched var with
            | Some b =>
                In var (List.map field_name
                          (Sql.select_variables pid stage (db st)))
                /\ (b = true <-> occurs_in ("{" +:+ var +:+ "}") content)
            | None =>
                ~ In var (List.map field_name
                            (Sql.select_variables pid stage (db st)))
            end.
Proof.
  unfold match_variable_from_db_with_prn.
  destruct data as [rq|]; [|discriminate].
  destruct (mr_product_name rq) as [name|] eqn:Hn; [|discriminate].
  destruct (mr_prn_content rq) as [content|] eqn:Hc; [|discriminate].
  destruct (require_stage_from_request _ _ _) as [stage|] eqn:Hs;
    [|discriminate].
  destruct (Str.is_empty (Str.strip name) || Str.is_empty content);
    [discriminate|].
  unfold_M. cbn [fst snd db].
  destruct (Sql.select_product_id (Str.strip name) (db st)) as [pid|] eqn:Hp;
    [|discriminate].
  intros [= <- <-]. split; [reflexivity|].
  exists rq, name, content, stage, pid.
  repeat (split; [first [assumption | reflexivity]|]).
  intros var. rewrite dict_get_foldl_set. simpl dict_get.
  destruct (Str.mem var _) eqn:E.
  - apply mem_In in E. split; [exact E|]. apply contains_spec.
  - now apply mem_not_In in E.
Qed.

Lemma match_variables_spec_witness :
  match_variable_from_db_with_prn
    (Some (mk_match (Some "P") (Some "Raw") None None (Some "x {A} y")))
    two_variables_state
  = (two_variables_state, Next [("A", true); ("B", false)])
  /\ two_variables_state = two_variables_state.
Proof.
  assert (H : match_variable_from_db_with_prn
    (Some (mk_match (Some "P") (Some "Raw") None None (Some "x {A} y")))
    two_variables_state
  = (two_variables_state, Next [("A", true); ("B", false)]))
    by (vm_compute; reflexivity).
  split; [exact H|].
  exact (proj1 (match_variables_spec _ _ _ _ H)).
Defined.

(** The names that [extract_fields] lists: those of the placeholder
    tokens that occur in the text. *)
Lemma extract_fields_In (text n : string) :
  In n (extract_fields text) <->
  placeholder_name n /\ occurs_in (Sub.token n) text.
Proof.
  unfold extract_fields, set_of.
  rewrite sorted_In.
  rewrite <- list_elem_of_In, elem_of_remove_dups, list_elem_of_In.
  rewrite in_map_iff. split.
  - intros (m & Hm & Hin).
    destruct (findall_sound _ _ _ Hin) as (n' & Hn' & -> & Hocc).
    rewrite (strip_token _ Hn') in Hm. subst n'. now split.
  - intros [Hn (pre & post & ->)]. exists (Sub.token n).
    split; [now apply strip_token|].
    apply findall_complete; [assumption | lia].
Qed.

(** X6: the extractor and the matcher agree on placeholder names: every
    field that [extract_fields] lists is one whose token the matcher finds
    in the text, and a name made of letters, digits and underscores whose
    token the matcher finds is listed by the extractor.  (A stored name
    with other characters can match, and be substituted, without ever
    being listed.) *)
Theorem extract_agrees_with_match (text n : string) :
  (In n (extract_fields text) -> contains (Sub.token n) text = true)
  /\ (placeholder_name n -> contains (Sub.token n) text = true ->
      In n (extract_fields text)).
Proof.
  split.
  - intros H. apply contains_spec. now apply extract_fields_In in H.
  - intros Hn H. apply extract_fields_In. split; [exact Hn|].
    now apply contains_spec.
Qed.

(** ** Products and variables: the other write handlers *)

Lemma find_app_first {A} (f : A -> bool) (l1 l2 : list A) :
  List.find f (l1 ++ l2)
  = match List.find f l1 with Some x => Some x | None => List.find f l2 end.
Proof.
  induction l1 as [|x l1 IH]; simpl; [reflexivity|].
  destruct (f x); [reflexivity | exact IH].
Qed.

Lemma select_product_insert_or_ignore (name other : string) (d : database)
    (pid : Z) :
  Sql.select_product_id other d = Some pid ->
  Sql.select_product_id other (Sql.insert_or_ignore_product name d) = Some pid.
Proof.
  unfold Sql.select_product_id, Sql.insert_or_ignore_product. cbv zeta.
  destruct (existsb _ (products d)); [tauto|]. simpl.
  destruct (List.find (Sql.product_named other) (products d)) as [r|] eqn:F;
    [|discriminate].
  intros [= <-]. rewrite find_app_first, F. reflexivity.
Qed.

(** X7: [create_product] is idempotent.  When it answers with a name and
    an id, the product of that name has that id, the product table is the
    old one or the old one followed by that product, and variables and
    PRNs are as before; the same request made again answers the same name
    and id and leaves every row of the three tables as it is: the
    ignored insert only consumes an id of the product counter. *)
Theorem create_product_idempotent (data : option create_product_request)
    (st st1 : state) (name : string) (id : Z) :
  create_product data st = (st1, Next (name, id)) ->
  Sql.select_product_id name (db st1) = Some id
  /\ (products (db st1) = products (db st)
      \/ products (db st1) = products (db st) ++ [mk_product id name])
  /\ variables (db st1) = variables (db st)
  /\ product_prns (db st1) = product_prns (db st)
  /\ exists st2,
       create_product data st1 = (st2, Next (name, id))
       /\ products (db st2) = products (db st1)
       /\ variables (db st2) = variables (db st1)
       /\ product_prns (db st2) = product_prns (db st1)
       /\ products_seq (db st2) = (products_seq (db st1) + 1)%Z.
Proof.
  unfold create_product.
  destruct data as [rq|]; [|discriminate].
  destruct (cp_product_name rq) as [raw|]; [|discriminate].
  destruct (Str.is_empty (Str.strip raw)); [discriminate|].
  unfold_M. cbn [fst snd db files trace].
  destruct (Sql.select_product_id (Str.strip raw)
              (Sql.insert_or_ignore_product (Str.strip raw) (db st)))
    as [pid|] eqn:Hsel; [|discriminate].
  intros [= <- <- <-]. cbn [db].
  split; [exact Hsel|]. split.
  { unfold Sql.insert_or_ignore_product in *. cbv zeta in *.
    destruct (existsb _ (products (db st))) eqn:E; [now left|].
    right. simpl. unfold Sql.select_product_id in Hsel. simpl in Hsel.
    destruct (List.find _ (products (db st) ++ _)) as [r|] eqn:F;
      [|discriminate].
    injection Hsel as <-.
    rewrite find_app_first in F.
    destruct (List.find _ (products (db st))) as [r0|] eqn:F0.
    - apply find_some in F0 as [Hin Hr].
      exfalso. apply not_true_iff_false in E. apply E.
      apply existsb_exists. eauto.
    - simpl in F. unfold Sql.product_named in F. simpl in F.
      rewrite String.eqb_refl in F. now injection F as <-. }
  split; [apply insert_or_ignore_product_variables|].
  split; [apply insert_or_ignore_product_prns|].
  set (d1 := Sql.insert_or_ignore_product (Str.strip raw) (db st)) in *.
  rewrite (insert_or_ignore_existing _ _ _ Hsel).
  assert (Hsel' : Sql.select_product_id (Str.strip raw)
                    (mk_database (products d1) (products_seq d1 + 1)
                       (variables d1) (variables_seq d1)
                       (product_prns d1) (product_prns_seq d1))
                  = Some pid) by exact Hsel.
  rewrite Hsel'.
  eexists. split; [reflexivity|]. cbn. repeat split.
Qed.

Lemma create_product_idempotent_witness :
  create_product (Some (mk_create_product (Some " P "))) initial_state
  = (fst (create_product (Some (mk_create_product (Some " P ")))
            initial_state), Next ("P", 1%Z))
  /\ Sql.select_product_id "P"
       (db (fst (create_product (Some (mk_create_product (Some " P ")))
                   initial_state))) = Some 1%Z
  /\ exists st2,
       create_product (Some (mk_create_product (Some " P ")))
         (fst (create_product (Some (mk_create_product (Some " P ")))
                 initial_state))
       = (st2, Next ("P", 1%Z))
       /\ products (db st2) = [mk_product 1 "P"]
       /\ products_seq (db st2) = 2%Z.
Proof.
  assert (H : create_product (Some (mk_create_product (Some " P ")))
                initial_state
              = (fst (create_product (Some (mk_create_product (Some " P ")))
                        initial_state), Next ("P", 1%Z)))
    by (vm_compute; reflexivity).
  split; [exact H|].
  destruct (create_product_idempotent _ _ _ _ _ H)
    as (H1 & _ & _ & _ & st2 & H2 & H3 & _ & _ & H4).
  split; [exact H1|].
  exists st2. split; [exact H2|]. split; [exact H3 | exact H4].
Defined.

(** X8: [add_variable] never overwrites.  Whenever it refuses (any error
    answer) the database and the files are as before, and unless the
    answer is 500 the whole state is.  For a well-formed request it
    refuses with 404 when the product does not exist (it does not create
    it); when the product exists, with 500 when the value is an integer
    that does not fit 64 bits, whether or not the name is taken, and
    otherwise with 409 when the product and stage already have a variable
    of that name.  When it accepts, the value fits, the name was free, the
    variable table is the old one followed by one new row with the next
    id, holding the value as the TEXT column keeps it, and products and
    PRNs are as before. *)
Theorem add_variable_spec (data : option add_variable_request)
    (st st' : state) (out : outcome (string * string * string)) :
  add_variable data st = (st', out) ->
  match out with
  | Done r =>
      db st' = db st /\ files st' = files st
      /\ (status_code r <> 500%Z -> st' = st)
      /\ status_code r <> 200%Z
      /\ forall rq name field stage pid,
           data = Some rq -> av_product_name rq = Some name ->
           av_field_name rq = Some field ->
           require_stage_from_request (av_stage rq) (av_args_stage rq)
             (av_form_stage rq) = Some stage ->
           Str.strip name <> "" -> Str.strip field <> "" ->
           (Sql.select_product_id (Str.strip name) (db st) = None ->
            status_code r = 404%Z)
           /\ (Sql.select_product_id (Str.strip name) (db st) = Some pid ->
               (Sql.bindable (default (VStr "") (av_field_value rq)) = false ->
                status_code r = 500%Z)
               /\ (Sql.bindable (default (VStr "") (av_field_value rq)) = true ->
                   status_code r = 409%Z
                   /\ existsb (Sql.variable_keyed pid stage (Str.strip field))
                        (variables (db st)) = true))
  | Next (field, product, stage) =>
      exists rq pid,
        data = Some rq
        /\ Sql.bindable (default (VStr "") (av_field_value rq)) = true
        /\ Sql.select_product_id product (db st) = Some pid
        /\ existsb (Sql.variable_keyed pid stage field) (variables (db st))
           = false
        /\ variables (db st')
           = variables (db st)
             ++ [mk_variable (variables_seq (db st) + 1) pid stage field
                   (Sql.as_text (default (VStr "") (av_field_value rq)))]
        /\ products (db st') = products (db st)
        /\ product_prns (db st') = product_prns (db st)
  end.
Proof.
  unfold add_variable.
  destruct data as [rq|];
    [|intros [= <- <-]; do 4 (split; [easy|]); intros; discriminate].
  destruct (av_product_name rq) as [raw_name|] eqn:Hname;
    [|intros [= <- <-]; do 4 (split; [easy|]);
      intros ? ? ? ? ? [= <-]; congruence].
  destruct (av_field_name rq) as [raw_field|] eqn:Hfield;
    [|intros [= <- <-]; do 4 (split; [easy|]);
      intros ? ? ? ? ? [= <-]; congruence].
  destruct (require_stage_from_request _ _ _) as [stage|] eqn:Hstage;
    [|intros [= <- <-]; do 4 (split; [easy|]);
      intros ? ? ? ? ? [= <-]; congruence].
  destruct (Str.is_empty (Str.strip raw_name)
            || Str.is_empty (Str.strip raw_field)) eqn:Hempty.
  { intros [= <- <-]. do 4 (split; [easy|]).
    intros ? name field ? ? [= <-] Hn Hf _ Hne1 Hne2.
    rewrite Hname in Hn. rewrite Hfield in Hf.
    injection Hn as <-. injection Hf as <-.
    now rewrite (is_empty_false _ Hne1), (is_empty_false _ Hne2) in Hempty. }
  unfold_M. cbn [fst snd].
  destruct (Sql.select_product_id (Str.strip raw_name) (db st))
    as [product_id|] eqn:Hsel.
  2:{ intros [= <- <-]. do 4 (split; [easy|]).
      intros ? name ? ? ? [= <-] Hn _ _ _ _.
      rewrite Hname in Hn. injection Hn as <-.
      split; [reflexivity | congruence]. }
  destruct (Sql.bindable (default (VStr "") (av_field_value rq))) eqn:Hbind;
    cbn [negb].
  2:{ unfold_M. cbn [fst snd].
      intros [= <- <-]. cbn [db files status_code].
      split; [reflexivity|]. split; [reflexivity|].
      split; [intros H; exfalso; apply H; reflexivity|].
      split; [discriminate|].
      intros ? name ? ? ? [= <-] Hn _ _ _ _.
      rewrite Hname in Hn. injection Hn as <-.
      split; [congruence|]. intros _.
      split; [reflexivity | rewrite Hbind; discriminate]. }
  unfold_M. cbn [fst snd].
  unfold Query.insert_variable.
  destruct (existsb _ (variables (db st))) eqn:Hkey; cbn [negb fst snd].
  - intros [= <- <-]. do 4 (split; [easy|]).
    intros ? name field stage' pid [= <-] Hn Hf Hs _ _.
    rewrite Hname in Hn. rewrite Hfield in Hf. rewrite Hstage in Hs.
    injection Hn as <-. injection Hf as <-. injection Hs as <-.
    split; [congruence|]. intros H. rewrite Hsel in H. injection H as <-.
    split; [rewrite Hbind; discriminate|]. intros _.
    split; [reflexivity | exact Hkey].
  - intros [= <- <-]. exists rq, product_id.
    repeat split; assumption.
Qed.

Lemma add_variable_spec_witness :
  add_variable (Some (mk_add_variable (Some "P") (Some "Raw") None None
                        (Some "A") (Some (VInt 9223372036854775808))))
    two_variables_state
  = (fst (add_variable
            (Some (mk_add_variable (Some "P") (Some "Raw") None None
                     (Some "A") (Some (VInt 9223372036854775808))))
            two_variables_state),
     Done (Error 500 "failed to add variable"))
  /\ db (fst (add_variable
               (Some (mk_add_variable (Some "P") (Some "Raw") None None
                        (Some "A") (Some (VInt 9223372036854775808))))
               two_variables_state))
     = db two_variables_state.
Proof.
  assert (H : add_variable
                (Some (mk_add_variable (Some "P") (Some "Raw") None None
                         (Some "A") (Some (VInt 9223372036854775808))))
                two_variables_state
              = (fst (add_variable
                        (Some (mk_add_variable (Some "P") (Some "Raw") None
                                 None (Some "A")
                                 (Some (VInt 9223372036854775808))))
                        two_variables_state),
                 Done (Error 500 "failed to add variable")))
    by (vm_compute; reflexivity).
  split; [exact H|].
  exact (proj1 (add_variable_spec _ _ _ _ H)).
Defined.

Lemma set_variables_same (d : database) :
  Sql.set_variables (variables d) (variables_seq d) d = d.
Proof. now destruct d. Qed.

Lemma filter_length_0 {A} (f : A -> bool) (l : list A) :
  length (List.filter f l) = 0 ->
  List.filter (fun x => negb (f x)) l = l /\ existsb f l = false.
Proof.
  induction l as [|x l IH]; simpl; [now split|].
  destruct (f x); simpl; [discriminate|].
  intros H. destruct (IH H) as [-> ->]. now split.
Qed.

Lemma filter_length_pos {A} (f : A -> bool) (l : list A) :
  length (List.filter f l) <> 0 -> existsb f l = true.
Proof.
  induction l as [|x l IH]; simpl; [congruence|].
  destruct (f x); simpl; [reflexivity | exact IH].
Qed.

Lemma filter_app_fresh {A} (f : A -> bool) (l : list A) (x : A) :
  existsb f l = false -> f x = true ->
  List.filter (fun y => negb (f y)) (l ++ [x]) = l.
Proof.
  intros Hl Hx. rewrite List.filter_app. simpl. rewrite Hx. simpl.
  rewrite app_nil_r.
  induction l as [|y l IH]; simpl in *; [reflexivity|].
  apply orb_false_elim in Hl as [Hy Hl]. rewrite Hy. simpl.
  now rewrite IH.
Qed.

(** X9: [delete_variable] removes exactly the variable named.  When it
    refuses, the database is as before and nothing is committed; when it
    accepts, a variable of that product, stage and name existed, the
    variable table is the old one without the rows of that key, in the
    old order, and products and PRNs are as before. *)
Theorem delete_variable_spec (data : option delete_variable_request)
    (st st' : state) (out : outcome (string * string * string)) :
  delete_variable data st = (st', out) ->
  match out with
  | Done r =>
      db st' = db st /\ status_code r <> 200%Z
      /\ ~ In EvCommit (List.skipn (length (trace st)) (trace st'))
  | Next (field, product, stage) =>
      exists pid,
        Sql.select_product_id product (db st) = Some pid
        /\ existsb (Sql.variable_keyed pid stage field) (variables (db st))
           = true
        /\ variables (db st')
           = List.filter
               (fun r => negb (Sql.variable_keyed pid stage field r))
               (variables (db st))
        /\ products (db st') = products (db st)
        /\ product_prns (db st') = product_prns (db st)
  end.
Proof.
  assert (Hskip : forall l : list event, List.skipn (length l) l = [])
    by (intros l; induction l; [reflexivity | assumption]).
  assert (Hskip1 : forall (l : list event) x,
             List.skipn (length l) (l ++ [x]) = [x])
    by (intros l x; induction l; [reflexivity | assumption]).
  unfold delete_variable.
  destruct data as [rq|];
    [|intros [= <- <-]; rewrite Hskip; repeat split; easy].
  destruct (dv_product_name rq) as [raw_name|];
    [|intros [= <- <-]; rewrite Hskip; repeat split; easy].
  destruct (dv_field_name rq) as [raw_field|];
    [|intros [= <- <-]; rewrite Hskip; repeat split; easy].
  destruct (require_stage_from_request _ _ _) as [stage|];
    [|intros [= <- <-]; rewrite Hskip; repeat split; easy].
  unfold_M. cbn [fst snd].
  destruct (Sql.select_product_id (Str.strip raw_name) (db st))
    as [product_id|] eqn:Hsel;
    [|intros [= <- <-]; rewrite Hskip; repeat split; easy].
  destruct (Nat.eqb_spec
              (Query.delete_variable_rowcount product_id stage
                 (Str.strip raw_field) (db st)) 0) as [H0|H0];
    intros [= <- <-]; cbn [db trace].
  - apply filter_length_0 in H0 as [H0 _].
    unfold Query.delete_variable. rewrite H0, set_variables_same, Hskip1.
    split; [reflexivity|]. split; [discriminate|].
    intros [H|[]]. discriminate H.
  - exists product_id. split; [exact Hsel|].
    split; [exact (filter_length_pos _ _ H0)|]. repeat split.
Qed.

Lemma delete_variable_spec_witness :
  delete_variable (Some (mk_delete_variable (Some "P") (Some "raw") None None
                           (Some " A "))) two_variables_state
  = (fst (delete_variable
            (Some (mk_delete_variable (Some "P") (Some "raw") None None
                     (Some " A "))) two_variables_state),
     Next ("A", "P", "Raw"))
  /\ exists pid,
       Sql.select_product_id "P" (db two_variables_state) = Some pid
       /\ existsb (Sql.variable_keyed pid "Raw" "A")
            (variables (db two_variables_state)) = true
       /\ variables
            (db (fst (delete_variable
                        (Some (mk_delete_variable (Some "P") (Some "raw")
                                 None None (Some " A ")))
                        two_variables_state)))
          = List.filter (fun r => negb (Sql.variable_keyed pid "Raw" "A" r))
              (variables (db two_variables_state))
       /\ products
            (db (fst (delete_variable
                        (Some (mk_delete_variable (Some "P") (Some "raw")
                                 None None (Some " A ")))
                        two_variables_state)))
          = products (db two_variables_state)
       /\ product_prns
            (db (fst (delete_variable
                        (Some (mk_delete_variable (Some "P") (Some "raw")
                                 None None (Some " A ")))
                        two_variables_state)))
          = product_prns (db two_variables_state).
Proof.
  assert (H : delete_variable
                (Some (mk_delete_variable (Some "P") (Some "raw") None None
                         (Some " A "))) two_variables_state
              = (fst (delete_variable
                        (Some (mk_delete_variable (Some "P") (Some "raw")
                                 None None (Some " A ")))
                        two_variables_state),
                 Next ("A", "P", "Raw")))
    by (vm_compute; reflexivity).
  split; [exact H|].
  exact (delete_variable_spec _ _ _ _ H).
Defined.

(** X10: deleting a variable that was just added gives back the variable
    table as it was before the addition: when [add_variable] accepts a
    request, [delete_variable] with the same product, stage and field
    name accepts too and leaves the rows of [variables] as they were. *)
Theorem add_then_delete_variable (rq : add_variable_request)
    (st st1 : state) (key : string * string * string) :
  add_variable (Some rq) st = (st1, Next key) ->
  exists st2,
    delete_variable
      (Some (mk_delete_variable (av_product_name rq) (av_stage rq)
               (av_args_stage rq) (av_form_stage rq) (av_field_name rq)))
      st1 = (st2, Next key)
    /\ variables (db st2) = variables (db st)
    /\ products (db st2) = products (db st)
    /\ product_prns (db st2) = product_prns (db st).
Proof.
  unfold add_variable, delete_variable. cbn [dv_product_name dv_field_name
    dv_stage dv_args_stage dv_form_stage].
  destruct (av_product_name rq) as [raw_name|]; [|discriminate].
  destruct (av_field_name rq) as [raw_field|]; [|discriminate].
  destruct (require_stage_from_request _ _ _) as [stage|]; [|discriminate].
  destruct (Str.is_empty (Str.strip raw_name)
            || Str.is_empty (Str.strip raw_field)); [discriminate|].
  unfold_M. cbn [fst snd].
  destruct (Sql.select_product_id (Str.strip raw_name) (db st))
    as [product_id|] eqn:Hsel; [|discriminate].
  destruct (Sql.bindable (default (VStr "") (av_field_value rq)));
    cbn [negb]; unfold_M; cbn [fst snd]; [|discriminate].
  unfold Query.insert_variable.
  destruct (existsb _ (variables (db st))) eqn:Hkey; cbn [negb fst snd];
    [discriminate|].
  intros [= <- <-]. cbn [db].
  assert (Hsel' : Sql.select_product_id (Str.strip raw_name)
                    (Sql.set_variables
                       (variables (db st)
                        ++ [mk_variable (variables_seq (db st) + 1)
                              product_id stage (Str.strip raw_field)
                              (Sql.as_text
                                 (default (VStr "") (av_field_value rq)))])
                       (variables_seq (db st) + 1) (db st))
                  = Some product_id) by exact Hsel.
  rewrite Hsel'.
  assert (Hself : Sql.variable_keyed product_id stage (Str.strip raw_field)
                    (mk_variable (variables_seq (db st) + 1) product_id stage
                       (Str.strip raw_field)
                       (Sql.as_text
                          (default (VStr "") (av_field_value rq)))) = true).
  { unfold Sql.variable_keyed. simpl.
    now rewrite Z.eqb_refl, !String.eqb_refl. }
  unfold Query.delete_variable_rowcount. cbn [variables Sql.set_variables].
  rewrite List.filter_app, length_app. simpl. rewrite Hself. simpl.
  rewrite Nat.add_1_r. cbn [Nat.eqb].
  eexists. split; [reflexivity|]. cbn [db].
  unfold Query.delete_variable. cbn [variables Sql.set_variables products
    product_prns].
  rewrite (filter_app_fresh _ _ _ Hkey Hself). repeat split.
Qed.

Lemma add_then_delete_variable_witness :
  add_variable (Some (mk_add_variable (Some "P") (Some "Raw") None None
                        (Some "C") None)) two_variables_state
  = (fst (add_variable (Some (mk_add_variable (Some "P") (Some "Raw") None
                                None (Some "C") None)) two_variables_state),
     Next ("C", "P", "Raw"))
  /\ exists st2,
       delete_variable
         (Some (mk_delete_variable (Some "P") (Some "Raw") None None
                  (Some "C")))
         (fst (add_variable (Some (mk_add_variable (Some "P") (Some "Raw")
                                     None None (Some "C") None))
                 two_variables_state))
       = (st2, Next ("C", "P", "Raw"))
       /\ variables (db st2) = variables (db two_variables_state)
       /\ products (db st2) = products (db two_variables_state)
       /\ product_prns (db st2) = product_prns (db two_variables_state).
Proof.
  assert (H : add_variable
                (Some (mk_add_variable (Some "P") (Some "Raw") None None
                         (Some "C") None)) two_variables_state
              = (fst (add_variable
                        (Some (mk_add_variable (Some "P") (Some "Raw") None
                                 None (Some "C") None)) two_variables_state),
                 Next ("C", "P", "Raw")))
    by (vm_compute; reflexivity).
  split; [exact H|].
  exact (add_then_delete_variable _ _ _ _ H).
Defined.

(** ** The constraints of the schema are kept *)

Lemma NoDup_map_snoc {A B} (f : A -> B) (l : list A) (x : A) :
  NoDup (List.map f l) -> ~ In (f x) (List.map f l) ->
  NoDup (List.map f (l ++ [x])).
Proof.
  rewrite !NoDup_ListNoDup, List.map_app. intros H Hx.
  apply List.NoDup_app; [exact H | constructor; [intros [] | constructor] |].
  intros a Ha [<-|[]]. exact (Hx Ha).
Qed.

Lemma NoDup_map_filter {A B} (f : A -> B) (p : A -> bool) (l : list A) :
  NoDup (List.map f l) -> NoDup (List.map f (List.filter p l)).
Proof.
  rewrite !NoDup_ListNoDup. induction l as [|x l IH]; simpl; [auto|].
  intros H. apply List.NoDup_cons_iff in H as [Hx H].
  destruct (p x); simpl; [|auto].
  apply List.NoDup_cons; [|auto].
  intros Hin. apply Hx. apply in_map_iff in Hin as (y & Hy & Hin).
  apply filter_In in Hin as [Hin _]. apply in_map_iff. eauto.
Qed.

Lemma map_update_same {A B} (f : A -> B) (p : A -> bool) (g : A -> A)
    (l : list A) :
  (forall r, f (g r) = f r) ->
  List.map f (List.map (fun r => if p r then g r else r) l) = List.map f l.
Proof.
  intros H. rewrite List.map_map. apply List.map_ext. intros r.
  destruct (p r); [apply H | reflexivity].
Qed.

Lemma Forall_map_update {A} (P : A -> Prop) (p : A -> bool) (g : A -> A)
    (l : list A) :
  (forall r, P r -> P (g r)) -> Forall P l ->
  Forall P (List.map (fun r => if p r then g r else r) l).
Proof.
  intros H Hl. apply List.Forall_map. eapply List.Forall_impl; [|exact Hl].
  intros r Hr. simpl. destruct (p r); auto.
Qed.

Lemma Forall_filter_keep {A} (P : A -> Prop) (p : A -> bool) (l : list A) :
  Forall P l -> Forall P (List.filter p l).
Proof.
  rewrite !List.Forall_forall. intros H x Hx.
  apply filter_In in Hx as [Hx _]. auto.
Qed.

Lemma fresh_id {A} (id : A -> Z) (l : list A) (seq : Z) :
  Forall (fun r => (id r <= seq)%Z) l -> ~ In (seq + 1)%Z (List.map id l).
Proof.
  intros H Hin. apply in_map_iff in Hin as (r & Hr & Hin).
  rewrite List.Forall_forall in H. specialize (H r Hin). lia.
Qed.

Lemma Forall_id_succ {A} (id : A -> Z) (l : list A) (seq : Z) :
  Forall (fun r => (id r <= seq)%Z) l ->
  Forall (fun r => (id r <= seq + 1)%Z) l.
Proof.
  intros H. eapply List.Forall_impl; [|exact H]. simpl. intros. lia.
Qed.

Lemma Forall_snoc {A} (P : A -> Prop) (l : list A) (x : A) :
  Forall P l -> P x -> Forall P (l ++ [x]).
Proof. intros Hl Hx. apply List.Forall_app. split; [exact Hl | now constructor]. Qed.

Lemma Forall_fk_more {A} (f : A -> Z) (l : list A) (ps : list product_row)
    (p : product_row) :
  Forall (fun r => In (f r) (List.map product_id ps)) l ->
  Forall (fun r => In (f r) (List.map product_id (ps ++ [p]))) l.
Proof.
  intros H. eapply List.Forall_impl; [|exact H]. simpl. intros r Hr.
  rewrite List.map_app. apply in_or_app. now left.
Qed.

Lemma select_product_In (name : string) (d : database) (pid : Z) :
  Sql.select_product_id name d = Some pid ->
  In pid (List.map product_id (products d)).
Proof.
  unfold Sql.select_product_id.
  destruct (List.find _ (products d)) as [r|] eqn:F; [|discriminate].
  intros [= <-]. apply find_some in F as [Hin _]. now apply in_map.
Qed.

Lemma product_named_fresh (name : string) (ps : list product_row) :
  existsb (Sql.product_named name) ps = false ->
  ~ In name (List.map product_name ps).
Proof.
  intros E Hin. apply in_map_iff in Hin as (r & Hr & Hin).
  apply not_true_iff_false in E. apply E. apply existsb_exists.
  exists r. split; [exact Hin|]. unfold Sql.product_named.
  now apply String.eqb_eq.
Qed.

Lemma schema_insert_product (name : string) (d : database) :
  schema d -> existsb (Sql.product_named name) (products d) = false ->
  schema (Query.insert_product name d).
Proof.
  intros [] E. constructor; cbn; try assumption.
  - apply NoDup_map_snoc; [assumption | now apply fresh_id].
  - apply NoDup_map_snoc; [assumption | now apply product_named_fresh].
  - apply Forall_snoc; [now apply Forall_id_succ | cbn; lia].
  - now apply Forall_fk_more.
  - now apply Forall_fk_more.
Qed.

(** An id consumed without a row: the counter only grows. *)
Lemma schema_products_seq_succ (d : database) :
  schema d ->
  schema (mk_database (products d) (products_seq d + 1)
            (variables d) (variables_seq d)
            (product_prns d) (product_prns_seq d)).
Proof.
  intros []. constructor; cbn; try assumption.
  now apply Forall_id_succ.
Qed.

Lemma schema_insert_or_ignore_product (name : string) (d : database) :
  schema d -> schema (Sql.insert_or_ignore_product name d).
Proof.
  intros H. unfold Sql.insert_or_ignore_product. cbv zeta.
  destruct (existsb _ (products d)) eqn:E.
  - now apply schema_products_seq_succ.
  - now apply (schema_insert_product name d).
Qed.

Lemma select_product_None (name : string) (d : database) :
  Sql.select_product_id name d = None ->
  existsb (Sql.product_named name) (products d) = false.
Proof.
  unfold Sql.select_product_id.
  destruct (List.find _ (products d)) as [r|] eqn:F; [discriminate|].
  intros _. apply not_true_iff_false. intros E.
  apply existsb_exists in E as (r & Hin & Hr).
  pose proof (find_none _ _ F _ Hin). congruence.
Qed.

Lemma variable_key_fresh (pid : Z) (stage name : string)
    (vs : list variable_row) :
  existsb (Sql.variable_keyed pid stage name) vs = false ->
  ~ In (pid, stage, name) (List.map variable_key vs).
Proof.
  intros E Hin. apply in_map_iff in Hin as (r & Hr & Hin).
  apply not_true_iff_false in E. apply E. apply existsb_exists.
  exists r. split; [exact Hin | now apply variable_keyed_spec].
Qed.

Lemma schema_append_variable (pid : Z) (stage name : string) (v : value)
    (d : database) :
  schema d -> In pid (List.map product_id (products d)) ->
  existsb (Sql.variable_keyed pid stage name) (variables d) = false ->
  schema (Sql.set_variables
            (variables d
             ++ [mk_variable (variables_seq d + 1) pid stage name v])
            (variables_seq d + 1) d).
Proof.
  intros [] Hp E. constructor; cbn; try assumption.
  - apply NoDup_map_snoc; [assumption | now apply fresh_id].
  - unfold variables_unique. cbn.
    apply NoDup_map_snoc; [assumption | now apply variable_key_fresh].
  - apply Forall_snoc; [now apply Forall_id_succ | cbn; lia].
  - apply Forall_snoc; [assumption | exact Hp].
Qed.

Lemma schema_update_variables (p : variable_row -> bool)
    (g : variable_row -> variable_row) (seq : Z) (d : database) :
  (forall r, variable_id (g r) = variable_id r) ->
  (forall r, variable_key (g r) = variable_key r) ->
  (variables_seq d <= seq)%Z ->
  schema d ->
  schema (Sql.set_variables
            (List.map (fun r => if p r then g r else r) (variables d))
            seq d).
Proof.
  intros Hid Hkey Hseq []. constructor; cbn; try assumption.
  - now rewrite map_update_same.
  - unfold variables_unique. cbn. now rewrite map_update_same.
  - apply Forall_map_update; [intros r; now rewrite Hid|].
    apply (List.Forall_impl _
             (P := fun r => (variable_id r <= variables_seq d)%Z));
      [simpl; intros; lia | assumption].
  - apply Forall_map_update; [|assumption]. intros r.
    specialize (Hkey r). unfold variable_key in Hkey.
    injection Hkey as -> _ _. auto.
Qed.

Lemma schema_upsert_variable (pid : Z) (stage name : string) (v : value)
    (d : database) :
  schema d -> In pid (List.map product_id (products d)) ->
  schema (Sql.upsert_variable pid stage name v d).
Proof.
  intros H Hp. unfold Sql.upsert_variable. cbv zeta.
  destruct (existsb _ (variables d)) eqn:E.
  - apply schema_update_variables; [easy | easy | lia | exact H].
  - now apply schema_append_variable.
Qed.

Lemma upsert_variable_products (pid : Z) (stage name : string) (v : value)
    (d : database) :
  products (Sql.upsert_variable pid stage name v d) = products d.
Proof. unfold Sql.upsert_variable. cbv zeta. now case_match. Qed.

Lemma schema_insert_variable (pid : Z) (stage name : string) (v : value)
    (d d' : database) :
  schema d -> In pid (List.map product_id (products d)) ->
  Query.insert_variable pid stage name v d = Some d' -> schema d'.
Proof.
  intros H Hp. unfold Query.insert_variable.
  destruct (existsb _ (variables d)) eqn:E; [discriminate|].
  intros [= <-]. cbv zeta. now apply schema_append_variable.
Qed.

Lemma schema_update_field_value (id : Z) (v : value) (d : database) :
  schema d -> schema (Sql.update_field_value id v d).
Proof.
  intros H. unfold Sql.update_field_value.
  apply (schema_update_variables (fun r => (variable_id r =? id)%Z));
    [easy | easy | lia | exact H].
Qed.

Lemma schema_delete_variable (pid : Z) (stage name : string) (d : database) :
  schema d -> schema (Query.delete_variable pid stage name d).
Proof.
  intros []. constructor; cbn; try assumption.
  - now apply NoDup_map_filter.
  - unfold variables_unique. cbn. now apply NoDup_map_filter.
  - now apply Forall_filter_keep.
  - now apply Forall_filter_keep.
Qed.

Lemma select_variable_id_Some (pid : Z) (stage name : string) (d : database)
    (id : Z) :
  Sql.select_variable_id pid stage name d = Some id ->
  exists r, In r (variables d) /\ variable_id r = id
            /\ variable_key r = (pid, stage, name).
Proof.
  unfold Sql.select_variable_id.
  destruct (List.find _ (variables d)) as [r|] eqn:F; [|discriminate].
  intros [= <-]. apply find_some in F as [Hin Hk].
  exists r. split; [exact Hin|]. split; [reflexivity|].
  now apply variable_keyed_spec.
Qed.

Lemma select_variable_id_None (pid : Z) (stage name : string)
    (d : database) :
  Sql.select_variable_id pid stage name d = None ->
  existsb (Sql.variable_keyed pid stage name) (variables d) = false.
Proof.
  unfold Sql.select_variable_id.
  destruct (List.find _ (variables d)) as [r|] eqn:F; [discriminate|].
  intros _. apply not_true_iff_false. intros E.
  apply existsb_exists in E as (r & Hin & Hr).
  pose proof (find_none _ _ F _ Hin). congruence.
Qed.

Lemma NoDup_id_unique {A} (id : A -> Z) (l : list A) (x y : A) :
  List.NoDup (List.map id l) -> In x l -> In y l -> id x = id y -> x = y.
Proof.
  induction l as [|z l IH]; simpl; [tauto|].
  intros H. apply List.NoDup_cons_iff in H as [Hz H].
  intros [<-|Hx] [<-|Hy] E; auto.
  - exfalso. apply Hz. rewrite E. now apply in_map.
  - exfalso. apply Hz. rewrite <- E. now apply in_map.
Qed.

Lemma map_update_none {A} (p : A -> bool) (g : A -> A) (l : list A) :
  (forall r, In r l -> p r = false) ->
  List.map (fun r => if p r then g r else r) l = l.
Proof.
  intros H. induction l as [|x l IH]; [reflexivity|]. simpl.
  rewrite (H x) by now left. f_equal. apply IH. intros r Hr. apply H.
  now right.
Qed.

Lemma rename_keys_unique (id pid : Z) (stage n : string)
    (l : list variable_row) :
  List.NoDup (List.map variable_id l) ->
  List.NoDup (List.map variable_key l) ->
  (forall r, In r l -> variable_id r = id ->
             variable_product r = pid /\ variable_stage r = stage) ->
  ~ In (pid, stage, n) (List.map variable_key l) ->
  List.NoDup
    (List.map variable_key
       (List.map (fun r => if (variable_id r =? id)%Z
                           then Sql.with_field_name n r else r) l)).
Proof.
  induction l as [|x l IH]; simpl; [constructor|].
  intros Hid Hkey Hrow Hnew.
  apply List.NoDup_cons_iff in Hid as [Hx Hid].
  apply List.NoDup_cons_iff in Hkey as [Hkx Hkey].
  destruct (Z.eqb_spec (variable_id x) id) as [E|E].
  - rewrite map_update_none.
    + destruct (Hrow x (or_introl eq_refl) E) as [<- <-].
      apply List.NoDup_cons; [|exact Hkey].
      intros Hin. apply Hnew. now right.
    + intros r Hr. apply Z.eqb_neq. intros E'. apply Hx.
      rewrite E, <- E'. now apply in_map.
  - apply List.NoDup_cons.
    + intros Hin. apply in_map_iff in Hin as (y' & Hy' & Hin).
      apply in_map_iff in Hin as (y & <- & Hin).
      destruct (Z.eqb_spec (variable_id y) id) as [Ey|Ey].
      * destruct (Hrow y (or_intror Hin) Ey) as [<- <-].
        apply Hnew. left. rewrite <- Hy'. reflexivity.
      * apply Hkx. rewrite <- Hy'. now apply in_map.
    + apply IH; auto.
Qed.

Lemma schema_update_field_name (id pid : Z) (stage old n : string)
    (d : database) :
  schema d ->
  Sql.select_variable_id pid stage old d = Some id ->
  existsb (Sql.variable_keyed pid stage n) (variables d) = false ->
  schema (Sql.update_field_name id n d).
Proof.
  intros H Hsel Hnew.
  apply select_variable_id_Some in Hsel as (r0 & Hin0 & Hid0 & Hk0).
  destruct H. constructor; cbn; try assumption.
  - now rewrite map_update_same.
  - unfold variables_unique in *. cbn. apply NoDup_ListNoDup.
    apply (rename_keys_unique id pid stage n).
    + now apply NoDup_ListNoDup.
    + now apply NoDup_ListNoDup.
    + intros r Hr Hid.
      assert (r = r0) as ->.
      { apply (NoDup_id_unique variable_id (variables d));
          [now apply NoDup_ListNoDup | assumption | assumption | congruence]. }
      unfold variable_key in Hk0. now injection Hk0 as -> -> _.
    + now apply variable_key_fresh.
  - apply Forall_map_update; [|assumption]. now intros r.
  - apply Forall_map_update; [|assumption]. now intros r.
Qed.

Lemma prn_key_fresh (pid : Z) (stage filename : string)
    (ps : list prn_row) :
  existsb (Sql.prn_keyed pid stage filename) ps = false ->
  ~ In (pid, stage, filename) (List.map prn_key ps).
Proof.
  intros E Hin. apply in_map_iff in Hin as (r & Hr & Hin).
  apply not_true_iff_false in E. apply E. apply existsb_exists.
  exists r. split; [exact Hin|]. unfold prn_key in Hr.
  injection Hr as <- <- <-. unfold Sql.prn_keyed.
  now rewrite Z.eqb_refl, !String.eqb_refl.
Qed.

Lemma mem_In_allowed (stage : string) :
  Str.mem stage ALLOWED_STAGES = true -> In stage ALLOWED_STAGES.
Proof. apply mem_In. Qed.

Lemma schema_insert_prn (pid : Z) (stage filename path : string) (now : Z)
    (d d' : database) :
  schema d -> In pid (List.map product_id (products d)) ->
  Sql.insert_prn pid stage filename path now d = Some d' -> schema d'.
Proof.
  intros [] Hp. unfold Sql.insert_prn.
  destruct (existsb _ (product_prns d)) eqn:E; [discriminate|].
  destruct (Str.mem stage ALLOWED_STAGES) eqn:Hmem; [|discriminate].
  intros [= <-]. constructor; cbn; try assumption.
  - apply NoDup_map_snoc; [assumption | now apply fresh_id].
  - apply NoDup_map_snoc; [assumption | now apply prn_key_fresh].
  - apply Forall_snoc; [now apply Forall_id_succ | cbn; lia].
  - apply Forall_snoc; [assumption | exact Hp].
  - apply Forall_snoc; [assumption | now apply mem_In_allowed].
Qed.

Lemma schema_update_preview_path (preview : string) (pid : Z)
    (stage filename : string) (d : database) :
  schema d -> schema (Sql.update_preview_path preview pid stage filename d).
Proof.
  intros []. constructor; cbn; try assumption.
  - now rewrite map_update_same.
  - now rewrite map_update_same.
  - apply Forall_map_update; [|assumption]. now intros r.
  - apply Forall_map_update; [|assumption]. now intros r.
  - apply Forall_map_update; [|assumption]. now intros r.
Qed.

Lemma schema_delete_prn_by_id (id : Z) (d : database) :
  schema d -> schema (Sql.delete_prn_by_id id d).
Proof.
  intros []. constructor; cbn; try assumption.
  - now apply NoDup_map_filter.
  - now apply NoDup_map_filter.
  - now apply Forall_filter_keep.
  - now apply Forall_filter_keep.
  - now apply Forall_filter_keep.
Qed.

Lemma schema_inv_db (st st' : state) :
  db st = db st' -> schema_inv st -> schema_inv st'.
Proof. unfold schema_inv. now intros ->. Qed.

Lemma schema_with_db (pid : Z) (st st' : state) :
  db st = db st' -> schema_with pid st -> schema_with pid st'.
Proof. unfold schema_with. now intros ->. Qed.

Lemma schema_with_inv (pid : Z) (st : state) : schema_with pid st -> schema_inv st.
Proof. now intros [H _]. Qed.

Lemma generate_filled_prn_schema (e : env) (failure dir src : string)
    (pid : Z) (stage : string) (vars : dict value) :
  maintains (schema_with pid)
    (generate_filled_prn e failure dir src pid stage vars).
Proof.
  unfold generate_filled_prn.
  repeat first
    [ maintains_step (schema_with_db pid)
    | apply generate_preview_maintains; exact (schema_with_db pid)
    | apply (maintains_try_execute _ (schema_with_db pid));
      intros ? ? [? ?] E; split;
      [ eapply schema_insert_prn; eassumption
      | cbn; now rewrite (proj2 (insert_prn_variables _ _ _ _ _ _ _ E)) ]
    | apply (maintains_execute _ (schema_with_db pid)); intros ? [? ?];
      split; [now apply schema_update_preview_path | assumption] ].
Qed.

(** [INSERT OR IGNORE] of a product, then the SELECT of its id: what
    follows runs with the product in the table. *)
Lemma ensure_product_schema {A} (name : string) (err : M A)
    (k : Z -> M A) :
  maintains schema_inv err ->
  (forall pid, maintains (schema_with pid) (k pid)) ->
  maintains schema_inv
    (execute "products" (Sql.insert_or_ignore_product name);;
     commit;;
     d ← get_db;
     match Sql.select_product_id name d with
     | None => err
     | Some pid => k pid
     end).
Proof.
  intros Herr Hk st H. unfold_M. cbn [fst snd db].
  set (st1 := mk_state _ _ _).
  assert (H1 : schema_inv st1)
    by (apply schema_insert_or_ignore_product, H).
  destruct (Sql.select_product_id name _) as [pid|] eqn:Hsel.
  - apply (schema_with_inv pid), Hk. split; [exact H1|].
    now apply (select_product_In name).
  - now apply Herr.
Qed.

(** The SELECT of a product's id: what follows runs with the product in
    the table. *)
Lemma lookup_product_schema {A} (name : string) (err : M A)
    (k : database -> Z -> M A) :
  maintains schema_inv err ->
  (forall st pid,
     schema_inv st -> Sql.select_product_id name (db st) = Some pid ->
     schema_inv (fst (k (db st) pid st))) ->
  maintains schema_inv
    (d ← get_db;
     match Sql.select_product_id name d with
     | None => err
     | Some pid => k d pid
     end).
Proof.
  intros Herr Hk. apply maintains_get_db_bind. intros st H.
  destruct (Sql.select_product_id name (db st)) as [pid|] eqn:Hsel.
  - now apply Hk.
  - now apply Herr.
Qed.

Lemma remove_if_exists_maintains (I : state -> Prop)
    (I_db : forall st st', db st = db st' -> I st -> I st')
    (e : env) (path : option string) :
  maintains I (remove_if_exists e path).
Proof. unfold remove_if_exists. repeat maintains_step I_db. Qed.

Lemma create_product_schema (data : option create_product_request) :
  maintains schema_inv (create_product data).
Proof.
  unfold create_product.
  repeat first
    [ maintains_step schema_inv_db
    | apply (maintains_execute _ schema_inv_db); intros ? ?;
      apply schema_insert_or_ignore_product; assumption ].
Qed.

Lemma get_product_schema (product_name : string)
    (args_stage : option string) :
  maintains schema_inv (get_product product_name args_stage).
Proof.
  unfold get_product.
  destruct (stage_folder_name _); [|apply maintains_reply].
  apply maintains_get_db_bind. intros st H.
  apply (maintains_from_bind schema_inv schema_inv); [| |auto].
  - destruct (Sql.select_product_id product_name (db st)) eqn:Hsel.
    + exact H.
    + apply schema_insert_product; [exact H|].
      now apply select_product_None.
  - intros []. repeat maintains_step schema_inv_db.
Qed.

Lemma add_variable_schema (data : option add_variable_request) :
  maintains schema_inv (add_variable data).
Proof.
  unfold add_variable.
  do 5 (try maintains_step schema_inv_db).
  all: try apply maintains_reply.
  apply lookup_product_schema; [apply maintains_reply|].
  intros st pid H Hsel.
  apply (maintains_from schema_inv (schema_with pid));
    [| split; [exact H | now apply (select_product_In _ _ _ Hsel)]
     | apply schema_with_inv].
  repeat first
    [ maintains_step (schema_with_db pid)
    | apply (maintains_try_execute _ (schema_with_db pid));
      intros ? ? [? ?] E; split;
      [ eapply schema_insert_variable; eassumption
      | unfold Query.insert_variable in E;
        destruct (existsb _ _); [discriminate|];
        injection E as <-; assumption ] ].
Qed.

Lemma match_variable_schema (data : option match_request) :
  maintains schema_inv (match_variable_from_db_with_prn data).
Proof.
  unfold match_variable_from_db_with_prn.
  repeat maintains_step schema_inv_db.
Qed.

Lemma delete_variable_schema (data : option delete_variable_request) :
  maintains schema_inv (delete_variable data).
Proof.
  unfold delete_variable.
  repeat first
    [ maintains_step schema_inv_db
    | apply (maintains_execute _ schema_inv_db); intros ? ?;
      apply schema_delete_variable; assumption ].
Qed.

Lemma list_products_schema : maintains schema_inv list_products.
Proof. unfold list_products. repeat maintains_step schema_inv_db. Qed.

Lemma list_prns_schema (product_name stage : string) :
  maintains schema_inv (list_prns product_name stage).
Proof. unfold list_prns. repeat maintains_step schema_inv_db. Qed.

Section SchemaKept.

Variable secure_filename : string -> string.

Lemma get_prn_schema (e : env) (product_name stage filename : string) :
  maintains schema_inv
    (get_prn secure_filename e product_name stage filename).
Proof. unfold get_prn. repeat maintains_step schema_inv_db. Qed.

Lemma serve_preview_schema (e : env) (product_name stage filename : string)
    (args_download : option string) :
  maintains schema_inv
    (serve_preview secure_filename e product_name stage filename
       args_download).
Proof. unfold serve_preview. repeat maintains_step schema_inv_db. Qed.

Lemma delete_prn_schema (e : env) (data : option delete_prn_request) :
  maintains schema_inv (delete_prn secure_filename e data).
Proof.
  unfold delete_prn.
  repeat first
    [ maintains_step schema_inv_db
    | apply (remove_if_exists_maintains _ schema_inv_db)
    | apply (maintains_execute _ schema_inv_db); intros ? ?;
      apply schema_delete_prn_by_id; assumption ].
Qed.

Lemma upload_file_schema (e : env) (rq : upload_request) :
  maintains schema_inv (upload_file secure_filename e rq).
Proof.
  unfold upload_file.
  repeat first
    [ apply ensure_product_schema; [|intros pid]
    | match goal with
      | |- maintains (schema_with ?pid) _ =>
          first
            [ maintains_step (schema_with_db pid)
            | apply generate_preview_maintains; exact (schema_with_db pid)
            | apply (maintains_try_execute _ (schema_with_db pid));
              intros ? ? [? ?] E; split;
              [ eapply schema_insert_prn; eassumption
              | cbn;
                now rewrite (proj2 (insert_prn_variables _ _ _ _ _ _ _ E)) ]
            | apply (maintains_execute _ (schema_with_db pid));
              intros ? [? ?];
              split; [now apply schema_update_preview_path | assumption] ]
      end
    | maintains_step schema_inv_db ].
Qed.

Lemma save_fields_schema (e : env) (data : option save_fields_request) :
  maintains schema_inv (save_fields secure_filename e data).
Proof.
  unfold save_fields.
  repeat first
    [ match goal with
      | |- maintains _ (mbind _ get_db) =>
          apply maintains_get_db_bind; intros st Hst
      end
    | maintains_step schema_inv_db
    | apply (maintains_execute _ schema_inv_db); intros ? ?;
      apply schema_insert_or_ignore_product; assumption ].
  all: destruct (Sql.select_product_id _ (db st)) as [pid|] eqn:Hsel;
         [|exact Hst].
  (* from here on, with the database of the last commit at hand *)
  all: assert (H0 : schema_with pid st)
         by (split; [exact Hst | exact (select_product_In _ _ _ Hsel)]).
  all: assert (J_db : forall st1 st2 : state,
                 db st1 = db st2 ->
                 schema_with pid st1 /\ schema_with pid st ->
                 schema_with pid st2 /\ schema_with pid st)
         by (intros st1 st2 E [H1 H2]; split;
             [exact (schema_with_db pid _ _ E H1) | exact H2]).
  all: apply (maintains_from schema_inv
                (fun st' => schema_with pid st' /\ schema_with pid st));
         [| split; exact H0 | intros ? [[? _] _]; assumption].
  all: repeat first
    [ apply maintains_const; apply generate_filled_prn_schema
    | apply maintains_for_each; intros [? ?]
    | apply (maintains_execute _ J_db); intros ? [[? ?] ?]; split;
      [ split;
        [ now apply schema_upsert_variable
        | cbn; now rewrite upsert_variable_products ]
      | assumption ]
    | apply maintains_rollback; intros ? [_ H2]; split; exact H2
    | maintains_step J_db ].
Qed.

Lemma update_variable_schema (e : env)
    (data : option update_variable_request) :
  maintains schema_inv (update_variable secure_filename e data).
Proof.
  unfold update_variable.
  destruct data as [data|]; [|apply maintains_reply].
  destruct (uv_product_name data) as [raw_name|]; [|apply maintains_reply].
  destruct (uv_old_field_name data) as [raw_old|]; [|apply maintains_reply].
  destruct (negb _); [apply maintains_reply|].
  destruct (require_stage_from_request _ _ _) as [stage|];
    [|apply maintains_reply].
  cbv zeta.
  apply lookup_product_schema; [apply maintains_reply|].
  intros st pid H Hsel.
  destruct (Sql.select_variable_id pid stage (Str.strip raw_old) (db st))
    as [var_id|] eqn:Hvar; [|exact H].
  destruct (negb (String.eqb _ (Str.strip raw_old)) && _) eqn:Hc;
    [exact H|].
  assert (H0 : schema_with pid st)
    by (split; [exact H | exact (select_product_In _ _ _ Hsel)]).
  assert (J_db : forall st1 st2 : state,
            db st1 = db st2 ->
            schema_with pid st1 /\ schema_with pid st ->
            schema_with pid st2 /\ schema_with pid st)
    by (intros st1 st2 E [H1 H2]; split;
        [exact (schema_with_db pid _ _ E H1) | exact H2]).
  apply (maintains_from_bind schema_inv
           (fun st' => schema_with pid st' /\ schema_with pid st));
    [| |intros ? [[? _] _]; assumption].
  - split; [|exact H0].
    destruct (String.eqb _ (Str.strip raw_old)) eqn:Heq; cbn [negb when].
    + exact H0.
    + cbn [negb andb] in Hc. apply bool_decide_eq_false in Hc.
      split; [|exact (select_product_In _ _ _ Hsel)].
      apply (schema_update_field_name _ pid stage (Str.strip raw_old));
        [exact H | exact Hvar |].
      now apply select_variable_id_None, eq_None_not_Some.
  - intros [].
    repeat first
      [ apply maintains_const; apply generate_filled_prn_schema
      | apply (maintains_execute _ J_db); intros ? [[? ?] ?]; split;
        [ split; [now apply schema_update_field_value | assumption]
        | assumption ]
      | apply maintains_rollback; intros ? [_ H2]; split; exact H2
      | maintains_step J_db ].
Qed.

(** X11: every request keeps the constraints of the schema.  If the
    database satisfies them (unique ids not above their counters, unique
    product names, one variable per product, stage and field name, one
    PRN per product, stage and file name, existing products behind every
    variable and PRN, PRN stages among Raw, SFG and FG), it still does
    after any request served under any environment.  So the statements
    that the handlers run unguarded (the rename of [update_variable], the
    INSERT of [get_product], the upserts of [save_fields]) cannot meet a
    constraint violation. *)
Theorem schema_kept (e : env) (r : request) (st : state) :
  schema (db st) -> schema (db (serve secure_filename e r st)).
Proof.
  intros H. destruct r; cbn [serve].
  - now apply create_product_schema.
  - now apply upload_file_schema.
  - now apply save_fields_schema.
  - now apply list_products_schema.
  - now apply get_product_schema.
  - now apply add_variable_schema.
  - now apply match_variable_schema.
  - now apply update_variable_schema.
  - now apply delete_variable_schema.
  - now apply list_prns_schema.
  - now apply get_prn_schema.
  - now apply serve_preview_schema.
  - now apply delete_prn_schema.
Qed.

End SchemaKept.

Lemma schema_kept_witness :
  schema (db two_variables_state)
  /\ schema (db (serve Werkzeug.secure_filename offline_env
                   (PutUpdateVariable (rename_request "P" "Raw" "A" "C" None))
                   two_variables_state)).
Proof.
  assert (H : schema (db two_variables_state)).
  { constructor; cbn;
      try (apply (bool_decide_unpack _); vm_compute; reflexivity);
      repeat constructor; cbn; auto; lia. }
  split; [exact H|].
  exact (schema_kept Werkzeug.secure_filename _ _ _ H).
Defined.

(** ** Generated PRNs, and updates in place *)

(** The possible results of the generation block: it never ends the
    request, changes no table but [product_prns], and when it names a
    filled PRN it has registered one new row for it, whose file holds the
    filled content unless its preview took the same path. *)
Lemma generate_filled_prn_cases (e : env) (failure dir src : string)
    (pid : Z) (stage : string) (vars : dict value) (st : state) :
  exists st' r,
    generate_filled_prn e failure dir src pid stage vars st = (st', Next r)
    /\ variables (db st') = variables (db st)
    /\ variables_seq (db st') = variables_seq (db st)
    /\ products (db st') = products (db st)
    /\ products_seq (db st') = products_seq (db st)
    /\ match r with
       | None => product_prns (db st') = product_prns (db st)
       | Some (fname, has_preview) =>
           exists src_content content row,
             files st !! Path.join dir src = Some src_content
             /\ _fill_prn_content src_content vars = Some content
             /\ product_prns (db st') = product_prns (db st) ++ [row]
             /\ prn_key row = (pid, stage, fname)
             /\ prn_path row = Path.join dir fname
             /\ (files st' !! Path.join dir fname = Some content
                 \/ preview_path row = Some (prn_path row))
       end.
Proof.
  unfold generate_filled_prn.
  run_prefix.
  all: try (eexists _, _; split; [reflexivity|]; cbn [db];
            repeat split; reflexivity).
  all: match goal with
       | |- context [generate_preview ?e' ?a ?b ?s] =>
           destruct (generate_preview_cases e' a b s)
             as (st' & ok & Hg & Hdb & Hfiles); rewrite Hg; destruct ok
       end.
  all: run_prefix.
  all: match goal with
       | H : Sql.insert_prn _ _ _ _ _ _ = Some ?d |- _ =>
           pose proof (insert_prn_fresh _ _ _ _ _ _ _ H) as Hfresh;
           apply insert_prn_Some in H; subst d
       end.
  all: cbn [fst snd db files trace] in *.
  all: try match type of Hfiles with
           | ex _ => destruct Hfiles as [body Hfiles]
           end.
  all: eexists _, _; split; [reflexivity|].
  all: cbn [db]; rewrite Hdb.
  all: cbn [Sql.update_preview_path Sql.set_product_prns product_prns db
            variables variables_seq products products_seq].
  all: do 4 (split; [reflexivity|]).
  all: eexists _, _, _; split; [reflexivity|].
  all: split; [eassumption|].
  all: rewrite ?List.map_app, ?update_preview_path_fresh by assumption.
  all: cbn [List.map]; rewrite ?prn_keyed_self.
  all: cbn [Sql.with_preview_path prn_product prn_stage prn_filename
            prn_path prn_id uploaded_at preview_path prn_key].
  all: do 3 (split; [reflexivity|]).
  all: cbn [files]; rewrite Hfiles.
  all: match goal with
       | |- <[?a := _]> (<[?b := _]> _) !! ?b = _ \/ _ =>
           destruct (decide (a = b)) as [E|E];
           [ right; now rewrite E
           | left; rewrite lookup_insert_ne by exact E ]
       | |- _ => left
       end.
  all: apply lookup_insert_eq.
Qed.

(** Symbolic execution up to the generation block. *)
Ltac run_to_block :=
  repeat (unfold_M; cbn [fst snd db files trace negb];
          match goal with
          | |- context [match ?x with _ => _ end] =>
              match x with
              | context [match _ with _ => _ end] => fail 1
              | context [generate_filled_prn] => fail 1
              | context [for_each] => fail 1
              | _ => destruct x eqn:?
              end
          | |- context [if ?x then _ else _] =>
              match x with
              | context [if _ then _ else _] => fail 1
              | context [generate_filled_prn] => fail 1
              | context [for_each] => fail 1
              | _ => destruct x eqn:?
              end
          end);
  unfold_M; cbn [fst snd db files trace negb].

Section UpdateInPlace.

Variable secure_filename : string -> string.

(** X12: [update_variable] updates in place.  An error answer leaves the
    database and the files as they were (a rename that the request had
    already made is rolled back with it), and unless the answer is 500
    the whole state.  A 200 answer means that the product and the
    variable of the old name existed and that the new value, if it is an
    integer, fits 64 bits, and the variable table afterwards is the old
    one with the rows of that variable's id rewritten where they stood:
    id, product and stage stay, the name becomes the new name if one
    different from the old is given, the value becomes what the TEXT
    column keeps of the new value (an integer becomes its decimal text)
    unless that is absent or null.  No row is added or removed, whatever
    the generation options do, and the product table is untouched. *)
Theorem update_variable_in_place (e : env)
    (data : option update_variable_request) (st : state) :
  let result := run (update_variable secure_filename e data) st in
  match snd result with
  | Error code _ =>
      db (fst result) = db st /\ files (fst result) = files st
      /\ (code <> 500%Z -> fst result = st)
  | Ok _ =>
      exists rq raw_name raw_old stage pid var_id,
        data = Some rq
        /\ uv_product_name rq = Some raw_name
        /\ uv_old_field_name rq = Some raw_old
        /\ require_stage_from_request (uv_stage rq) (uv_args_stage rq)
             (uv_form_stage rq) = Some stage
        /\ Sql.select_product_id (Str.strip raw_name) (db st) = Some pid
        /\ Sql.select_variable_id pid stage (Str.strip raw_old) (db st)
           = Some var_id
        /\ Sql.bindable (default VNone (uv_new_field_value rq)) = true
        /\ variables (db (fst result))
           = List.map
               (fun r => if (variable_id r =? var_id)%Z
                         then updated_row (Str.strip raw_old)
                                (uv_new_field_name rq)
                                (uv_new_field_value rq) r
                         else r)
               (variables (db st))
        /\ variables_seq (db (fst result)) = variables_seq (db st)
        /\ products (db (fst result)) = products (db st)
  end.
Proof.
  intros result. subst result. unfold run, update_variable.
  destruct data as [rq|]; [|repeat split].
  destruct (uv_product_name rq) as [raw_name|] eqn:Hname; [|repeat split].
  destruct (uv_old_field_name rq) as [raw_old|] eqn:Hold; [|repeat split].
  destruct (negb _) eqn:Hgiven; [repeat split|].
  destruct (require_stage_from_request _ _ _) as [stage|] eqn:Hstage;
    [|repeat split].
  cbv zeta. unfold_M. cbn [fst snd].
  destruct (Sql.select_product_id (Str.strip raw_name) (db st))
    as [pid|] eqn:Hsel; [|repeat split].
  destruct (Sql.select_variable_id pid stage (Str.strip raw_old) (db st))
    as [var_id|] eqn:Hvar; [|repeat split].
  destruct (negb (String.eqb _ (Str.strip raw_old)) && _) eqn:Hc;
    [repeat split|].
  assert (Hmap : forall (l : list variable_row) (f g : variable_row -> variable_row),
             (forall r, f r = g r) -> List.map f l = List.map g l)
    by (intros; now apply List.map_ext).
  destruct (String.eqb _ (Str.strip raw_old)) eqn:Heq;
    destruct (uv_new_field_value rq) as [[|v|v]|] eqn:Hv;
    cbn [negb default Sql.bindable]; unfold id.
  all: run_to_block.
  all: try match goal with
           | |- context [generate_filled_prn ?e' ?f ?d ?s ?p ?g ?v ?st1] =>
               destruct (generate_filled_prn_cases e' f d s p g v st1)
                 as (st' & r & Hg & Hv1 & Hv2 & Hp1 & Hp2 & _);
               rewrite Hg; cbn [fst snd]; rewrite Hv1, Hv2, Hp1
           end.
  all: cbn [fst snd db].
  (* the value does not fit: the rename is undone *)
  all: try match goal with
           | |- _ /\ _ =>
               split; [reflexivity|]; split; [reflexivity|];
               intros H; exfalso; apply H; reflexivity
           end.
  all: exists rq, raw_name, raw_old, stage, pid, var_id.
  all: do 6 (split; [first [reflexivity | assumption]|]).
  all: (split; [rewrite Hv; cbn [default Sql.bindable];
                first [reflexivity | assumption]|]).
  all: (split; [|split; reflexivity]).
  all: cbn [variables Sql.update_field_value Sql.update_field_name
            Sql.set_variables].
  all: rewrite ?List.map_map.
  all: match goal with
       | |- variables ?d = _ =>
           rewrite <- (List.map_id (variables d)) at 1
       | |- _ => idtac
       end.
  all: apply Hmap; intros row; unfold updated_row; cbn zeta.
  all: rewrite ?Heq, ?Hv.
  all: destruct (variable_id row =? var_id)%Z eqn:Hid;
       cbn [Sql.with_field_value Sql.with_field_name Sql.as_text
            variable_id variable_product variable_stage field_name
            field_value];
       rewrite ?Hid; try reflexivity.
  all: now destruct row.
Qed.

End UpdateInPlace.

(** ** Saved variables are the variables listed *)

Lemma upsert_binds (pid : Z) (stage k : string) (v : value) (d : database) :
  variable_bound pid stage k (Sql.as_text v)
    (variables (Sql.upsert_variable pid stage k v d)).
Proof.
  unfold Sql.upsert_variable, variable_bound. cbv zeta.
  destruct (existsb _ (variables d)) eqn:E; cbn [variables Sql.set_variables].
  - split.
    + apply existsb_exists in E as (r & Hin & Hr).
      apply existsb_exists.
      exists (Sql.with_field_value (Sql.as_text v) r). split; [|exact Hr].
      apply in_map_iff. exists r. now rewrite Hr.
    + intros r Hin Hr. apply in_map_iff in Hin as (r0 & <- & Hin).
      destruct (Sql.variable_keyed pid stage k r0) eqn:E0; [reflexivity|].
      congruence.
  - split.
    + rewrite existsb_app. cbn [existsb]. unfold Sql.variable_keyed at 2.
      cbn [variable_product variable_stage field_name].
      rewrite Z.eqb_refl, !String.eqb_refl. apply orb_true_r.
    + intros r Hin Hr. apply in_app_or in Hin as [Hin|[<-|[]]];
        [|reflexivity].
      apply not_true_iff_false in E. exfalso. apply E.
      apply existsb_exists. eauto.
Qed.

Lemma variable_keyed_other (pid : Z) (stage k k' : string)
    (r : variable_row) :
  k' <> k -> Sql.variable_keyed pid stage k r = true ->
  Sql.variable_keyed pid stage k' r = false.
Proof.
  intros Hne Hr. apply variable_keyed_spec in Hr.
  apply not_true_iff_false. intros Hr'. apply variable_keyed_spec in Hr'.
  congruence.
Qed.

Lemma upsert_keeps_bound (pid : Z) (stage k k' : string) (v v' : value)
    (d : database) :
  k' <> k -> variable_bound pid stage k v (variables d) ->
  variable_bound pid stage k v
    (variables (Sql.upsert_variable pid stage k' v' d)).
Proof.
  intros Hne [Hex Hval]. unfold Sql.upsert_variable, variable_bound.
  cbv zeta.
  destruct (existsb (Sql.variable_keyed pid stage k') (variables d));
    cbn [variables Sql.set_variables].
  - split.
    + apply existsb_exists in Hex as (r & Hin & Hr).
      apply existsb_exists. exists r. split; [|exact Hr].
      apply in_map_iff. exists r.
      now rewrite (variable_keyed_other _ _ _ _ _ Hne Hr).
    + intros r Hin Hr. apply in_map_iff in Hin as (r0 & <- & Hin).
      destruct (Sql.variable_keyed pid stage k' r0) eqn:E0.
      * exfalso. rewrite keyed_with_field_value in Hr.
        rewrite (variable_keyed_other _ _ _ _ _ Hne Hr) in E0.
        discriminate.
      * now apply Hval.
  - split.
    + rewrite existsb_app, Hex. reflexivity.
    + intros r Hin Hr. apply in_app_or in Hin as [Hin|[<-|[]]].
      * now apply Hval.
      * exfalso. apply variable_keyed_spec in Hr.
        unfold variable_key in Hr. cbn in Hr. congruence.
Qed.

Lemma upsert_variable_prns (pid : Z) (stage name : string) (v : value)
    (d : database) :
  product_prns (Sql.upsert_variable pid stage name v d) = product_prns d.
Proof. unfold Sql.upsert_variable. cbv zeta. now case_match. Qed.

(** The upserts of [save_fields] when every value can be bound: they run
    to the end, touch nothing but the variable table, and bind every
    field of a well-formed map to what the TEXT column keeps of its
    value. *)
Lemma save_fields_upserts (pid : Z) (stage : string) (vars : dict value)
    (d0 : database) (st : state) :
  forallb (fun kv => Sql.bindable (snd kv)) vars = true ->
  exists st',
    for_each vars
      (fun '(k, v) =>
         if Sql.bindable v then
           execute "variables" (Sql.upsert_variable pid stage k v)
         else
           rollback d0;;
           log LogException "Failed to save fields";;
           reply (Error 500 "failed to save variable(s)"))
      st = (st', Next tt)
    /\ files st' = files st
    /\ products (db st') = products (db st)
    /\ product_prns (db st') = product_prns (db st)
    /\ (forall k v, ~ In k (dict_keys vars) ->
          variable_bound pid stage k v (variables (db st)) ->
          variable_bound pid stage k v (variables (db st')))
    /\ (dict_wf vars -> forall k v, In (k, v) vars ->
          variable_bound pid stage k (Sql.as_text v) (variables (db st'))).
Proof.
  revert st. induction vars as [|[k0 v0] vars IH]; intros st Hall.
  - exists st. do 4 (split; [reflexivity|]).
    split; [auto | intros _ k v []].
  - cbn [forallb snd] in Hall. apply andb_true_iff in Hall as [Hb Hall].
    cbn [for_each]. rewrite Hb. unfold mbind, M_bind, bind, execute.
    destruct (IH (mk_state (Sql.upsert_variable pid stage k0 v0 (db st))
                    (files st) (trace st ++ [EvDbWrite "variables"])) Hall)
      as (st' & Hrun & Hf & Hp & Hq & Hkeep & Hbind).
    exists st'. split; [exact Hrun|]. cbn [db files] in *.
    split; [exact Hf|].
    split; [now rewrite Hp, upsert_variable_products|].
    split; [now rewrite Hq, upsert_variable_prns|].
    split.
    + intros k v Hk Hb'. apply Hkeep.
      * intros Hin. apply Hk. now right.
      * apply upsert_keeps_bound; [|exact Hb'].
        intros ->. apply Hk. now left.
    + intros Hwf k v [[= <- <-]|Hin].
      * apply NoDup_cons in Hwf as [Hk0 _]. apply Hkeep.
        -- intros Hin. apply Hk0. now apply list_elem_of_In.
        -- apply upsert_binds.
      * apply NoDup_cons in Hwf as [_ Hwf]. now apply Hbind.
Qed.

(** The upserts of [save_fields] when some value cannot be bound: the
    loop ends the request with 500 at the first such value, and the
    database is the one of the last commit. *)
Lemma save_fields_upserts_overflow (pid : Z) (stage : string)
    (vars : dict value) (d0 : database) (st : state) :
  forallb (fun kv => Sql.bindable (snd kv)) vars = false ->
  exists st',
    for_each vars
      (fun '(k, v) =>
         if Sql.bindable v then
           execute "variables" (Sql.upsert_variable pid stage k v)
         else
           rollback d0;;
           log LogException "Failed to save fields";;
           reply (Error 500 "failed to save variable(s)"))
      st = (st', Done (Error 500 "failed to save variable(s)"))
    /\ db st' = d0
    /\ files st' = files st.
Proof.
  revert st. induction vars as [|[k0 v0] vars IH]; intros st Hall;
    [discriminate Hall|].
  cbn [forallb snd] in Hall. cbn [for_each].
  destruct (Sql.bindable v0) eqn:Hb.
  - cbn [andb] in Hall. unfold mbind, M_bind, bind, execute.
    destruct (IH (mk_state (Sql.upsert_variable pid stage k0 v0 (db st))
                    (files st) (trace st ++ [EvDbWrite "variables"])) Hall)
      as (st' & Hrun & Hd & Hf).
    exists st'. split; [exact Hrun|]. split; [exact Hd | exact Hf].
  - unfold_M. cbn [fst snd]. eexists. split; [reflexivity|].
    split; reflexivity.
Qed.

Lemma stage_folder_name_allowed (s t : string) :
  stage_folder_name s = Some t -> In t ALLOWED_STAGES.
Proof.
  unfold stage_folder_name. repeat case_match; intros [= <-];
    try (cbn; tauto).
  now apply mem_In.
Qed.

Lemma stage_folder_name_fixed (t : string) :
  In t ALLOWED_STAGES -> stage_folder_name t = Some t.
Proof.
  intros [<-|[<-|[<-|[]]]]; vm_compute; reflexivity.
Qed.

Lemma select_product_id_products (name : string) (d d' : database) :
  products d' = products d ->
  Sql.select_product_id name d' = Sql.select_product_id name d.
Proof. unfold Sql.select_product_id. now intros ->. Qed.

Lemma bound_select (pid : Z) (stage k : string) (v : value)
    (d : database) :
  variable_bound pid stage k v (variables d) ->
  (exists r, In r (Sql.select_variables pid stage d) /\ field_name r = k)
  /\ (forall r, In r (Sql.select_variables pid stage d) ->
                field_name r = k -> field_value r = v).
Proof.
  intros [Hex Hval]. unfold Sql.select_variables. split.
  - apply existsb_exists in Hex as (r & Hin & Hr). exists r.
    unfold Sql.variable_keyed in Hr.
    apply andb_true_iff in Hr as [Hr Hn]. split.
    + apply filter_In. split; assumption.
    + now apply String.eqb_eq.
  - intros r Hin Hn. apply filter_In in Hin as [Hin Hr].
    apply Hval; [exact Hin|]. unfold Sql.variable_keyed.
    rewrite Hr. now apply String.eqb_eq.
Qed.

Lemma bindable_all (vars : dict value) :
  (forall k v, In (k, v) vars -> Sql.bindable v = true) ->
  forallb (fun kv => Sql.bindable (snd kv)) vars = true.
Proof.
  intros H. apply forallb_forall. intros [k v] Hin. exact (H k v Hin).
Qed.

Lemma bindable_some (vars : dict value) :
  (exists k v, In (k, v) vars /\ Sql.bindable v = false) ->
  forallb (fun kv => Sql.bindable (snd kv)) vars = false.
Proof.
  intros (k & v & Hin & Hb). apply not_true_iff_false. intros H.
  rewrite forallb_forall in H. specialize (H (k, v) Hin). cbn in H.
  congruence.
Qed.

(** The loop of [save_fields] in a goal, rewritten with what is known of
    its run. *)
Ltac rewrite_loop Hrun :=
  match goal with
  | |- context [for_each ?l ?f ?s] =>
      match type of Hrun with
      | ?lhs = _ => change (for_each l f s) with lhs
      end;
      rewrite Hrun
  end.

Section SaveThenGet.

Variable secure_filename : string -> string.

(** What [save_fields] leaves for a request with a product name, a stage
    and a well-formed map of variables that can all be bound. *)
Lemma save_fields_binds (e : env) (rq : save_fields_request) (st : state)
    (raw_name stage : string) (vars : dict value) :
  sf_product_name rq = Some raw_name ->
  sf_variables rq = VarsObject vars ->
  require_stage_from_request (sf_stage rq) (sf_args_stage rq)
    (sf_form_stage rq) = Some stage ->
  Str.strip raw_name <> "" ->
  dict_wf vars ->
  forallb (fun kv => Sql.bindable (snd kv)) vars = true ->
  exists st' payload pid,
    run (save_fields secure_filename e (Some rq)) st = (st', Ok payload)
    /\ Sql.select_product_id (Str.strip raw_name) (db st') = Some pid
    /\ forall k v, In (k, v) vars ->
         variable_bound pid stage k (Sql.as_text v) (variables (db st')).
Proof.
  intros Hname Hvars Hstage Hne Hwf Hall.
  unfold run, save_fields. rewrite Hname, Hvars, Hstage.
  rewrite (is_empty_false _ Hne).
  destruct (select_after_insert (Str.strip raw_name) (db st)) as [pid Hsel].
  unfold_M.
  cbn [fst snd db]. rewrite Hsel.
  match goal with
  | |- context [for_each _ _ ?s] =>
      destruct (save_fields_upserts pid stage vars (db s) s Hall)
        as (st1 & Hrun & Hf1 & Hp1 & Hq1 & _ & Hbind)
  end.
  rewrite_loop Hrun.
  cbn [db] in Hp1.
  assert (Hsel1 : forall d, products d = products (db st1) ->
                            Sql.select_product_id (Str.strip raw_name) d
                            = Some pid).
  { intros d Hd. rewrite <- Hsel. apply select_product_id_products.
    now rewrite Hd, Hp1. }
  specialize (Hbind Hwf).
  run_to_block.
  all: try match goal with
           | |- context [generate_filled_prn ?e' ?f ?d ?s ?p ?g ?v ?st2] =>
               destruct (generate_filled_prn_cases e' f d s p g v st2)
                 as (st' & r & Hg & Hv1 & _ & Hp2 & _ & _);
               rewrite Hg; cbn [fst snd db] in *
           end.
  all: eexists _, _, pid; split; [reflexivity|].
  all: cbn [db]; rewrite ?Hv1.
  all: split; [apply Hsel1; cbn [db]; rewrite ?Hp2; reflexivity|].
  all: exact Hbind.
Qed.

(** What [save_fields] leaves when a value of the map cannot be bound. *)
Lemma save_fields_overflow (e : env) (rq : save_fields_request) (st : state)
    (raw_name stage : string) (vars : dict value) :
  sf_product_name rq = Some raw_name ->
  sf_variables rq = VarsObject vars ->
  require_stage_from_request (sf_stage rq) (sf_args_stage rq)
    (sf_form_stage rq) = Some stage ->
  Str.strip raw_name <> "" ->
  forallb (fun kv => Sql.bindable (snd kv)) vars = false ->
  exists st',
    run (save_fields secure_filename e (Some rq)) st
    = (st', Error 500 "failed to save variable(s)")
    /\ variables (db st') = variables (db st)
    /\ files st' = files st.
Proof.
  intros Hname Hvars Hstage Hne Hall.
  unfold run, save_fields. rewrite Hname, Hvars, Hstage.
  rewrite (is_empty_false _ Hne).
  destruct (select_after_insert (Str.strip raw_name) (db st)) as [pid Hsel].
  unfold_M.
  cbn [fst snd db]. rewrite Hsel.
  match goal with
  | |- context [for_each _ _ ?s] =>
      destruct (save_fields_upserts_overflow pid stage vars (db s) s Hall)
        as (st1 & Hrun & Hd & Hf)
  end.
  rewrite_loop Hrun.
  cbn [db files] in Hd, Hf.
  exists st1. split; [reflexivity|].
  split; [|exact Hf].
  rewrite Hd. apply insert_or_ignore_product_variables.
Qed.

(** X13: what [save_fields] saves is what [get_product] lists.  Take a
    request to save a map of variables (a JSON object: each key once)
    for a non-empty product name and a stage.  If every value of the map
    can be bound (no integer beyond 64 bits), the answer is 200, and
    [get_product] for that product and stage then answers without
    changing anything, and for every entry of the map its list of
    variables has a row of that name, and every row of that name has the
    value saved as the TEXT column keeps it: null and strings as they
    are, an integer as its decimal text.  If some value cannot be bound,
    the answer is 500 and no variable of the request is saved. *)
Theorem save_then_get_product (e : env) (rq : save_fields_request)
    (st : state) (raw_name stage : string) (vars : dict value) :
  sf_product_name rq = Some raw_name ->
  sf_variables rq = VarsObject vars ->
  require_stage_from_request (sf_stage rq) (sf_args_stage rq)
    (sf_form_stage rq) = Some stage ->
  Str.strip raw_name <> "" ->
  dict_wf vars ->
  let saved := run (save_fields secure_filename e (Some rq)) st in
  ((forall k v, In (k, v) vars -> Sql.bindable v = true) ->
   status_code (snd saved) = 200%Z
   /\ exists view,
        get_product (Str.strip raw_name) (Some stage) (fst saved)
        = (fst saved, Next view)
        /\ pv_product_name view = Str.strip raw_name
        /\ pv_stage view = stage
        /\ forall k v, In (k, v) vars ->
             (exists r, In r (pv_variables view) /\ field_name r = k)
             /\ (forall r, In r (pv_variables view) -> field_name r = k ->
                           field_value r = Sql.as_text v))
  /\ ((exists k v, In (k, v) vars /\ Sql.bindable v = false) ->
      status_code (snd saved) = 500%Z
      /\ variables (db (fst saved)) = variables (db st)
      /\ files (fst saved) = files st).
Proof.
  intros Hname Hvars Hstage Hne Hwf saved. subst saved. split.
  - intros Hall. apply bindable_all in Hall.
    destruct (save_fields_binds e rq st raw_name stage vars Hname Hvars
                Hstage Hne Hwf Hall) as (st' & payload & pid & -> & Hsel & Hbind).
    cbn [fst snd]. split; [reflexivity|].
    assert (Hfix : stage_folder_name stage = Some stage).
    { apply stage_folder_name_fixed.
      unfold require_stage_from_request in Hstage.
      exact (stage_folder_name_allowed _ _ Hstage). }
    unfold get_product. cbn [or_empty default]. unfold id. rewrite Hfix.
    unfold_M. cbn [fst snd]. rewrite Hsel. cbn [negb when].
    assert (Hsome : bool_decide (is_Some (Some pid)) = true)
      by (apply bool_decide_eq_true; eauto).
    rewrite Hsome. cbn [negb]. unfold ret. cbn [fst snd]. rewrite Hsel.
    eexists. split; [reflexivity|]. cbn.
    do 2 (split; [reflexivity|]).
    intros k v Hin. apply bound_select. now apply Hbind.
  - intros Hsome. apply bindable_some in Hsome.
    destruct (save_fields_overflow e rq st raw_name stage vars Hname Hvars
                Hstage Hne Hsome) as (st' & -> & Hv & Hf).
    cbn [fst snd]. split; [reflexivity|]. split; assumption.
Qed.

End SaveThenGet.

Lemma save_then_get_product_witness :
  let rq := mk_save_fields (Some " P ") (Some "raw") None None
              (VarsObject [("QTY", VInt 5); ("NAME", VStr "Box")])
              false None in
  let saved := run (save_fields Werkzeug.secure_filename offline_env
                      (Some rq)) initial_state in
  status_code (snd saved) = 200%Z
  /\ exists view,
       get_product "P" (Some "Raw") (fst saved) = (fst saved, Next view)
       /\ (exists r, In r (pv_variables view) /\ field_name r = "QTY")
       /\ (forall r, In r (pv_variables view) -> field_name r = "QTY" ->
                     field_value r = VStr "5")
       /\ (forall r, In r (pv_variables view) -> field_name r = "NAME" ->
                     field_value r = VStr "Box").
Proof.
  intros rq saved.
  assert (Hall : forall k v,
             In (k, v) [("QTY", VInt 5); ("NAME", VStr "Box")] ->
             Sql.bindable v = true)
    by (intros k v [[= <- <-]|[[= <- <-]|[]]]; reflexivity).
  assert (Hwf : dict_wf [("QTY", VInt 5); ("NAME", VStr "Box")])
    by (unfold dict_wf; cbn; apply (bool_decide_unpack _); vm_compute;
        reflexivity).
  assert (Hne : Str.strip " P " <> "") by (vm_compute; discriminate).
  assert (Hstage : require_stage_from_request (sf_stage rq)
                     (sf_args_stage rq) (sf_form_stage rq) = Some "Raw")
    by (vm_compute; reflexivity).
  destruct (proj1 (save_then_get_product Werkzeug.secure_filename
                     offline_env rq initial_state " P " "Raw"
                     [("QTY", VInt 5); ("NAME", VStr "Box")]
                     eq_refl eq_refl Hstage Hne Hwf) Hall)
    as (Hstatus & view & Hget & _ & _ & Hrows).
  split; [exact Hstatus|]. exists view. split; [exact Hget|].
  split; [exact (proj1 (Hrows "QTY" (VInt 5) (or_introl eq_refl)))|].
  split.
  - exact (proj2 (Hrows "QTY" (VInt 5) (or_introl eq_refl))).
  - exact (proj2 (Hrows "NAME" (VStr "Box")
                    (or_intror (or_introl eq_refl)))).
Defined.

(** ** Uploads: where files go, and reading them back *)

Lemma lacks_append (c : ascii) (a b : string) :
  lacks c (a +:+ b) <-> lacks c a /\ lacks c b.
Proof.
  unfold lacks. induction a as [|x a IH].
  - rewrite append_nil_l. simpl. tauto.
  - rewrite append_cons. simpl. rewrite !andb_true_iff, IH. tauto.
Qed.

Lemma append_inv_head (a x y : string) : a +:+ x = a +:+ y -> x = y.
Proof.
  induction a as [|c a IH]; [now rewrite !append_nil_l|].
  rewrite !append_cons. intros [= H]. auto.
Qed.

Lemma join_inj (d x y : string) :
  lacks "/" x -> lacks "/" y -> Path.join d x = Path.join d y -> x = y.
Proof.
  intros Hx Hy. unfold Path.join.
  rewrite (starts_with_slash_false _ Hx), (starts_with_slash_false _ Hy).
  destruct (Str.is_empty d || Path.ends_with_slash d).
  - apply append_inv_head.
  - intros H. apply append_inv_head in H. now apply append_inv_head in H.
Qed.

Lemma drop_S (n : nat) (s : string) :
  Path.drop (S n) s = Path.drop 1 (Path.drop n s).
Proof.
  revert s. induction n as [|n IH]; intros s; [reflexivity|].
  destruct s as [|c s]; [reflexivity|].
  change (Path.drop (S (S n)) (String c s)) with (Path.drop (S n) s).
  change (Path.drop (S n) (String c s)) with (Path.drop n s).
  apply IH.
Qed.

Lemma splitext_cases (p b e : string) :
  Path.splitext p = (b, e) ->
  e = "" \/ exists di, Path.rfind "." p = Some di /\ e = Path.drop di p.
Proof.
  unfold Path.splitext. repeat case_match; intros [= <- <-]; eauto.
Qed.

Lemma allowed_not_png (f : string) :
  allowed_file f = true -> fst (Path.splitext f) +:+ ".png" <> f.
Proof.
  intros Ha E. destruct (Path.splitext f) as [b e] eqn:S. cbn [fst] in E.
  pose proof (splitext_append _ _ _ S) as Hf.
  rewrite Hf in E. apply append_inv_head in E.
  destruct (splitext_cases _ _ _ S) as [-> | (di & Hr & He)];
    [discriminate|].
  unfold allowed_file in Ha. rewrite Hr, drop_S, <- He, <- E in Ha.
  discriminate Ha.
Qed.

Section UploadSuccess.

Variable secure_filename : string -> string.

(** What a successful upload leaves: the row it registers and the files
    it writes. *)
Lemma upload_success (e : env) (rq : upload_request) (st : state) :
  let result := run (upload_file secure_filename e rq) st in
  status_code (snd result) = 200%Z ->
  exists name content stage pid filename row payload,
    up_file rq = Some (name, content)
    /\ stage_folder_name (upload_stage_raw rq) = Some stage
    /\ upload_product_name rq <> ""
    /\ allowed_file name = true
    /\ snd result = Ok payload
    /\ dict_get payload "filename" = Some (JStr filename)
    /\ existsb (Sql.prn_keyed pid stage filename) (product_prns (db st))
       = false
    /\ Sql.select_product_id (upload_product_name rq) (db (fst result))
       = Some pid
    /\ product_prns (db (fst result)) = product_prns (db st) ++ [row]
    /\ variables (db (fst result)) = variables (db st)
    /\ prn_key row = (pid, stage, filename)
    /\ prn_path row
       = Path.join (Path.join3 UPLOAD_FOLDER
                      (normalize_product_folder_name secure_filename
                         (upload_product_name rq)) stage) filename
    /\ (filename = secure_filename name
        \/ exists base ext,
             Path.splitext (secure_filename name) = (base, ext)
             /\ filename
                = base +:+ "_" +:+ string_of_Z (unix_seconds (utcnow e 0))
                       +:+ ext)
    /\ let png :=
         Path.join (Path.join3 UPLOAD_FOLDER
                      (normalize_product_folder_name secure_filename
                         (upload_product_name rq)) stage)
                   (fst (Path.splitext filename) +:+ ".png") in
       (preview_path row = None
        /\ files (fst result) = <[prn_path row := content]> (files st))
       \/ (exists body,
             preview_path row = Some png
             /\ files (fst result)
                = <[png := body]> (<[prn_path row := content]> (files st))).
Proof.
  intros result. subst result. unfold run, upload_file.
  fold (upload_product_name rq). fold (upload_stage_raw rq).
  run_prefix; try (intros Hst; simpl in Hst; discriminate Hst).
  all: match goal with
       | |- context [generate_preview ?e' ?a ?b ?s] =>
           destruct (generate_preview_cases e' a b s)
             as (st' & ok & Hg & Hdb & Hfiles); rewrite Hg; destruct ok
       end.
  all: run_prefix.
  all: intros _.
  all: match goal with
       | H : Sql.insert_prn _ _ _ _ _ _ = Some ?d |- _ =>
           pose proof (insert_prn_fresh _ _ _ _ _ _ _ H) as Hfresh;
           rewrite insert_or_ignore_product_prns in Hfresh;
           apply insert_prn_Some in H; subst d
       end.
  all: cbn [fst snd db files trace] in *.
  all: try match type of Hfiles with
           | ex _ => destruct Hfiles as [body Hfiles]
           end.
  all: rewrite Hdb, Hfiles.
  all: eexists _, _, _, _, _, _, _.
  all: split; [reflexivity|].
  all: split; [reflexivity|].
  all: split; [intros E; rewrite E in *; discriminate|].
  all: split; [now apply negb_false_iff|].
  all: split; [reflexivity|].
  all: split; [reflexivity|].
  all: split; [exact Hfresh|].
  all: split; [eassumption|].
  all: cbn [Sql.update_preview_path Sql.set_product_prns product_prns db
            variables].
  all: rewrite ?insert_or_ignore_product_prns, ?List.map_app,
         ?update_preview_path_fresh, ?insert_or_ignore_product_variables
         by assumption.
  all: cbn [List.map].
  all: rewrite ?prn_keyed_self.
  all: cbn [Sql.with_preview_path prn_product prn_stage prn_filename
            prn_path prn_id uploaded_at preview_path].
  all: split; [reflexivity|].
  all: split; [reflexivity|].
  all: cbn [prn_key prn_product prn_stage prn_filename prn_path
            preview_path].
  all: split; [reflexivity|].
  all: split; [reflexivity|].
  all: split; [first [left; reflexivity | right; eauto]|].
  all: first [ left; split; reflexivity
             | right; eexists; split; reflexivity ].
Qed.
(** X14: an uploaded template can be read back.  When [upload_file]
    answers 200 with a file name that [secure_filename] leaves as it is
    and that is still an allowed name, [get_prn] for the product, the
    stage and that file name sends exactly the uploaded content (provided
    the file can be read), and changes nothing. *)
Theorem upload_then_get_prn (e e' : env) (rq : upload_request)
    (st st' : state) (payload : list (string * json))
    (name content filename : string) :
  (forall s, lacks "/" (secure_filename s)) ->
  up_file rq = Some (name, content) ->
  run (upload_file secure_filename e rq) st = (st', Ok payload) ->
  dict_get payload "filename" = Some (JStr filename) ->
  secure_filename filename = filename ->
  allowed_file filename = true ->
  (forall p, io_fails e' IoRead p = false) ->
  exists stage,
    stage_folder_name (upload_stage_raw rq) = Some stage
    /\ get_prn secure_filename e' (upload_product_name rq) stage filename
         st'
       = (st', Next content).
Proof.
  intros Hsf Hfile Hrun Hname Hfix Hallowed Hread.
  pose proof (upload_success e rq st) as H. cbv zeta in H.
  rewrite Hrun in H. cbn [fst snd] in H.
  destruct (H eq_refl)
    as (name' & content' & stage & pid & filename' & row & payload'
        & Hfile' & Hstage & _ & _ & Hpay & Hname' & Hfresh & Hsel & Hprns
        & _ & Hkey & Hpath & _ & Hfiles).
  clear H. rewrite Hfile in Hfile'. injection Hfile' as <- <-.
  injection Hpay as <-. rewrite Hname in Hname'. injection Hname' as <-.
  exists stage. split; [exact Hstage|].
  unfold get_prn.
  rewrite (stage_folder_name_fixed _ (stage_folder_name_allowed _ _ Hstage)).
  unfold_M. cbn [fst snd]. rewrite Hsel, Hfix.
  assert (Hrow : Sql.select_prn pid stage filename (db st') = Some row).
  { unfold Sql.select_prn. rewrite Hprns, find_app_first.
    destruct (List.find _ (product_prns (db st))) as [r|] eqn:F.
    - apply find_some in F as [Hin Hr]. apply not_true_iff_false in Hfresh.
      exfalso. apply Hfresh. apply existsb_exists. eauto.
    - cbn. unfold prn_key in Hkey. injection Hkey as Hp Hs Hf.
      unfold Sql.prn_keyed. now rewrite Hp, Hs, Hf, Z.eqb_refl,
        !String.eqb_refl. }
  rewrite Hrow, Hread.
  assert (Hcontent : files st' !! prn_path row = Some content).
  { destruct Hfiles as [[_ ->] | (body & _ & ->)].
    - apply lookup_insert_eq.
    - rewrite lookup_insert_ne; [apply lookup_insert_eq|].
      rewrite Hpath. intros E. apply join_inj in E.
      + now apply (allowed_not_png filename).
      + destruct (Path.splitext filename) as [b x] eqn:S. cbn [fst].
        apply lacks_append. split; [|reflexivity].
        pose proof (Hsf filename) as Hl.
        rewrite Hfix, (splitext_append _ _ _ S) in Hl.
        now apply lacks_append in Hl.
      + rewrite <- Hfix. apply Hsf. }
  now rewrite Hcontent.
Qed.

End UploadSuccess.

Lemma upload_then_get_prn_witness :
  exists stage,
    stage_folder_name (upload_stage_raw (upload_request_P "a.prn" "^XA {X} ^XZ"))
    = Some stage
    /\ get_prn Werkzeug.secure_filename offline_env
         (upload_product_name (upload_request_P "a.prn" "^XA {X} ^XZ"))
         stage "a.prn"
         (fst (run (upload_file Werkzeug.secure_filename offline_env
                      (upload_request_P "a.prn" "^XA {X} ^XZ"))
                   initial_state))
       = (fst (run (upload_file Werkzeug.secure_filename offline_env
                      (upload_request_P "a.prn" "^XA {X} ^XZ"))
                   initial_state),
          Next "^XA {X} ^XZ").
Proof.
  apply (upload_then_get_prn Werkzeug.secure_filename offline_env
           offline_env (upload_request_P "a.prn" "^XA {X} ^XZ")
           initial_state
           (fst (run (upload_file Werkzeug.secure_filename offline_env
                        (upload_request_P "a.prn" "^XA {X} ^XZ"))
                     initial_state))
           [("message", JStr "uploaded"); ("filename", JStr "a.prn");
            ("stage", JStr "Raw");
            ("saved_path", JStr "uploads/P/Raw/a.prn");
            ("fields", JStrs ["X"]); ("preview_url", JNull)]
           "a.prn" "^XA {X} ^XZ" "a.prn").
  - exact werkzeug_no_slash.
  - reflexivity.
  - vm_compute. reflexivity.
  - reflexivity.
  - vm_compute. reflexivity.
  - vm_compute. reflexivity.
  - intros p. reflexivity.
Defined.






Section UploadFolder.

Variable secure_filename : string -> string.

Hypothesis secure_no_slash : forall s, lacks "/" (secure_filename s).



End UploadFolder.

Section UploadWrites.

Variable secure_filename : string -> string.

Hypothesis secure_no_slash : forall s, lacks "/" (secure_filename s).



End UploadWrites.


(** ** The routes that read *)

Lemma uploaded_desc_total (a b : prn_row) :
  (uploaded_at b <=? uploaded_at a)%Z = true
  \/ (uploaded_at a <=? uploaded_at b)%Z = true.
Proof. rewrite !Z.leb_le. lia. Qed.

Lemma uploaded_desc_trans (a b c : prn_row) :
  (uploaded_at b <=? uploaded_at a)%Z = true ->
  (uploaded_at c <=? uploaded_at b)%Z = true ->
  (uploaded_at c <=? uploaded_at a)%Z = true.
Proof. rewrite !Z.leb_le. lia. Qed.

Lemma select_prns_sorted (pid : Z) (stage : string) (d : database) :
  StronglySorted (fun a b => (uploaded_at b <= uploaded_at a)%Z)
    (Query.select_prns pid stage d).
Proof.
  unfold Query.select_prns.
  eapply StronglySorted_weaken;
    [|apply (sorted_StronglySorted
               (fun a b => (uploaded_at b <=? uploaded_at a)%Z));
      [intros x y; apply uploaded_desc_total
      | intros x y z; apply uploaded_desc_trans]].
  intros a b H. now apply Z.leb_le.
Qed.

Lemma select_prns_In (pid : Z) (stage : string) (d : database)
    (r : prn_row) :
  In r (Query.select_prns pid stage d)
  <-> In r (product_prns d) /\ prn_product r = pid /\ prn_stage r = stage.
Proof.
  unfold Query.select_prns. rewrite sorted_In, filter_In, andb_true_iff,
    Z.eqb_eq, String.eqb_eq. tauto.
Qed.

(** X17: [list_prns] lists, newest first, exactly the registered PRNs of
    the product and stage, and changes nothing.  For a product that does
    not exist it answers the empty list (not an error) and does not
    create it; for a stage it cannot normalise it answers 400. *)
Theorem list_prns_spec (product_name stage : string) (st : state) :
  match stage_folder_name stage with
  | None =>
      list_prns product_name stage st = (st, Done (Error 400 "invalid stage"))
  | Some s =>
      exists rows,
        list_prns product_name stage st = (st, Next rows)
        /\ StronglySorted (fun a b => (uploaded_at b <= uploaded_at a)%Z)
             rows
        /\ (forall r,
              In r rows
              <-> In r (product_prns (db st))
                  /\ Sql.select_product_id product_name (db st)
                     = Some (prn_product r)
                  /\ prn_stage r = s)
        /\ (Sql.select_product_id product_name (db st) = None -> rows = [])
  end.
Proof.
  unfold list_prns. destruct (stage_folder_name stage) as [s|];
    [|reflexivity].
  unfold_M. cbn [fst snd].
  destruct (Sql.select_product_id product_name (db st)) as [pid|] eqn:Hsel.
  - eexists. split; [reflexivity|]. split; [apply select_prns_sorted|].
    split; [|discriminate].
    intros r. rewrite select_prns_In. split.
    + intros (H1 & <- & H3). auto.
    + intros (H1 & [= <-] & H3). auto.
  - exists []. split; [reflexivity|]. split; [constructor|].
    split; [|reflexivity]. intros r. split; [intros [] | intros (_ & H & _)].
    discriminate H.
Qed.

Section ReadRoutes.

Variable secure_filename : string -> string.

(** X18: the routes that only read change neither the database nor a
    file: listing products or PRNs, sending a PRN or a preview, and
    matching variables against a PRN text write nothing, whatever they
    answer and whatever the environment does. *)
Theorem read_routes_write_nothing (e : env) (r : request) (st : state) :
  read_only r = true ->
  db (serve secure_filename e r st) = db st
  /\ files (serve secure_filename e r st) = files st.
Proof.
  destruct r; try discriminate; intros _; cbn [serve].
  - split; reflexivity.
  - unfold match_variable_from_db_with_prn. run_cases; split; reflexivity.
  - unfold list_prns. run_cases; split; reflexivity.
  - unfold get_prn. run_cases; split; reflexivity.
  - unfold serve_preview. run_cases; split; reflexivity.
Qed.

End ReadRoutes.

Lemma read_routes_write_nothing_witness :
  read_only (GetPreview "P" "raw" "a.prn" (Some "1")) = true
  /\ db (serve Werkzeug.secure_filename offline_env
           (GetPreview "P" "raw" "a.prn" (Some "1")) one_template_state)
     = db one_template_state.
Proof.
  assert (H : read_only (GetPreview "P" "raw" "a.prn" (Some "1")) = true)
    by reflexivity.
  split; [exact H|].
  exact (proj1 (read_routes_write_nothing Werkzeug.secure_filename
                  offline_env _ one_template_state H)).
Defined.



Lemma prn_keyed_spec (pid : Z) (stage filename : string) (r : prn_row) :
  Sql.prn_keyed pid stage filename r = true
  <-> prn_key r = (pid, stage, filename).
Proof.
  unfold Sql.prn_keyed, prn_key.
  rewrite !andb_true_iff, Z.eqb_eq, !String.eqb_eq.
  split; [intros [[-> ->] ->]; reflexivity | intros [= -> -> ->]; auto].
Qed.

Lemma NoDup_key_unique {A B} (key : A -> B) (l : list A) (x y : A) :
  List.NoDup (List.map key l) -> In x l -> In y l -> key x = key y -> x = y.
Proof.
  induction l as [|z l IH]; simpl; [tauto|].
  intros H. apply List.NoDup_cons_iff in H as [Hz H].
  intros [<-|Hx] [<-|Hy] E; auto.
  - exfalso. apply Hz. rewrite E. now apply in_map.
  - exfalso. apply Hz. rewrite <- E. now apply in_map.
Qed.

Section DeleteThenGet.

Variable secure_filename : string -> string.

Lemma delete_prn_db (e : env) (st : state) (p s filename stage : string) :
  stage_folder_name s = Some stage ->
  let result := run (delete_prn secure_filename e
                       (delete_request p s filename)) st in
  status_code (snd result) = 200%Z ->
  exists pid r,
    Sql.select_product_id (Str.strip p) (db st) = Some pid
    /\ Sql.select_prn pid stage (secure_filename filename) (db st) = Some r
    /\ db (fst result) = Sql.delete_prn_by_id (prn_id r) (db st).
Proof.
  intros Hs result. subst result.
  unfold run, delete_prn, delete_request.
  cbn [dp_product_name dp_stage dp_prn_filename]. rewrite Hs.
  unfold_M. cbn [fst snd db].
  destruct (Sql.select_product_id (Str.strip p) (db st)) as [pid|];
    [|discriminate].
  destruct (Sql.select_prn pid stage (secure_filename filename) (db st))
    as [r|] eqn:Hsel; [|discriminate].
  intros _. exists pid, r. split; [reflexivity|]. split; [exact Hsel|].
  unfold remove_if_exists. run_cases; reflexivity.
Qed.

(** X20: a deleted PRN is gone for the readers.  Under the constraints
    of the schema, once [delete_prn] has answered 200 for a product,
    stage and file name, [get_prn] for the same three answers 404 "prn
    not found", and [list_prns] for the product and stage lists no row
    of that file name. *)
Theorem delete_then_get_prn (e e' : env) (st : state)
    (p s filename stage : string) :
  schema (db st) ->
  stage_folder_name s = Some stage ->
  let result := run (delete_prn secure_filename e
                       (delete_request p s filename)) st in
  status_code (snd result) = 200%Z ->
  get_prn secure_filename e' (Str.strip p) s filename (fst result)
  = (fst result, Done (Error 404 "prn not found"))
  /\ exists rows,
       list_prns (Str.strip p) s (fst result) = (fst result, Next rows)
       /\ forall r, In r rows -> prn_filename r <> secure_filename filename.
Proof.
  intros Hschema Hs result H200.
  destruct (delete_prn_db e st p s filename stage Hs H200)
    as (pid & r0 & Hsel & Hrow & Hdb).
  fold result in Hdb. clearbody result.
  assert (Hprod : Sql.select_product_id (Str.strip p) (db (fst result))
                  = Some pid).
  { rewrite Hdb. exact Hsel. }
  assert (Hgone : forall r, In r (product_prns (db (fst result))) ->
                            prn_key r <> (pid, stage, secure_filename filename)).
  { intros r Hin Hk. rewrite Hdb in Hin. cbn in Hin.
    apply filter_In in Hin as [Hin Hid].
    unfold Sql.select_prn in Hrow. apply find_some in Hrow as [Hin0 Hk0].
    apply prn_keyed_spec in Hk0.
    assert (r = r0) as ->.
    { apply (NoDup_key_unique prn_key (product_prns (db st)));
        [apply NoDup_ListNoDup, Hschema | assumption | assumption
        | congruence]. }
    now rewrite Z.eqb_refl in Hid. }
  split.
  - unfold get_prn. rewrite Hs. unfold_M. cbn [fst snd]. rewrite Hprod.
    destruct (Sql.select_prn pid stage (secure_filename filename)
                (db (fst result))) as [r|] eqn:F; [|reflexivity].
    exfalso. unfold Sql.select_prn in F. apply find_some in F as [Hin Hk].
    apply prn_keyed_spec in Hk. exact (Hgone r Hin Hk).
  - unfold list_prns. rewrite Hs. unfold_M. cbn [fst snd]. rewrite Hprod.
    eexists. split; [reflexivity|].
    intros r Hin Hf. apply select_prns_In in Hin as (Hin & Hp & Hst).
    apply (Hgone r Hin). unfold prn_key. congruence.
Qed.

End DeleteThenGet.

Lemma delete_then_get_prn_witness :
  schema (db one_template_state)
  /\ stage_folder_name "raw" = Some "Raw"
  /\ get_prn Werkzeug.secure_filename offline_env (Str.strip "P") "raw"
       "a.prn"
       (fst (run (delete_prn Werkzeug.secure_filename undeletable_env
                    (delete_request "P" "raw" "a.prn")) one_template_state))
     = (fst (run (delete_prn Werkzeug.secure_filename undeletable_env
                    (delete_request "P" "raw" "a.prn")) one_template_state),
        Done (Error 404 "prn not found")).
Proof.
  assert (H : schema (db one_template_state)).
  { constructor; cbn;
      try (apply (bool_decide_unpack _); vm_compute; reflexivity);
      repeat constructor; cbn; auto; lia. }
  assert (Hs : stage_folder_name "raw" = Some "Raw") by reflexivity.
  assert (H200 : status_code
                   (snd (run (delete_prn Werkzeug.secure_filename
                                undeletable_env
                                (delete_request "P" "raw" "a.prn"))
                             one_template_state)) = 200%Z)
    by (vm_compute; reflexivity).
  split; [exact H|]. split; [exact Hs|].
  exact (proj1 (delete_then_get_prn Werkzeug.secure_filename undeletable_env
                  offline_env one_template_state "P" "raw" "a.prn" "Raw"
                  H Hs H200)).
Defined.

(** ** Generation from saved variables *)

Section SaveFieldsGenerates.

Variable secure_filename : string -> string.

End SaveFieldsGenerates.


(** ** Preview links *)

Lemma get_product_view (product_name : string) (args_stage : option string)
    (st st' : state) (view : product_view) :
  get_product product_name args_stage st = (st', Next view) ->
  exists stage pid,
    stage_folder_name (or_empty args_stage) = Some stage
    /\ Sql.select_product_id product_name (db st') = Some pid
    /\ files st' = files st
    /\ (db st' = db st
        \/ Sql.select_product_id product_name (db st) = None
           /\ db st' = Query.insert_product product_name (db st))
    /\ pv_stage view = stage
    /\ pv_prns_for_stage view
       = List.map
           (fun r =>
              mk_prn_view (prn_id r) (prn_filename r) (uploaded_at r)
                (match preview_path r with
                 | Some p =>
                     if negb (Str.is_empty p) && path_exists (files st') p
                     then Some ("/preview/" +:+ product_name +:+ "/"
                                +:+ stage +:+ "/" +:+ prn_filename r)
                     else None
                 | None => None
                 end))
           (Query.select_prns pid stage (db st')).
Proof.
  unfold get_product.
  destruct (stage_folder_name (or_empty args_stage)) as [stage|];
    [|discriminate].
  unfold_M. cbn [fst snd].
  destruct (Sql.select_product_id product_name (db st)) as [pid0|] eqn:Hsel.
  - assert (Hsome : bool_decide (is_Some (Some pid0)) = true)
      by (apply bool_decide_eq_true; eauto).
    rewrite Hsome. cbn [negb]. unfold ret. cbn [fst snd]. rewrite Hsel.
    intros [= <- <-]. exists stage, pid0. cbn. repeat split; auto.
  - assert (Hnone : bool_decide (is_Some (@None Z)) = false)
      by (apply bool_decide_eq_false; intros [? ?]; discriminate).
    rewrite Hnone. cbn [negb fst snd db].
    destruct (Sql.select_product_id product_name
                (Query.insert_product product_name (db st)))
      as [pid|] eqn:Hnew; [|discriminate].
    intros [= <- <-]. exists stage, pid. cbn. repeat split; auto.
Qed.

Section PreviewLinks.

Variable secure_filename : string -> string.

(** X22: the preview links of [get_product] resolve.  Under the
    constraints of the schema, when [get_product] lists a PRN with a
    preview URL, that URL is /preview/<product>/<stage>/<file name>, and
    [serve_preview] for that product, stage and file name sends a PNG
    and changes nothing (provided [secure_filename] leaves the file name
    as it is and the file can be read). *)
Theorem preview_links_resolve (e : env) (product_name : string)
    (args_stage args_download : option string) (st st' : state)
    (view : product_view) (v : prn_view) (url : string) :
  schema (db st) ->
  get_product product_name args_stage st = (st', Next view) ->
  In v (pv_prns_for_stage view) ->
  view_preview_url v = Some url ->
  secure_filename (view_filename v) = view_filename v ->
  (forall p, io_fails e IoRead p = false) ->
  url = "/preview/" +:+ product_name +:+ "/" +:+ pv_stage view +:+ "/"
        +:+ view_filename v
  /\ exists png flag,
       serve_preview secure_filename e product_name (pv_stage view)
         (view_filename v) args_download st'
       = (st', Next (png, flag)).
Proof.
  intros Hschema Hget Hin Hurl Hfix Hread.
  destruct (get_product_view _ _ _ _ _ Hget)
    as (stage & pid & Hstage & Hsel & Hfiles & Hdb & Hvs & Hprns).
  assert (Hschema' : schema (db st')).
  { destruct Hdb as [-> | [Hnone ->]]; [exact Hschema|].
    apply schema_insert_product; [exact Hschema|].
    now apply select_product_None. }
  rewrite Hvs. rewrite Hprns in Hin. clear Hprns.
  apply in_map_iff in Hin as (r & <- & Hr). cbn in Hurl, Hfix |- *.
  apply select_prns_In in Hr as (Hrin & Hrp & Hrs).
  destruct (preview_path r) as [p|] eqn:Hp; [|discriminate].
  destruct (negb (Str.is_empty p) && path_exists (files st') p) eqn:Hok;
    [|discriminate].
  injection Hurl as <-. split; [reflexivity|].
  apply andb_true_iff in Hok as [Hne Hex].
  apply negb_true_iff in Hne.
  unfold path_exists in Hex. apply bool_decide_eq_true in Hex as [png Hpng].
  unfold serve_preview.
  rewrite (stage_folder_name_fixed _ (stage_folder_name_allowed _ _ Hstage)).
  unfold_M. cbn [fst snd]. rewrite Hsel, Hfix.
  assert (Hrow : Sql.select_prn pid stage (prn_filename r) (db st') = Some r).
  { unfold Sql.select_prn.
    destruct (List.find _ (product_prns (db st'))) as [r'|] eqn:F.
    - apply find_some in F as [Hin' Hk]. apply prn_keyed_spec in Hk.
      f_equal.
      apply (NoDup_key_unique prn_key (product_prns (db st')));
        [apply NoDup_ListNoDup, Hschema' | assumption | assumption |].
      rewrite Hk. unfold prn_key. congruence.
    - exfalso. pose proof (find_none _ _ F _ Hrin) as Hn.
      unfold Sql.prn_keyed in Hn.
      now rewrite Hrp, Hrs, Z.eqb_refl, !String.eqb_refl in Hn. }
  rewrite Hrow. cbn [fmap option_fmap option_map]. rewrite Hp, Hne, Hpng, Hread.
  eexists _, _. reflexivity.
Qed.

End PreviewLinks.

Lemma preview_links_resolve_witness :
  schema (db one_template_state)
  /\ get_product "P" (Some "raw") one_template_state
     = (one_template_state,
        Next (mk_product_view "P" "Raw" []
                [("Raw", 1); ("SFG", 0); ("FG", 0)]
                [mk_prn_view 1 "a.prn" 100 (Some "/preview/P/Raw/a.prn")]))
  /\ exists png flag,
       serve_preview Werkzeug.secure_filename offline_env "P" "Raw" "a.prn"
         (Some "1") one_template_state
       = (one_template_state, Next (png, flag)).
Proof.
  assert (H : schema (db one_template_state)).
  { constructor; cbn;
      try (apply (bool_decide_unpack _); vm_compute; reflexivity);
      repeat constructor; cbn; auto; lia. }
  assert (Hget : get_product "P" (Some "raw") one_template_state
                 = (one_template_state,
                    Next (mk_product_view "P" "Raw" []
                            [("Raw", 1); ("SFG", 0); ("FG", 0)]
                            [mk_prn_view 1 "a.prn" 100
                               (Some "/preview/P/Raw/a.prn")])))
    by (vm_compute; reflexivity).
  split; [exact H|]. split; [exact Hget|].
  exact (proj2 (preview_links_resolve Werkzeug.secure_filename offline_env
                  "P" (Some "raw") (Some "1") one_template_state
                  one_template_state _
                  (mk_prn_view 1 "a.prn" 100 (Some "/preview/P/Raw/a.prn"))
                  "/preview/P/Raw/a.prn" H Hget
                  (or_introl eq_refl) eq_refl eq_refl
                  (fun p => eq_refl))).
Defined.

(** ** Uploads that fail *)

Section UploadFails.

Variable secure_filename : string -> string.

(** X23: uploads that fail.  When [upload_file] answers anything but
    200, no PRN is registered and no variable changes.  A 400 answer
    leaves the whole state as it was.  A 409 answer (the registry already
    has the file name for the product and stage) comes after the file
    was saved: the uploaded content has been written and stays on disk,
    unregistered. *)
Theorem upload_failure_modes (e : env) (rq : upload_request) (st : state) :
  let result := run (upload_file secure_filename e rq) st in
  status_code (snd result) <> 200%Z ->
  product_prns (db (fst result)) = product_prns (db st)
  /\ variables (db (fst result)) = variables (db st)
  /\ (status_code (snd result) = 400%Z -> fst result = st)
  /\ (status_code (snd result) = 409%Z ->
      exists name content path,
        up_file rq = Some (name, content)
        /\ files (fst result) = <[path := content]> (files st)).
Proof.
  intros result. subst result. unfold run, upload_file.
  run_prefix.
  all: try match goal with
       | |- context [generate_preview ?e' ?a ?b ?s] =>
           destruct (generate_preview_cases e' a b s)
             as (st' & ok & Hg & Hdb & Hfiles); rewrite Hg; destruct ok;
           run_prefix
       end.
  all: cbn [fst snd status_code].
  all: intros Hne; try (exfalso; apply Hne; reflexivity).
  all: cbn [db files].
  all: rewrite ?insert_or_ignore_product_prns,
         ?insert_or_ignore_product_variables.
  all: do 2 (split; [reflexivity|]).
  all: split; [intros H; first [reflexivity | discriminate H]|].
  all: intros H; try discriminate H.
  all: eexists _, _, _; split; reflexivity.
Qed.

End UploadFails.

Lemma upload_failure_modes_witness :
  status_code
    (snd (run (upload_file Werkzeug.secure_filename offline_env
                 (upload_request_P "a.prn" "new"))
              (mk_state (db one_template_state) ∅ []))) <> 200%Z
  /\ exists name content path,
       up_file (upload_request_P "a.prn" "new") = Some (name, content)
       /\ files (fst (run (upload_file Werkzeug.secure_filename offline_env
                             (upload_request_P "a.prn" "new"))
                          (mk_state (db one_template_state) ∅ [])))
          = <[path := content]> ∅.
Proof.
  assert (H : status_code
                (snd (run (upload_file Werkzeug.secure_filename offline_env
                             (upload_request_P "a.prn" "new"))
                          (mk_state (db one_template_state) ∅ [])))
              <> 200%Z)
    by (vm_compute; discriminate).
  split; [exact H|].
  apply (proj2 (proj2 (proj2 (upload_failure_modes Werkzeug.secure_filename
                                offline_env (upload_request_P "a.prn" "new")
                                (mk_state (db one_template_state) ∅ []) H)))).
  vm_compute. reflexivity.
Defined.

(** ** A preview link that does not resolve *)

Lemma select_prn_appended (pid : Z) (stage filename : string)
    (row : prn_row) (seq : Z) (d : database) :
  existsb (Sql.prn_keyed pid stage filename) (product_prns d) = false ->
  prn_key row = (pid, stage, filename) ->
  Sql.select_prn pid stage filename
    (Sql.set_product_prns (product_prns d ++ [row]) seq d)
  = Some row.
Proof.
  intros Hfresh Hkey. unfold Sql.select_prn. cbn [Sql.set_product_prns
    product_prns]. rewrite find_app_first.
  destruct (List.find _ (product_prns d)) as [r|] eqn:F.
  - apply find_some in F as [Hin Hr]. apply not_true_iff_false in Hfresh.
    exfalso. apply Hfresh. apply existsb_exists. eauto.
  - cbn. apply prn_keyed_spec in Hkey. now rewrite Hkey.
Qed.

Section StaleLink.

Variable secure_filename : string -> string.

(** X24: a preview link that does not resolve.  [upload_file] puts a
    preview URL in its answer when the PNG file exists, not when the
    preview was generated.  So when the preview pipeline fails and the
    answer still carries a preview URL (a PNG of that name was there
    before), the registered row has no preview path, and [serve_preview]
    for the answered file name answers 404 "preview not available". *)
Theorem upload_stale_preview_link (e e' : env) (rq : upload_request)
    (st st' : state) (payload : list (string * json))
    (filename url : string) (args_download : option string) :
  (forall n, preview_failure (labelary e n)) ->
  run (upload_file secure_filename e rq) st = (st', Ok payload) ->
  dict_get payload "filename" = Some (JStr filename) ->
  dict_get payload "preview_url" = Some (JStr url) ->
  secure_filename filename = filename ->
  exists stage,
    stage_folder_name (upload_stage_raw rq) = Some stage
    /\ serve_preview secure_filename e' (upload_product_name rq) stage
         filename args_download st'
       = (st', Done (Error 404 "preview not available")).
Proof.
  intros Hfail. unfold run, upload_file.
  fold (upload_product_name rq). fold (upload_stage_raw rq).
  run_prefix; try discriminate.
  all: match goal with
       | |- context [generate_preview ?e0 ?a ?b ?s] =>
           destruct (generate_preview_failure e0 a b s Hfail)
             as (evs & Hg & _); rewrite Hg
       end.
  all: run_prefix.
  all: intros [= <- <-]; cbn [dict_get String.eqb Ascii.eqb Bool.eqb];
       intros [= <-]; try discriminate; intros _ Hfix.
  all: eexists; split; [reflexivity|].
  all: match goal with
       | H : stage_folder_name _ = Some ?s |- _ =>
           pose proof (stage_folder_name_fixed _
                         (stage_folder_name_allowed _ _ H)) as Hst
       end.
  all: unfold serve_preview; rewrite Hst, Hfix.
  all: match goal with
       | H : Sql.insert_prn _ _ _ _ _ _ = Some ?d |- _ =>
           pose proof (insert_prn_fresh _ _ _ _ _ _ _ H) as Hfresh;
           apply insert_prn_Some in H; subst d
       end.
  all: unfold_M; cbn [fst snd db files trace].
  all: match goal with
       | H : Sql.select_product_id ?n ?d = Some ?z
         |- context [Sql.select_product_id ?n ?d'] =>
           change (Sql.select_product_id n d') with
             (Sql.select_product_id n d); rewrite H
       end.
  all: rewrite select_prn_appended by (assumption || reflexivity).
  all: reflexivity.
Qed.

End StaleLink.

Lemma upload_stale_preview_link_witness :
  (forall n, preview_failure (labelary offline_env n))
  /\ dict_get
       (match snd (run (upload_file Werkzeug.secure_filename offline_env
                          (upload_request_P "a.prn" "^XA^XZ"))
                       (mk_state empty_database
                          (<["uploads/P/Raw/a.png" := "old"]> ∅) [])) with
        | Ok payload => payload
        | Error _ _ => []
        end) "preview_url" = Some (JStr "/preview/P/Raw/a.prn")
  /\ exists stage,
       stage_folder_name (upload_stage_raw (upload_request_P "a.prn" "^XA^XZ"))
       = Some stage
       /\ serve_preview Werkzeug.secure_filename offline_env
            (upload_product_name (upload_request_P "a.prn" "^XA^XZ")) stage
            "a.prn" None
            (fst (run (upload_file Werkzeug.secure_filename offline_env
                         (upload_request_P "a.prn" "^XA^XZ"))
                      (mk_state empty_database
                         (<["uploads/P/Raw/a.png" := "old"]> ∅) [])))
          = (fst (run (upload_file Werkzeug.secure_filename offline_env
                         (upload_request_P "a.prn" "^XA^XZ"))
                      (mk_state empty_database
                         (<["uploads/P/Raw/a.png" := "old"]> ∅) [])),
             Done (Error 404 "preview not available")).
Proof.
  assert (H : forall n, preview_failure (labelary offline_env n))
    by (intros n; exact Logic.I).
  split; [exact H|]. split; [vm_compute; reflexivity|].
  apply (upload_stale_preview_link Werkzeug.secure_filename offline_env
           offline_env (upload_request_P "a.prn" "^XA^XZ")
           (mk_state empty_database (<["uploads/P/Raw/a.png" := "old"]> ∅) [])
           _
           [("message", JStr "uploaded"); ("filename", JStr "a.prn");
            ("stage", JStr "Raw");
            ("saved_path", JStr "uploads/P/Raw/a.prn");
            ("fields", JStrs []);
            ("preview_url", JStr "/preview/P/Raw/a.prn")]
           "a.prn" "/preview/P/Raw/a.prn" None H).
  - vm_compute. reflexivity.
  - reflexivity.
  - reflexivity.
  - vm_compute. reflexivity.
Defined.
